(** * Browser-driven extraction and inference workers

    A shallow embedding of the three Cloudflare Workers of this repository:

    - [src/index.ts]: the analyse / summarise / extract handler
      ([RequestSchema], [launchAndNavigate], [fetch]);
    - the assistant worker: its [fetch] with the preflight, the
      [/generate], [/feedback] and [/analyze-link] branches and the 404;
    - the structured-extraction worker ([fetch] and [getLLMResult]).

    JavaScript strings are sequences of UTF-16 code units, JSON values are an
    inductive type, and every remote call (browser, model, HTTP, console) is
    an entry of an explicit trace threaded through a small state-and-exception
    monad.  The answers of the remote services are fields of an environment
    record, so that a handler can be run against any behaviour of the
    services, failures included. *)

From Stdlib Require Import String Ascii ZArith NArith QArith Bool Lia List.
From Stdlib Require Import DecimalString.
Import ListNotations.
Close Scope Q_scope.
Open Scope list_scope.

Set Implicit Arguments.
Set Warnings "-register-all".

(* ================================================================= *)
(** * JavaScript values *)

(** A JavaScript string: its UTF-16 code units. *)
Definition jsstring := list N.

(** A source literal (all literals of the workers are ASCII). *)
Definition js (s : string) : jsstring := map N_of_ascii (list_ascii_of_string s).

Definition jseqb (a b : jsstring) : bool :=
  if list_eq_dec N.eq_dec a b then true else false.

(** [s.substring(0, n)]. *)
Definition substring0 (n : N) (s : jsstring) : jsstring :=
  firstn (N.to_nat n) s.

(** [s.length > n], on code units. *)
Definition longer_than (n : N) (s : jsstring) : bool :=
  (n <? N.of_nat (length s))%N.

(** Line feed, for the [\n] of template literals. *)
Definition LF : jsstring := [10%N].

(** JSON values; numbers are kept exact. *)
Inductive JSON :=
| JNull
| JBool (b : bool)
| JNum (q : Q)
| JStr (s : jsstring)
| JArr (l : list JSON)
| JObj (fields : list (jsstring * JSON)).

(** A JavaScript value that may be [undefined]. *)
Definition jsval := option JSON.
Definition undefined : jsval := None.

(** What a [throw] carries: an [Error] object (name and message) or some
    other value. *)
Inductive exn :=
| JSError (name message : jsstring)
| Thrown (v : jsval).

Inductive outcome (A : Type) :=
| Normal (a : A)
| Raise (e : exn).
Arguments Normal {A} a.
Arguments Raise {A} e.

(** Own property lookup in an object literal; a later duplicate wins. *)
Fixpoint obj_get (k : jsstring) (fields : list (jsstring * JSON)) : jsval :=
  match fields with
  | [] => None
  | (k', v) :: rest =>
      match obj_get k rest with
      | Some v' => Some v'
      | None => if jseqb k k' then Some v else None
      end
  end.

Definition type_error (m : string) : exn := JSError (js "TypeError") (js m).

(** [v.k] for a property name [k] that no prototype defines: a TypeError on
    [undefined] and [null], the own property on an object, [undefined] on
    anything else.  The message of the TypeError is the start of the
    engine's, which goes on to name the property; what matters below is that
    a TypeError is raised, and where. *)
Definition member (v : jsval) (k : jsstring) : outcome jsval :=
  match v with
  | None => Raise (type_error "Cannot read properties of undefined")
  | Some JNull => Raise (type_error "Cannot read properties of null")
  | Some (JObj fields) => Normal (obj_get k fields)
  | Some _ => Normal None
  end.

(** JavaScript truthiness. *)
Definition truthy (v : jsval) : bool :=
  match v with
  | None => false
  | Some JNull => false
  | Some (JBool b) => b
  | Some (JNum q) => negb (Qeq_bool q 0)
  | Some (JStr s) => match s with [] => false | _ => true end
  | Some (JArr _) => true
  | Some (JObj _) => true
  end.

(** [a || b]. *)
Definition js_or (a b : jsval) : jsval := if truthy a then a else b.

(** Decimal rendering of an integer, as a template literal does. *)
Definition Z_to_js (z : Z) : jsstring :=
  js (NilEmpty.string_of_int (Z.to_int z)).

(* ================================================================= *)
(** * Regular expressions

    A backtracking matcher for the fragment of ECMAScript regular expressions
    the workers use: literals, sequencing, a greedy optional group, greedy and
    lazy repetition of a character class, and one capturing group.  The
    matcher is written in continuation-passing style: the continuation is the
    rest of the pattern, and a [None] from it makes the matcher try its next
    alternative, in the order ECMAScript prescribes. *)

Module RegExp.

Inductive regex :=
| Lit (l : jsstring)            (* the characters of l, in order *)
| Seq (r1 r2 : regex)           (* r1 r2 *)
| Opt (r : regex)               (* (?:r)?  greedy *)
| Star (p : N -> bool)          (* [p]*    greedy *)
| StarLazy (p : N -> bool)      (* [p]*?   lazy *)
| Group (r : regex).            (* (r)     capturing group 1 *)

(** [\s]: WhiteSpace and LineTerminator code units. *)
Definition is_space (c : N) : bool :=
  ((9 <=? c) && (c <=? 13) || (c =? 32) || (c =? 160) || (c =? 5760)
   || ((8192 <=? c) && (c <=? 8202)) || (c =? 8232) || (c =? 8233)
   || (c =? 8239) || (c =? 8287) || (c =? 12288) || (c =? 65279))%N.

(** [[\s\S]]: any code unit. *)
Definition any_char (c : N) : bool := true.

Fixpoint strip_prefix (l s : jsstring) : option jsstring :=
  match l, s with
  | [], _ => Some s
  | _ :: _, [] => None
  | a :: l', b :: s' => if N.eqb a b then strip_prefix l' s' else None
  end.

Section Exec.
Variable R : Type.

(** Greedy repetition: one more character first, the continuation last. *)
Fixpoint star (p : N -> bool) (s : jsstring) (k : jsstring -> option R)
  : option R :=
  match s with
  | c :: s' =>
      if p c then
        match star p s' k with
        | Some r => Some r
        | None => k s
        end
      else k s
  | [] => k s
  end.

(** Lazy repetition: the continuation first, one more character last. *)
Fixpoint star_lazy (p : N -> bool) (s : jsstring) (k : jsstring -> option R)
  : option R :=
  match k s with
  | Some r => Some r
  | None =>
      match s with
      | c :: s' => if p c then star_lazy p s' k else None
      | [] => None
      end
  end.

(** The part of [s] consumed when [s'] is what is left of it. *)
Definition consumed (s s' : jsstring) : jsstring :=
  firstn (length s - length s') s.

(** [exec r s cap k]: match [r] at the head of [s], with capture [cap] so
    far, then continue with [k] on the rest and the captures. *)
Fixpoint exec (r : regex) (s : jsstring) (cap : option jsstring)
         (k : jsstring -> option jsstring -> option R) : option R :=
  match r with
  | Lit l =>
      match strip_prefix l s with
      | Some s' => k s' cap
      | None => None
      end
  | Seq r1 r2 => exec r1 s cap (fun s' cap' => exec r2 s' cap' k)
  | Opt r1 =>
      match exec r1 s cap k with
      | Some x => Some x
      | None => k s cap
      end
  | Star p => star p s (fun s' => k s' cap)
  | StarLazy p => star_lazy p s (fun s' => k s' cap)
  | Group r1 => exec r1 s cap (fun s' _ => k s' (Some (consumed s s')))
  end.
End Exec.

(** The match array of a successful match: element 0 and element 1. *)
Record match_array := { whole : jsstring; group1 : option jsstring }.

(** Match at the head of [s]. *)
Definition match_here (r : regex) (s : jsstring) : option match_array :=
  exec r s None
       (fun s' cap => Some {| whole := consumed s s'; group1 := cap |}).

(** [s.match(r)] for a pattern without the global flag: the leftmost start
    position that matches, or [null]. *)
Fixpoint String_match (r : regex) (s : jsstring) : option match_array :=
  match match_here r s with
  | Some m => Some m
  | None =>
      match s with
      | [] => None
      | _ :: s' => String_match r s'
      end
  end.

End RegExp.

(* ================================================================= *)
(** * Remote calls, traces and the handler monad *)

(** An argument of a console call. *)
Inductive log_arg :=
| LogStr (s : jsstring)
| LogExn (e : exn)
| LogJSON (v : JSON).           (* JSON.stringify(v, ...) *)

(** The calls a handler makes to the outside world. *)
Inductive call :=
| Request_json
| Date_now
| Date_toISOString
| Puppeteer_launch
| Browser_newPage
| Page_setViewport (width height : Q)
| Page_goto (url : JSON) (waitUntil : option jsstring) (timeout : option Z)
| Page_waitForSelector (selector : jsstring) (timeout : Z)
| Page_screenshot (fullPage : bool)
| Page_evaluate_innerText       (* page.evaluate(() => document.body.innerText) *)
| Page_eval_body_textContent    (* page.$eval on body: el.textContent, or the empty string *)
| Page_content
| Browser_close
| AI_run (model : jsstring) (inputs : JSON)
| HTTP_fetch (url : jsstring) (init : JSON)
| Response_text
| Response_json
| Console_error (args : list log_arg)
| Console_log (args : list log_arg).

(** One call and, when it raised, what it raised. *)
Record entry := { what : call; raised : option exn }.

Definition trace := list entry.

(** A computation: it extends the trace and ends normally or by a throw. *)
Definition M (A : Type) := trace -> outcome A * trace.

Definition ret {A} (a : A) : M A := fun t => (Normal a, t).

Definition bind {A B} (m : M A) (f : A -> M B) : M B :=
  fun t =>
    match m t with
    | (Normal a, t') => f a t'
    | (Raise e, t') => (Raise e, t')
    end.

Definition throw {A} (e : exn) : M A := fun t => (Raise e, t).

(** A value or a throw computed without any call. *)
Definition lift {A} (o : outcome A) : M A := fun t => (o, t).

Definition raised_of {A} (o : outcome A) : option exn :=
  match o with
  | Normal _ => None
  | Raise e => Some e
  end.

(** An awaited call [c] that the outside world answers with [o]. *)
Definition perform {A} (c : call) (o : outcome A) : M A :=
  fun t => (o, t ++ [{| what := c; raised := raised_of o |}]).

(** [try { m } catch (e) { h e }]. *)
Definition try_catch {A} (m : M A) (h : exn -> M A) : M A :=
  fun t =>
    match m t with
    | (Normal a, t') => (Normal a, t')
    | (Raise e, t') => h e t'
    end.

(** [try { m } finally { f }]: [f] runs on every exit of [m]; a throw of
    [f] replaces the completion of [m]. *)
Definition try_finally {A} (m : M A) (f : M unit) : M A :=
  fun t =>
    match m t with
    | (o, t') =>
        match f t' with
        | (Normal _, t'') => (o, t'')
        | (Raise e, t'') => (Raise e, t'')
        end
    end.

Declare Scope js_scope.
Delimit Scope js_scope with js_m.
Notation "x <- m ;; k" := (bind m (fun x => k))
  (at level 100, m at next level, right associativity) : js_scope.
Notation "m ;;; k" := (bind m (fun _ => k))
  (at level 100, right associativity) : js_scope.
Open Scope js_scope.

(** Run a handler from the empty trace. *)
Definition run {A} (m : M A) : outcome A * trace := m [].

(** How many times a call satisfying [p] occurs in a trace. *)
Definition count_calls (p : call -> bool) (t : trace) : nat :=
  List.length (filter (fun e => p (what e)) t).

Definition is_launch (c : call) : bool :=
  match c with Puppeteer_launch => true | _ => false end.
Definition is_close (c : call) : bool :=
  match c with Browser_close => true | _ => false end.
Definition is_AI_run (c : call) : bool :=
  match c with AI_run _ _ => true | _ => false end.
Definition is_fetch (c : call) : bool :=
  match c with HTTP_fetch _ _ => true | _ => false end.

(** The remote services are the browser, the model and the HTTP client;
    the console, the clock and the request body are local. *)
Definition is_remote (c : call) : bool :=
  match c with
  | Request_json | Date_now | Date_toISOString
  | Console_error _ | Console_log _ => false
  | _ => true
  end.

(** The browser rendering service: what each call on the session answers. *)
Record Browser := {
  launch : outcome unit;
  newPage : outcome unit;
  setViewport : Q -> Q -> outcome unit;
  goto : JSON -> outcome unit;
  waitFor : jsstring -> outcome unit;
  screenshot : bool -> outcome (list N);
  innerText : outcome jsstring;
  body_textContent : outcome jsstring;
  content : outcome jsstring;
  close : outcome unit
}.

(** HTTP responses produced by a handler. *)
Inductive body :=
| BodyText (s : jsstring)
| BodyJSON (v : JSON)           (* the JSON text of v *)
| BodyNone.

Record Response := {
  status : Z;
  headers : list (jsstring * jsstring);
  payload : body
}.

(** [Response.json(v, { status })]; a field whose value is [undefined] is
    left out by the serialisation, see [fields_of]. *)
Definition Response_json_of (v : JSON) (st : Z) : Response :=
  {| status := st; headers := []; payload := BodyJSON v |}.

(** An object literal whose property values may be [undefined]: what
    JSON.stringify keeps of it. *)
Fixpoint fields_of (l : list (jsstring * jsval)) : list (jsstring * JSON) :=
  match l with
  | [] => []
  | (k, Some v) :: rest => (k, v) :: fields_of rest
  | (_, None) :: rest => fields_of rest
  end.

(* ================================================================= *)
(** * A reference JSON.parse

    [JSON.parse] is a builtin of the platform; the handlers below take it as a
    parameter.  This is the ECMA-404 grammar, used to run the handlers on
    concrete replies: numbers are exact rationals, an object keeps its members
    in source order. *)

Module JsonText.

Definition is_ws (c : N) : bool :=
  ((c =? 9) || (c =? 10) || (c =? 13) || (c =? 32))%N.

Fixpoint skip_ws (s : jsstring) : jsstring :=
  match s with
  | c :: s' => if is_ws c then skip_ws s' else s
  | [] => []
  end.

Definition digit (c : N) : option Z :=
  if ((48 <=? c) && (c <=? 57))%N then Some (Z.of_N c - 48)%Z else None.

Definition hex_digit (c : N) : option N :=
  if ((48 <=? c) && (c <=? 57))%N then Some (c - 48)%N
  else if ((97 <=? c) && (c <=? 102))%N then Some (c - 87)%N
  else if ((65 <=? c) && (c <=? 70))%N then Some (c - 55)%N
  else None.

(** Digits at the head of [s]: their value after [acc], how many, the rest. *)
Fixpoint digits (s : jsstring) (acc : Z) (n : nat) : Z * nat * jsstring :=
  match s with
  | c :: s' =>
      match digit c with
      | Some d => digits s' (10 * acc + d)%Z (S n)
      | None => (acc, n, s)
      end
  | [] => (acc, n, [])
  end.

(** mantissa * 10^e as a reduced fraction. *)
Definition scale (mantissa e : Z) : Q :=
  if (0 <=? e)%Z then Qred (inject_Z (mantissa * 10 ^ e))
  else Qred (Qmake mantissa (Z.to_pos (10 ^ (- e)))).

(** The integer part: a single 0, or a nonzero digit and more digits. *)
Definition int_part (s : jsstring) : option (Z * jsstring) :=
  match s with
  | 48%N :: s' => Some (0%Z, s')
  | c :: _ =>
      match digit c with
      | Some _ => let '(v, _, r) := digits s 0%Z 0 in Some (v, r)
      | None => None
      end
  | [] => None
  end.

Definition frac_part (v : Z) (s : jsstring) : option (Z * Z * jsstring) :=
  match s with
  | 46%N :: s' =>
      match digits s' v 0 with
      | (_, O, _) => None
      | (v', n, r) => Some (v', Z.of_nat n, r)
      end
  | _ => Some (v, 0%Z, s)
  end.

Definition exp_digits (s : jsstring) : option (Z * jsstring) :=
  match digits s 0%Z 0 with
  | (_, O, _) => None
  | (e, _, r) => Some (e, r)
  end.

Definition exp_part (s : jsstring) : option (Z * jsstring) :=
  match s with
  | c :: s' =>
      if ((c =? 101) || (c =? 69))%N then
        match s' with
        | 43%N :: s'' => exp_digits s''
        | 45%N :: s'' =>
            match exp_digits s'' with
            | Some (e, r) => Some ((- e)%Z, r)
            | None => None
            end
        | _ => exp_digits s'
        end
      else Some (0%Z, s)
  | [] => Some (0%Z, s)
  end.

Definition number (s : jsstring) : option (Q * jsstring) :=
  let '(sign, s1) :=
    match s with
    | 45%N :: s' => ((-1)%Z, s')
    | _ => (1%Z, s)
    end in
  match int_part s1 with
  | None => None
  | Some (i, s2) =>
      match frac_part i s2 with
      | None => None
      | Some (m, fd, s3) =>
          match exp_part s3 with
          | None => None
          | Some (e, s4) => Some (scale (sign * m) (e - fd), s4)
          end
      end
  end.

(** The character an escape letter stands for. *)
Definition escape (e : N) : option N :=
  (if e =? 34 then Some 34 else if e =? 92 then Some 92
   else if e =? 47 then Some 47 else if e =? 98 then Some 8
   else if e =? 102 then Some 12 else if e =? 110 then Some 10
   else if e =? 114 then Some 13 else if e =? 116 then Some 9
   else None)%N.

(** The characters of a string literal after its opening quote. *)
Fixpoint string_chars (s : jsstring) (acc : jsstring)
  : option (jsstring * jsstring) :=
  match s with
  | [] => None
  | c :: r =>
      if (c =? 34)%N then Some (rev acc, r)
      else if (c =? 92)%N then
        match r with
        | [] => None
        | e :: r1 =>
            if (e =? 117)%N then
              match r1 with
              | a :: b :: c' :: d :: r2 =>
                  match hex_digit a, hex_digit b, hex_digit c', hex_digit d with
                  | Some a', Some b', Some c'', Some d' =>
                      string_chars r2
                        ((4096 * a' + 256 * b' + 16 * c'' + d')%N :: acc)
                  | _, _, _, _ => None
                  end
              | _ => None
              end
            else
              match escape e with
              | Some x => string_chars r1 (x :: acc)
              | None => None
              end
        end
      else if (c <? 32)%N then None
      else string_chars r (c :: acc)
  end.

(** A literal name ([true], [false], [null]) at the head of [s]. *)
Definition keyword (w : string) (s : jsstring) : option jsstring :=
  RegExp.strip_prefix (js w) s.

(** [value fuel s]: one JSON value at the head of [s] after white space, and
    the rest.  [elements] and [members] read what follows the first element
    of an array and the first member of an object. *)
Fixpoint value (fuel : nat) (s : jsstring) : option (JSON * jsstring) :=
  match fuel with
  | O => None
  | S f =>
      match skip_ws s with
      | [] => None
      | c :: r =>
          if (c =? 123)%N then
            match skip_ws r with
            | c1 :: r1 =>
                if (c1 =? 125)%N then Some (JObj [], r1) else members f r []
            | [] => None
            end
          else if (c =? 91)%N then
            match skip_ws r with
            | c1 :: r1 =>
                if (c1 =? 93)%N then Some (JArr [], r1) else elements f r []
            | [] => None
            end
          else if (c =? 34)%N then
            match string_chars r [] with
            | Some (str, r1) => Some (JStr str, r1)
            | None => None
            end
          else if (c =? 116)%N then
            option_map (fun r1 => (JBool true, r1)) (keyword "true" (c :: r))
          else if (c =? 102)%N then
            option_map (fun r1 => (JBool false, r1)) (keyword "false" (c :: r))
          else if (c =? 110)%N then
            option_map (fun r1 => (JNull, r1)) (keyword "null" (c :: r))
          else
            match number (c :: r) with
            | Some (q, r1) => Some (JNum q, r1)
            | None => None
            end
      end
  end
with elements (fuel : nat) (s : jsstring) (acc : list JSON)
  : option (JSON * jsstring) :=
  match fuel with
  | O => None
  | S f =>
      match value f s with
      | None => None
      | Some (v, r) =>
          match skip_ws r with
          | c :: r1 =>
              if (c =? 44)%N then elements f r1 (v :: acc)
              else if (c =? 93)%N then Some (JArr (rev (v :: acc)), r1)
              else None
          | [] => None
          end
      end
  end
with members (fuel : nat) (s : jsstring) (acc : list (jsstring * JSON))
  : option (JSON * jsstring) :=
  match fuel with
  | O => None
  | S f =>
      match skip_ws s with
      | c :: r =>
          if (c =? 34)%N then
            match string_chars r [] with
            | None => None
            | Some (key, r1) =>
                match skip_ws r1 with
                | c2 :: r2 =>
                    if (c2 =? 58)%N then
                      match value f r2 with
                      | None => None
                      | Some (v, r3) =>
                          match skip_ws r3 with
                          | c4 :: r4 =>
                              if (c4 =? 44)%N then
                                members f r4 ((key, v) :: acc)
                              else if (c4 =? 125)%N then
                                Some (JObj (rev ((key, v) :: acc)), r4)
                              else None
                          | [] => None
                          end
                      end
                    else None
                | [] => None
                end
            end
          else None
      | [] => None
      end
  end.

(** [JSON.parse(text)]: the value, or the message of the SyntaxError.  Between
    two calls of [value] a character is consumed and at most one call of
    [elements] or [members] is made, so two units of fuel per character are
    enough. *)
Definition parse (text : jsstring) : JSON + jsstring :=
  match value (2 * List.length text + 2) text with
  | Some (v, r) =>
      match skip_ws r with
      | [] => inl v
      | _ => inr (js "Unexpected non-whitespace character after JSON")
      end
  | None => inr (js "Unexpected token or end of JSON input")
  end.

End JsonText.

(* ================================================================= *)
(** * The structured-extraction worker: [getLLMResult] *)

Module Scraper.

(** The fence pattern of [getLLMResult]:
    three backticks, (?:json)?, \s*, ([\s\S]*?), \s*, three backticks. *)
Definition fence : jsstring := js "```".

Definition fence_regex : RegExp.regex :=
  RegExp.Seq (RegExp.Lit fence)
    (RegExp.Seq (RegExp.Opt (RegExp.Lit (js "json")))
      (RegExp.Seq (RegExp.Star RegExp.is_space)
        (RegExp.Seq (RegExp.Group (RegExp.StarLazy RegExp.any_char))
          (RegExp.Seq (RegExp.Star RegExp.is_space)
            (RegExp.Lit fence))))).

(** [(text.match(fence_regex) || [null, text])[1]]. *)
Definition candidate (text : jsstring) : option jsstring :=
  match RegExp.String_match fence_regex text with
  | Some m => RegExp.group1 m
  | None => Some text
  end.

(** The string JSON.parse reads from its argument. *)
Definition to_text (v : option jsstring) : jsstring :=
  match v with
  | Some s => s
  | None => js "undefined"
  end.

(** The answer of the HTTP client to [fetch(aiUrl, ...)]. *)
Record HttpResponse := {
  ok : bool;
  http_status : Z;
  text : outcome jsstring;      (* await response.text() *)
  json : outcome JSON           (* await response.json() *)
}.

Record Env := {
  ACCOUNT_ID : jsstring;
  API_TOKEN : jsstring;
  fetch : jsstring -> JSON -> outcome HttpResponse
}.

Definition model : jsstring := js "@hf/thebloke/deepseek-coder-6.7b-instruct-awq".

Definition aiUrl (env : Env) : jsstring :=
  js "https://api.cloudflare.com/client/v4/accounts/" ++ ACCOUNT_ID env
  ++ js "/ai/run/" ++ model.

Definition requestBody (prompt : jsstring) : JSON :=
  JObj [(js "messages",
         JArr [JObj [(js "role", JStr (js "user"));
                     (js "content", JStr prompt)]])].

(** The second argument of [fetch]; its [body] is the JSON text of
    [requestBody]. *)
Definition init (env : Env) (prompt : jsstring) : JSON :=
  JObj [(js "method", JStr (js "POST"));
        (js "headers",
         JObj [(js "Content-Type", JStr (js "application/json"));
               (js "Authorization", JStr (js "Bearer " ++ API_TOKEN env))]);
        (js "body", requestBody prompt)].

Definition llm_failure (env : Env) (st : Z) : exn :=
  JSError (js "Error")
          (js "LLM call failed " ++ aiUrl env ++ js " " ++ Z_to_js st).

Section WithJSONParse.
(** The platform's [JSON.parse]: the value, or the SyntaxError message. *)
Variable JSON_parse : jsstring -> JSON + jsstring.

(** The lines after the HTTP exchange: from the reply text to the result.
    [undefined] is what the function returns when it falls off its end. *)
Definition resolve (reply : jsstring) : M jsval :=
  let value := candidate reply in
  match JSON_parse (to_text value) with
  | inl v => ret (Some v)
  | inr msg =>
      perform
        (Console_error
           [LogStr (js "SyntaxError: " ++ msg ++ js " . Response: "
                    ++ to_text value)])
        (Normal tt) ;;;
      ret undefined
  end.

Definition getLLMResult (env : Env) (prompt : jsstring) : M jsval :=
  response <- perform (HTTP_fetch (aiUrl env) (init env prompt))
                      (fetch env (aiUrl env) (init env prompt)) ;;
  if negb (ok response) then
    t <- perform Response_text (text response) ;;
    perform (Console_log [LogJSON (JStr t)]) (Normal tt) ;;;
    throw (llm_failure env (http_status response))
  else
    data <- perform Response_json (json response) ;;
    result <- lift (member (Some data) (js "result")) ;;
    response_field <- lift (member result (js "response")) ;;
    match js_or response_field (Some (JStr [])) with
    | Some (JStr reply) => resolve reply
    | _ => throw (type_error "text.match is not a function")
    end.
End WithJSONParse.

(** ** The candidate text as the specification words it

    The second definition of the candidate, for comparison with [candidate]:
    search the reply for a block delimited by triple backticks, optionally
    tagged json; if found, take its interior, otherwise the whole reply. *)

(** The first occurrence of [needle] in [s]: what is before it and what is
    after it. *)
Fixpoint find (needle s : jsstring) : option (jsstring * jsstring) :=
  match RegExp.strip_prefix needle s with
  | Some rest => Some ([], rest)
  | None =>
      match s with
      | [] => None
      | c :: s' =>
          match find needle s' with
          | Some (before, rest) => Some (c :: before, rest)
          | None => None
          end
      end
  end.

(** Without the tag the opening fence may carry. *)
Definition drop_tag (s : jsstring) : jsstring :=
  match RegExp.strip_prefix (js "json") s with
  | Some rest => rest
  | None => s
  end.

(** Without the white space at the start, at the end, at both ends. *)
Fixpoint trim_start (s : jsstring) : jsstring :=
  match s with
  | c :: s' => if RegExp.is_space c then trim_start s' else s
  | [] => []
  end.

Fixpoint trim_end (s : jsstring) : jsstring :=
  match s with
  | [] => []
  | c :: s' =>
      match trim_end s' with
      | [] => if RegExp.is_space c then [] else [c]
      | t => c :: t
      end
  end.

Definition trim (s : jsstring) : jsstring := trim_end (trim_start s).

(** The interior of the first fenced block: from the first triple backtick,
    past the tag, to the next triple backtick. *)
Definition fenced_interior (reply : jsstring) : option jsstring :=
  match find fence reply with
  | None => None
  | Some (_, after_open) =>
      match find fence (drop_tag after_open) with
      | None => None
      | Some (interior, _) => Some (trim interior)
      end
  end.

Definition spec_candidate (reply : jsstring) : jsstring :=
  match fenced_interior reply with
  | Some interior => interior
  | None => reply
  end.

End Scraper.

(* ================================================================= *)
(** * The validation library

    The part of zod that [src/index.ts] uses.  A schema parses an input at a
    path and returns a status with a value, and the issues it found.  A value
    of the wrong type (a missing required key included) aborts the parse; a
    failed check on a value of the right type only marks the result dirty.  An
    object parses all its keys, and aborts when one of them aborted.  A
    refinement runs only on a parse that did not abort. *)

Module Zod.

Inductive issue_code :=
| invalid_type (expected : jsstring) (received : jsval)
| invalid_enum_value (options : list jsstring) (received : jsstring)
| invalid_string_url
| not_integer
| too_small
| custom.

Record issue := {
  code : issue_code;
  path : list jsstring;
  message : jsstring
}.

(** What [_parse] returns: a valid or a dirty value, or INVALID. *)
Inductive parse_return (A : Type) :=
| ok (a : A)
| dirty (a : A)
| aborted.
Arguments ok {A} a.
Arguments dirty {A} a.
Arguments aborted {A}.

Definition parsed (A : Type) : Type := parse_return A * list issue.

Definition schema (A : Type) : Type := list jsstring -> jsval -> parsed A.

Definition is_aborted {A} (r : parse_return A) : bool :=
  match r with aborted => true | _ => false end.

(** [mergeObjectSync], one key at a time: the object built so far and the
    next parsed key. *)
Definition merge {A B} (f : parsed (A -> B)) (x : parsed A) : parsed B :=
  (match fst f, fst x with
   | aborted, _ => aborted
   | _, aborted => aborted
   | ok g, ok a => ok (g a)
   | ok g, dirty a => dirty (g a)
   | dirty g, ok a => dirty (g a)
   | dirty g, dirty a => dirty (g a)
   end,
   snd f ++ snd x).

Definition map_parsed {A B} (g : A -> B) (x : parsed A) : parsed B :=
  (match fst x with
   | ok a => ok (g a)
   | dirty a => dirty (g a)
   | aborted => aborted
   end,
   snd x).

(** Add the issue of a failed check to a parse that did not abort. *)
Definition add_check {A} (holds : A -> bool) (i : issue) (x : parsed A)
  : parsed A :=
  match fst x with
  | ok a => if holds a then x else (dirty a, snd x ++ [i])
  | dirty a => if holds a then x else (dirty a, snd x ++ [i])
  | aborted => x
  end.

(** [typeof]-like classification used in the messages of the library. *)
Definition is_object (v : jsval) : option (list (jsstring * JSON)) :=
  match v with
  | Some (JObj fields) => Some fields
  | _ => None
  end.

Definition is_integer (q : Q) : bool := (Qden (Qred q) =? 1)%positive.
Definition is_positive (q : Q) : bool := (0 <? Qnum q)%Z.

Section Schemas.
(** The messages the library gives to issues without a custom message. *)
Variable default_message : issue_code -> jsstring.
(** [new URL(s)] succeeds. *)
Variable URL_valid : jsstring -> bool.

Definition mk_issue (c : issue_code) (p : list jsstring) : issue :=
  {| code := c; path := p; message := default_message c |}.

(** z.string() *)
Definition z_string : schema jsstring :=
  fun p v =>
    match v with
    | Some (JStr s) => (ok s, [])
    | _ => (aborted, [mk_issue (invalid_type (js "string") v) p])
    end.

(** z.string().url({ message }) *)
Definition z_string_url (msg : jsstring) : schema jsstring :=
  fun p v =>
    add_check URL_valid
              {| code := invalid_string_url; path := p; message := msg |}
              (z_string p v).

(** z.boolean() *)
Definition z_boolean : schema bool :=
  fun p v =>
    match v with
    | Some (JBool b) => (ok b, [])
    | _ => (aborted, [mk_issue (invalid_type (js "boolean") v) p])
    end.

(** z.number().int().positive() *)
Definition z_number_int_positive : schema Q :=
  fun p v =>
    match v with
    | Some (JNum q) =>
        add_check is_positive (mk_issue too_small p)
          (add_check is_integer (mk_issue not_integer p) (ok q, []))
    | _ => (aborted, [mk_issue (invalid_type (js "number") v) p])
    end.

(** z.enum([...]), with the value each option stands for. *)
Definition z_enum {A} (options : list (jsstring * A)) : schema A :=
  fun p v =>
    match v with
    | Some (JStr s) =>
        match find (fun o => jseqb s (fst o)) options with
        | Some o => (ok (snd o), [])
        | None =>
            (aborted, [mk_issue (invalid_enum_value (map fst options) s) p])
        end
    | _ => (aborted, [mk_issue (invalid_type (js "string") v) p])
    end.

(** s.optional() *)
Definition z_optional {A} (s : schema A) : schema (option A) :=
  fun p v =>
    match v with
    | None => (ok None, [])
    | Some _ => map_parsed Some (s p v)
    end.

(** s.optional().default(d), [d] being what the default parses to. *)
Definition z_optional_default {A} (s : schema A) (d : A) : schema A :=
  fun p v =>
    match v with
    | None => (ok d, [])
    | Some _ => s p v
    end.

(** The start of an object: the input must be an object. *)
Definition z_object {A} (build : list jsstring -> list (jsstring * JSON)
                                 -> parsed A) : schema A :=
  fun p v =>
    match is_object v with
    | Some fields => build p fields
    | None => (aborted, [mk_issue (invalid_type (js "object") v) p])
    end.

(** The key [k] of an object, parsed by [s]. *)
Definition key {A} (k : string) (s : schema A) (p : list jsstring)
           (fields : list (jsstring * JSON)) : parsed A :=
  s (p ++ [js k]) (obj_get (js k) fields).

(** s.refine(holds, { message, path }) *)
Definition z_refine {A} (s : schema A) (holds : A -> bool)
           (msg : jsstring) (sub : list jsstring) : schema A :=
  fun p v =>
    add_check holds {| code := custom; path := p ++ sub; message := msg |}
              (s p v).

(** s.safeParse(v): success only for a valid result. *)
Definition safeParse {A} (s : schema A) (v : jsval) : A + list issue :=
  match s [] v with
  | (ok a, _) => inl a
  | (_, issues) => inr issues
  end.
End Schemas.

(** Append [m] to the messages of the key [k], in insertion order. *)
Fixpoint push_field (k m : jsstring) (fe : list (jsstring * list jsstring))
  : list (jsstring * list jsstring) :=
  match fe with
  | [] => [(k, [m])]
  | (k', ms) :: rest =>
      if jseqb k k' then (k', ms ++ [m]) :: rest
      else (k', ms) :: push_field k m rest
  end.

(** error.flatten(): the messages of the issues, by first path element. *)
Fixpoint flatten_from (issues : list issue)
         (form : list jsstring) (fe : list (jsstring * list jsstring))
  : list jsstring * list (jsstring * list jsstring) :=
  match issues with
  | [] => (form, fe)
  | i :: rest =>
      match path i with
      | [] => flatten_from rest (form ++ [message i]) fe
      | k :: _ => flatten_from rest form (push_field k (message i) fe)
      end
  end.

Definition strings (l : list jsstring) : JSON := JArr (map JStr l).

Definition form_errors (issues : list issue) : list jsstring :=
  fst (flatten_from issues [] []).

Definition field_errors (issues : list issue)
  : list (jsstring * list jsstring) :=
  snd (flatten_from issues [] []).

Definition flatten (issues : list issue) : JSON :=
  JObj [(js "formErrors", strings (form_errors issues));
        (js "fieldErrors",
         JObj (map (fun kv => (fst kv, strings (snd kv)))
                   (field_errors issues)))].

End Zod.

(* ================================================================= *)
(** * [src/index.ts] *)

Module Index.

Record RenderOptions := {
  viewport : option (Q * Q);            (* width, height *)
  fullPage : bool;
  waitForSelector : option jsstring
}.

Inductive Action := analyze_image | summarize_text | extract_html.

Definition action_name (a : Action) : jsstring :=
  match a with
  | analyze_image => js "analyze_image"
  | summarize_text => js "summarize_text"
  | extract_html => js "extract_html"
  end.

(** z.infer<typeof RequestSchema> *)
Record RequestData := {
  url : jsstring;
  action : Action;
  prompt : option jsstring;
  model : jsstring;
  renderOptions : RenderOptions
}.

Definition default_model : jsstring := js "@cf/llava-1.5-7b-hf".
Definition textModel : jsstring := js "@cf/meta/llama-2-7b-chat-int8".

Definition default_renderOptions : RenderOptions :=
  {| viewport := None; fullPage := false; waitForSelector := None |}.

(** [!s] for an optional string: absent or empty. *)
Definition falsy_string (s : option jsstring) : bool :=
  match s with
  | None => true
  | Some [] => true
  | Some _ => false
  end.

(** The predicate of the refinement:
    !(data.action === 'analyze_image' && !data.prompt). *)
Definition prompt_rule (data : RequestData) : bool :=
  negb (match action data with analyze_image => true | _ => false end
        && falsy_string (prompt data)).

(** The bindings of the worker, and the clock: [now k] is what the k-th
    Date.now() of a request returns. *)
Record Env := {
  BROWSER : Browser;
  AI : jsstring -> JSON -> outcome jsval;
  now : nat -> Z
}.

Record Request := {
  method : jsstring;
  body_json : outcome JSON              (* await request.json() *)
}.

Section Handler.
Variable default_message : Zod.issue_code -> jsstring.
Variable URL_valid : jsstring -> bool.

Let z_string := Zod.z_string default_message.
Let key {A} := @Zod.key A.

Definition ViewportSchema : Zod.schema (Q * Q) :=
  Zod.z_object default_message (fun p fields =>
    Zod.merge
      (Zod.merge (Zod.ok pair, [])
         (key "width" (Zod.z_number_int_positive default_message) p fields))
      (key "height" (Zod.z_number_int_positive default_message) p fields)).

Definition RenderOptionsSchema : Zod.schema RenderOptions :=
  Zod.z_object default_message (fun p fields =>
    Zod.merge
      (Zod.merge
         (Zod.merge (Zod.ok Build_RenderOptions, [])
            (key "viewport" (Zod.z_optional ViewportSchema) p fields))
         (key "fullPage"
              (Zod.z_optional_default (Zod.z_boolean default_message) false)
              p fields))
      (key "waitForSelector" (Zod.z_optional z_string) p fields)).

Definition RequestObject : Zod.schema RequestData :=
  Zod.z_object default_message (fun p fields =>
    Zod.merge
      (Zod.merge
         (Zod.merge
            (Zod.merge
               (Zod.merge (Zod.ok Build_RequestData, [])
                  (key "url"
                       (Zod.z_string_url default_message URL_valid
                          (js "A valid URL is required."))
                       p fields))
               (key "action"
                    (Zod.z_enum default_message
                       [(js "analyze_image", analyze_image);
                        (js "summarize_text", summarize_text);
                        (js "extract_html", extract_html)])
                    p fields))
            (key "prompt" (Zod.z_optional z_string) p fields))
         (key "model" (Zod.z_optional_default z_string default_model)
              p fields))
      (key "renderOptions"
           (Zod.z_optional_default RenderOptionsSchema
              default_renderOptions)
           p fields)).

(** The five keys of a request object, as [RequestObject] parses them at
    the top of a body. *)
Definition parsed_url (fields : list (jsstring * JSON)) :=
  key "url"
      (Zod.z_string_url default_message URL_valid
         (js "A valid URL is required."))
      [] fields.

Definition parsed_action (fields : list (jsstring * JSON)) :=
  key "action"
      (Zod.z_enum default_message
         [(js "analyze_image", analyze_image);
          (js "summarize_text", summarize_text);
          (js "extract_html", extract_html)])
      [] fields.

Definition parsed_prompt (fields : list (jsstring * JSON)) :=
  key "prompt" (Zod.z_optional z_string) [] fields.

Definition parsed_model (fields : list (jsstring * JSON)) :=
  key "model" (Zod.z_optional_default z_string default_model) [] fields.

Definition parsed_renderOptions (fields : list (jsstring * JSON)) :=
  key "renderOptions"
      (Zod.z_optional_default RenderOptionsSchema default_renderOptions)
      [] fields.

(** The issue the refinement adds at the top of a body. *)
Definition prompt_issue : Zod.issue :=
  {| Zod.code := Zod.custom;
     Zod.path := [js "prompt"];
     Zod.message :=
       js "A `prompt` is required when `action` is `analyze_image`." |}.

Definition RequestSchema : Zod.schema RequestData :=
  Zod.z_refine RequestObject prompt_rule
    (js "A `prompt` is required when `action` is `analyze_image`.")
    [js "prompt"].

(** launchAndNavigate(env, url, options); the page it returns is the one
    page of the one browser, so the session needs no handle. *)
Definition launchAndNavigate (env : Env) (url : jsstring)
           (options : RenderOptions) : M unit :=
  perform Puppeteer_launch (launch (BROWSER env)) ;;;
  perform Browser_newPage (newPage (BROWSER env)) ;;;
  match viewport options with
  | Some (w, h) =>
      perform (Page_setViewport w h) (setViewport (BROWSER env) w h)
  | None => ret tt
  end ;;;
  perform (Page_goto (JStr url) (Some (js "networkidle2")) None)
          (goto (BROWSER env) (JStr url)) ;;;
  match waitForSelector options with
  | Some (c :: sel) =>
      perform (Page_waitForSelector (c :: sel) 10000)
              (waitFor (BROWSER env) (c :: sel))
  | _ => ret tt
  end.

Definition summarizationPrompt (pageText : jsstring) : jsstring :=
  js "Please provide a concise summary of the following text extracted from a webpage:"
  ++ LF ++ LF ++ js "---" ++ LF ++ LF ++ substring0 8000 pageText.

(** One case of the switch: the [data] object, as its properties. *)
Definition run_action (env : Env) (d : RequestData)
  : M (list (jsstring * jsval)) :=
  match action d with
  | analyze_image =>
      launchAndNavigate env (url d) (renderOptions d) ;;;
      screenshotBuffer <-
        perform (Page_screenshot (fullPage (renderOptions d)))
                (screenshot (BROWSER env) (fullPage (renderOptions d))) ;;
      let inputs :=
        JObj (fields_of
                [(js "prompt", option_map JStr (prompt d));
                 (js "image",
                  Some (JArr (map (fun b => JNum (inject_Z (Z.of_N b)))
                                  screenshotBuffer)))]) in
      aiResponse <- perform (AI_run (model d) inputs)
                            (AI env (model d) inputs) ;;
      response <- lift (member aiResponse (js "response")) ;;
      ret [(js "aiResponse", response)]
  | summarize_text =>
      launchAndNavigate env (url d) (renderOptions d) ;;;
      pageText <- perform Page_evaluate_innerText (innerText (BROWSER env)) ;;
      let inputs := JObj [(js "prompt", JStr (summarizationPrompt pageText))] in
      aiResponse <- perform (AI_run textModel inputs)
                            (AI env textModel inputs) ;;
      response <- lift (member aiResponse (js "response")) ;;
      ret [(js "aiResponse", response);
           (js "modelUsed", Some (JStr textModel))]
  | extract_html =>
      launchAndNavigate env (url d) (renderOptions d) ;;;
      html <- perform Page_content (content (BROWSER env)) ;;
      ret [(js "html", Some (JStr html))]
  end.

Definition validation_failure (issues : list Zod.issue) : Response :=
  Response_json_of
    (JObj [(js "success", JBool false);
           (js "error",
            JObj [(js "message", JStr (js "Invalid request body."));
                  (js "details", Zod.flatten issues)])])
    400.

Definition success (d : RequestData) (data : list (jsstring * jsval))
           (startTime endTime : Z) : Response :=
  Response_json_of
    (JObj [(js "success", JBool true);
           (js "data", JObj (fields_of data));
           (js "metadata",
            JObj (fields_of
                    [(js "url", Some (JStr (url d)));
                     (js "action", Some (JStr (action_name (action d))));
                     (js "modelUsed",
                      js_or (obj_get (js "modelUsed") (fields_of data))
                            (Some (JStr (model d))));
                     (js "executionTimeMs",
                      Some (JNum (inject_Z (endTime - startTime))))]))])
    200.

(** e instanceof Error ? e.message : 'An unknown error occurred.' *)
Definition errorMessage (e : exn) : jsstring :=
  match e with
  | JSError _ m => m
  | Thrown _ => js "An unknown error occurred."
  end.

Definition internal_error (e : exn) : Response :=
  Response_json_of
    (JObj [(js "success", JBool false);
           (js "error",
            JObj [(js "message",
                   JStr (js "An internal server error occurred: "
                         ++ errorMessage e))])])
    500.

Definition method_not_allowed : Response :=
  {| status := 405; headers := [];
     payload := BodyText (js "Method Not Allowed. Please use POST.") |}.

(** The [fetch] handler.  The [default] case of the switch has no
    counterpart: [Action] has the three values of the enum only. *)
Definition fetch (request : Request) (env : Env) : M Response :=
  if negb (jseqb (method request) (js "POST")) then ret method_not_allowed
  else
    startTime <- perform Date_now (Normal (now env 0)) ;;
    try_catch
      (body <- perform Request_json (body_json request) ;;
       match Zod.safeParse RequestSchema (Some body) with
       | inr issues => ret (validation_failure issues)
       | inl d =>
           data <- run_action env d ;;
           perform Browser_close (close (BROWSER env)) ;;;
           endTime <- perform Date_now (Normal (now env 1)) ;;
           ret (success d data startTime endTime)
       end)
      (fun e =>
         perform (Console_error [LogStr (js "An error occurred:"); LogExn e])
                 (Normal tt) ;;;
         ret (internal_error e)).
End Handler.

End Index.

(* ================================================================= *)
(** * The link-analysis worker: the [/analyze-link] branch of [fetch] *)

Module LinkAnalysis.

Record Env := {
  BROWSER_RENDERING : Browser;
  AI : jsstring -> JSON -> outcome jsval;
  toISOString : jsstring                (* new Date().toISOString() *)
}.

Definition corsHeaders : list (jsstring * jsstring) :=
  [(js "Access-Control-Allow-Origin", js "*");
   (js "Access-Control-Allow-Methods", js "POST, GET, OPTIONS");
   (js "Access-Control-Allow-Headers", js "Content-Type")].

(** new Response(JSON.stringify(v), { status, headers: { "Content-Type":
    "application/json", ...corsHeaders } }) *)
Definition json_response (v : JSON) (st : Z) : Response :=
  {| status := st;
     headers := (js "Content-Type", js "application/json") :: corsHeaders;
     payload := BodyJSON v |}.

Definition link_model : jsstring := js "@cf/google/gemma-3-12b-it".

Definition indent : jsstring := js "        ".

(** The page content as it goes into the prompt. *)
Definition limit_content (pageContent : jsstring) : jsstring :=
  if longer_than 10000 pageContent
  then substring0 10000 pageContent ++ js "..."
  else pageContent.

Definition aiPrompt (pageContent : jsstring) : jsstring :=
  js "Summarize the following text from a webpage. Focus on key information and main points. If the text is too short or irrelevant, state that."
  ++ LF ++ indent ++ LF ++ indent ++ js "Text:" ++ LF ++ indent ++ pageContent.

Definition ai_inputs (pageContent : jsstring) : JSON :=
  JObj [(js "messages",
         JArr [JObj [(js "role", JStr (js "system"));
                     (js "content",
                      JStr (js "You are a helpful assistant that summarizes web page content."))];
               JObj [(js "role", JStr (js "user"));
                     (js "content", JStr (aiPrompt pageContent))]]);
        (js "max_tokens", JNum (inject_Z 2000));
        (js "temperature", JNum (Qmake 1 5))].

(** e instanceof Error ? e.message : "Unknown error" *)
Definition error_text (e : exn) : jsstring :=
  match e with
  | JSError _ m => m
  | Thrown _ => js "Unknown error"
  end.

Definition extraction_failure (e : exn) : Response :=
  json_response
    (JObj [(js "error",
            JStr (js "Failed to load or extract content from URL: "
                  ++ error_text e))])
    500.

Definition url_required : Response :=
  json_response (JObj [(js "error", JStr (js "URL to analyze is required"))])
                400.

Definition url_invalid : Response :=
  json_response (JObj [(js "error", JStr (js "Invalid URL format"))]) 400.

Definition analysis_failure (e : exn) : Response :=
  json_response
    (JObj [(js "error", JStr (js "Failed to analyze link"));
           (js "details", JStr (error_text e))])
    500.

Section Handler.
(** [new URL(v)] succeeds, the conversion of [v] to a string included. *)
Variable URL_constructs : JSON -> bool.

(** The inner try / catch / finally: the page content, or the response the
    catch block returns; the browser is closed on both exits. *)
Definition extract (env : Env) (urlToAnalyze : JSON)
  : M (Response + jsstring) :=
  try_finally
    (try_catch
       (perform (Page_goto urlToAnalyze (Some (js "domcontentloaded"))
                           (Some 30000%Z))
                (goto (BROWSER_RENDERING env) urlToAnalyze) ;;;
        pageContent <- perform Page_eval_body_textContent
                               (body_textContent (BROWSER_RENDERING env)) ;;
        ret (inr pageContent))
       (fun e =>
          perform
            (Console_error
               [LogStr (js "Error navigating to or extracting content from ");
                LogJSON urlToAnalyze; LogStr (js ":"); LogExn e])
            (Normal tt) ;;;
          ret (inl (extraction_failure e))))
    (perform Browser_close (close (BROWSER_RENDERING env))).

Definition analyze_link (body_json : outcome JSON) (env : Env) : M Response :=
  try_catch
    (body <- perform Request_json body_json ;;
     urlToAnalyze <- lift (member (Some body) (js "url")) ;;
     match urlToAnalyze with
     | Some u =>
         if negb (truthy urlToAnalyze) then ret url_required
         else if negb (URL_constructs u) then ret url_invalid
         else
           perform Puppeteer_launch (launch (BROWSER_RENDERING env)) ;;;
           perform Browser_newPage (newPage (BROWSER_RENDERING env)) ;;;
           r <- extract env u ;;
           match r with
           | inl early => ret early
           | inr pageContent =>
               let inputs := ai_inputs (limit_content pageContent) in
               aiResponse <- perform (AI_run link_model inputs)
                                     (AI env link_model inputs) ;;
               analysis <- lift (member aiResponse (js "response")) ;;
               timestamp <- perform Date_toISOString
                                    (Normal (toISOString env)) ;;
               ret (json_response
                      (JObj (fields_of
                               [(js "analysis", analysis);
                                (js "originalUrl", Some u);
                                (js "timestamp", Some (JStr timestamp))]))
                      200)
           end
     | None => ret url_required
     end)
    (fun e =>
       perform (Console_error [LogStr (js "Error analyzing link:"); LogExn e])
               (Normal tt) ;;;
       ret (analysis_failure e)).
End Handler.

End LinkAnalysis.

(* ================================================================= *)
(** * Concrete services and requests, to run the handlers on *)

Module Examples.

(** Messages in the style of the library. *)
Definition messages (c : Zod.issue_code) : jsstring :=
  match c with
  | Zod.invalid_type _ None => js "Required"
  | Zod.invalid_type _ (Some _) => js "Invalid type"
  | Zod.invalid_enum_value _ _ => js "Invalid enum value"
  | Zod.invalid_string_url => js "Invalid url"
  | Zod.not_integer => js "Expected integer, received float"
  | Zod.too_small => js "Number must be greater than 0"
  | Zod.custom => js "Invalid input"
  end.

(** A URL check for the examples: an http or https scheme and a host. *)
Definition http_url (s : jsstring) : bool :=
  match RegExp.strip_prefix (js "https://") s with
  | Some (_ :: _) => true
  | _ =>
      match RegExp.strip_prefix (js "http://") s with
      | Some (_ :: _) => true
      | _ => false
      end
  end.

Definition http_url_value (v : JSON) : bool :=
  match v with
  | JStr s => http_url s
  | _ => false
  end.

(** A browser whose calls all succeed, on a page with the given text and
    markup. *)
Definition browser_of (page_text page_html : jsstring) : Browser :=
  {| launch := Normal tt;
     newPage := Normal tt;
     setViewport := fun _ _ => Normal tt;
     goto := fun _ => Normal tt;
     waitFor := fun _ => Normal tt;
     screenshot := fun _ => Normal [137; 80; 78; 71]%N;
     innerText := Normal page_text;
     body_textContent := Normal page_text;
     content := Normal page_html;
     close := Normal tt |}.

(** The same page, with a selector that never appears. *)
Definition browser_selector_timeout (page_text page_html : jsstring) : Browser :=
  {| launch := Normal tt;
     newPage := Normal tt;
     setViewport := fun _ _ => Normal tt;
     goto := fun _ => Normal tt;
     waitFor := fun sel =>
       Raise (JSError (js "TimeoutError")
                      (js "Waiting for selector failed: 10000ms exceeded"));
     screenshot := fun _ => Normal [137; 80; 78; 71]%N;
     innerText := Normal page_text;
     body_textContent := Normal page_text;
     content := Normal page_html;
     close := Normal tt |}.

(** A model that answers every prompt with the same text. *)
Definition model_answering (answer : string) (model : jsstring) (inputs : JSON)
  : outcome jsval :=
  Normal (Some (JObj [(js "response", JStr (js answer))])).

(** A model service that is down. *)
Definition model_down (model : jsstring) (inputs : JSON) : outcome jsval :=
  Raise (JSError (js "Error") (js "5007: No such model or task")).

Definition clock (k : nat) : Z :=
  match k with
  | O => 1000
  | _ => 1250
  end.

Definition env_ok (page_text page_html : jsstring) : Index.Env :=
  {| Index.BROWSER := browser_of page_text page_html;
     Index.AI := model_answering "A summary.";
     Index.now := clock |}.

Definition env_model_down (page_text page_html : jsstring) : Index.Env :=
  {| Index.BROWSER := browser_of page_text page_html;
     Index.AI := model_down;
     Index.now := clock |}.

Definition env_selector_timeout (page_text page_html : jsstring) : Index.Env :=
  {| Index.BROWSER := browser_selector_timeout page_text page_html;
     Index.AI := model_answering "A summary.";
     Index.now := clock |}.

Definition post (body : JSON) : Index.Request :=
  {| Index.method := js "POST"; Index.body_json := Normal body |}.

Definition example_url : jsstring := js "https://example.com".

Definition body_extract_html : JSON :=
  JObj [(js "url", JStr example_url); (js "action", JStr (js "extract_html"))].

Definition body_summarize : JSON :=
  JObj [(js "url", JStr example_url); (js "action", JStr (js "summarize_text"))].


Definition body_analyze (prompt : string) : JSON :=
  JObj [(js "url", JStr example_url);
        (js "action", JStr (js "analyze_image"));
        (js "prompt", JStr (js prompt))].

(** analyze_image without a prompt, the other keys well formed. *)
Definition body_analyze_no_prompt : JSON :=
  JObj [(js "url", JStr example_url); (js "action", JStr (js "analyze_image"))].

(** analyze_image without a prompt and without a url. *)
Definition body_analyze_only_action : JSON :=
  JObj [(js "action", JStr (js "analyze_image"))].

(** A request whose body is not JSON: request.json() rejects. *)
Definition post_unparseable : Index.Request :=
  {| Index.method := js "POST";
     Index.body_json :=
       Raise (JSError (js "SyntaxError") (js "Unexpected token")) |}.

Definition page_html : jsstring :=
  js "<html><head></head><body><p>Hello</p></body></html>".

(** A page text of [n] characters. *)
Definition text_of_length (n : N) : jsstring := repeat 120%N (N.to_nat n).

Definition fetch := Index.fetch messages http_url.

(** A request that waits for a selector. *)
Definition body_summarize_wait : JSON :=
  JObj [(js "url", JStr example_url);
        (js "action", JStr (js "summarize_text"));
        (js "renderOptions", JObj [(js "waitForSelector", JStr (js "#never"))])].

(** A link-analysis request on the example URL, the browser and the model
    answering. *)
Definition link_env (page_text : jsstring) : LinkAnalysis.Env :=
  {| LinkAnalysis.BROWSER_RENDERING := browser_of page_text page_html;
     LinkAnalysis.AI := model_answering "An analysis.";
     LinkAnalysis.toISOString := js "2025-03-07T00:00:00.000Z" |}.

Definition link_body : outcome JSON :=
  Normal (JObj [(js "url", JStr example_url)]).

(** The replies of the response-shaping scenarios. *)
Definition QUOTE : jsstring := [34%N].

Definition object_a1 : jsstring :=
  js "{" ++ QUOTE ++ js "a" ++ QUOTE ++ js ":1}".

Definition reply_fenced : jsstring :=
  js "prefix ```json" ++ LF ++ object_a1 ++ LF ++ js "``` suffix".
Definition reply_bare : jsstring := object_a1.
Definition reply_prose : jsstring := js "I cannot help with that".

(** An HTTP exchange in which the model service answers [reply]. *)
Definition answering (reply : jsstring) : Scraper.HttpResponse :=
  {| Scraper.ok := true; Scraper.http_status := 200;
     Scraper.text := Normal reply;
     Scraper.json :=
       Normal (JObj [(js "result", JObj [(js "response", JStr reply)])]) |}.

Definition env_answering (reply : jsstring) : Scraper.Env :=
  {| Scraper.ACCOUNT_ID := js "acct"; Scraper.API_TOKEN := js "token";
     Scraper.fetch := fun _ _ => Normal (answering reply) |}.

(** The model service answers 503. *)
Definition env_unavailable : Scraper.Env :=
  {| Scraper.ACCOUNT_ID := js "acct"; Scraper.API_TOKEN := js "token";
     Scraper.fetch := fun _ _ =>
       Normal {| Scraper.ok := false; Scraper.http_status := 503;
                 Scraper.text := Normal (js "Service Unavailable");
                 Scraper.json :=
                   Raise (JSError (js "SyntaxError") (js "Unexpected token")) |} |}.

(** What the library reports for a body without a url. *)
Definition url_required_issue : Zod.issue :=
  {| Zod.code := Zod.invalid_type (js "string") None;
     Zod.path := [js "url"];
     Zod.message := js "Required" |}.

(** The data the schema makes of [body_summarize], [body_extract_html] and
    [body_summarize_with_model]. *)
Definition data_summarize : Index.RequestData :=
  {| Index.url := example_url;
     Index.action := Index.summarize_text;
     Index.prompt := None;
     Index.model := Index.default_model;
     Index.renderOptions := Index.default_renderOptions |}.

Definition data_extract_html : Index.RequestData :=
  {| Index.url := example_url;
     Index.action := Index.extract_html;
     Index.prompt := None;
     Index.model := Index.default_model;
     Index.renderOptions := Index.default_renderOptions |}.


(** A request with another method. *)
Definition get_request : Index.Request :=
  {| Index.method := js "GET"; Index.body_json := Normal JNull |}.


End Examples.

(* ================================================================= *)
(** * Specification vocabulary *)

Unset Implicit Arguments.

(** ** A program logic for handlers *)

(** [m] extends any trace [t] by some [t'] and ends with [o], where [Q o t']. *)
Definition spec {A} (m : M A) (Q : outcome A -> trace -> Prop) : Prop :=
  forall t, exists o t', m t = (o, t ++ t') /\ Q o t'.

(** No call of the trace raised. *)
Definition clean (t : trace) : Prop := forall x, In x t -> raised x = None.

(** A normal end has a clean trace and a value satisfying [V]; a throw is
    the only thing a call of the trace raised.  And every call of the trace
    satisfies [R]. *)
Definition G (R : call -> Prop) {A} (V : A -> Prop) (o : outcome A) (t : trace)
  : Prop :=
  (forall a, o = Normal a -> clean t /\ V a) /\
  (forall e, o = Raise e ->
     forall x e', In x t -> raised x = Some e' -> e' = e) /\
  Forall (fun x => R (what x)) t.

(** Every call of the trace satisfies [R], and a normal value satisfies [V];
    unlike [G], this survives a catch block. *)
Definition H (R : call -> Prop) {A} (V : A -> Prop) (o : outcome A) (t : trace)
  : Prop :=
  (forall a, o = Normal a -> V a) /\ Forall (fun x => R (what x)) t.

Definition any {A} (a : A) : Prop := True.

(** A call that did not raise. *)
Definition entry_ok (c : call) : entry := {| what := c; raised := None |}.

(** ** [src/index.ts] *)

(** The calls [run_action] may make for the data [d], and with what. *)
Definition expected_call (env : Index.Env) (d : Index.RequestData) (c : call)
  : Prop :=
  match c with
  | Puppeteer_launch | Browser_newPage | Page_setViewport _ _
  | Page_goto _ _ _ | Page_waitForSelector _ _ => True
  | Page_screenshot _ => Index.action d = Index.analyze_image
  | Page_evaluate_innerText => Index.action d = Index.summarize_text
  | Page_content => Index.action d = Index.extract_html
  | AI_run m inputs =>
      match Index.action d with
      | Index.analyze_image => m = Index.model d
      | Index.summarize_text =>
          m = Index.textModel /\
          exists pageText,
            innerText (Index.BROWSER env) = Normal pageText /\
            inputs = JObj [(js "prompt",
                            JStr (Index.summarizationPrompt pageText))]
      | Index.extract_html => False
      end
  | _ => False
  end.

(** The [data] object each action builds. *)
Definition expected_data (env : Index.Env) (d : Index.RequestData)
           (data : list (jsstring * jsval)) : Prop :=
  match Index.action d with
  | Index.analyze_image => exists response, data = [(js "aiResponse", response)]
  | Index.summarize_text =>
      exists response,
        data = [(js "aiResponse", response);
                (js "modelUsed", Some (JStr Index.textModel))]
  | Index.extract_html =>
      exists html,
        content (Index.BROWSER env) = Normal html /\
        data = [(js "html", Some (JStr html))]
  end.

(** The calls of a valid request after its body is read. *)
Definition fetch_call (env : Index.Env) (d : Index.RequestData) (c : call)
  : Prop :=
  expected_call env d c \/ c = Browser_close \/ c = Date_now.

(** The console call of the catch block. *)
Definition console_entry (e : exn) : entry :=
  entry_ok (Console_error [LogStr (js "An error occurred:"); LogExn e]).

(** The browser answers every call. *)
Definition browser_succeeds (b : Browser) : Prop :=
  launch b = Normal tt /\ newPage b = Normal tt /\
  (forall w h, setViewport b w h = Normal tt) /\
  (forall u, goto b u = Normal tt) /\
  (forall s, waitFor b s = Normal tt) /\
  close b = Normal tt.

(** The calls of [launchAndNavigate] when they all succeed. *)
Definition nav_trace (url : jsstring) (o : Index.RenderOptions) : trace :=
  [entry_ok Puppeteer_launch; entry_ok Browser_newPage]
  ++ match Index.viewport o with
     | Some (w, h) => [entry_ok (Page_setViewport w h)]
     | None => []
     end
  ++ [entry_ok (Page_goto (JStr url) (Some (js "networkidle2")) None)]
  ++ match Index.waitForSelector o with
     | Some (c :: sel) => [entry_ok (Page_waitForSelector (c :: sel) 10000)]
     | _ => []
     end.

(** Neither a launch nor a close. *)
Definition not_session (c : call) : Prop :=
  is_launch c = false /\ is_close c = false.

(** The launch of the browser, as the trace records it. *)
Definition launch_entry (env : Index.Env) : entry :=
  {| what := Puppeteer_launch;
     raised := raised_of (launch (Index.BROWSER env)) |}.

(** The trace is the launch followed by calls that are no session calls. *)
Definition launch_first (env : Index.Env) {A} (o : outcome A) (t : trace)
  : Prop :=
  exists t2,
    t = launch_entry env :: t2 /\
    Forall (fun x => not_session (what x)) t2.

(** The key [k2] of the object under the key [k1] of a JSON response. *)
Definition body_member (r : Response) (k1 k2 : string) : jsval :=
  match payload r with
  | BodyJSON (JObj fs) =>
      match obj_get (js k1) fs with
      | Some (JObj m) => obj_get (js k2) m
      | _ => None
      end
  | _ => None
  end.

(** The message [m] is among the field errors of the key [k]. *)
Definition field_has (fe : list (jsstring * list jsstring)) (k m : jsstring)
  : Prop :=
  exists msgs, In (k, msgs) fe /\ In m msgs.


(** ** The link-analysis worker *)




(** ** The structured-extraction worker *)

(** The console call of the catch block of [getLLMResult]. *)
Definition parse_failure_log (msg candidate_text : jsstring) : entry :=
  {| what := Console_error
               [LogStr (js "SyntaxError: " ++ msg ++ js " . Response: "
                        ++ candidate_text)];
     raised := None |}.

(** The first occurrence of three backticks in [s] has [before] in front
    of it and [after] behind it. *)
Definition first_fence (s before after : jsstring) : Prop :=
  Scraper.find Scraper.fence s = Some (before, after).

(** There are no three backticks in a row in [s]. *)
Definition no_fence (s : jsstring) : Prop :=
  Scraper.find Scraper.fence s = None.

(** The decimal digits of a status of three digits. *)
Definition three_digits (st : Z) : jsstring :=
  [Z.to_N (48 + st / 100); Z.to_N (48 + st / 10 mod 10); Z.to_N (48 + st mod 10)].

(** The error of a model service that answered with the status [st]. *)
Definition status_error (account : jsstring) (st : Z) : exn :=
  JSError (js "Error")
          (js "LLM call failed https://api.cloudflare.com/client/v4/accounts/"
           ++ account
           ++ js "/ai/run/@hf/thebloke/deepseek-coder-6.7b-instruct-awq "
           ++ three_digits st).

(* ================================================================= *)
(** * The assistant worker: routing, code generation and feedback

    The first worker of [src/unnamed/part_000] answers CORS preflights and
    routes POST requests by path: [/generate], [/feedback] and
    [/analyze-link], whose branch is [LinkAnalysis.analyze_link].  The
    feedback namespace is a store the handler threads: a put that the
    namespace accepts adds an entry, nothing else touches it. *)

Module Assistant.

Definition DQUOTE : jsstring := [34%N].

Definition SYSTEM_PROMPT : jsstring :=
  js "<system_context>You are an advanced assistant specialized in generating Cloudflare Workers code. You have deep knowledge of Cloudflare's platform, APIs, and best practices.</system_context>

<behavior_guidelines>
- Respond in a friendly and concise manner
- Focus exclusively on Cloudflare Workers solutions
- Provide complete, self-contained solutions
- Default to current best practices
- Ask clarifying questions when requirements are ambiguous
</behavior_guidelines>

<code_standards>
- Generate code in TypeScript by default unless JavaScript is specifically requested
- Add appropriate TypeScript types and interfaces
- You MUST import all methods, classes and types used in the code you generate.
- Use ES modules format exclusively (NEVER use Service Worker format)
- You SHALL keep all code in a single file unless otherwise specified
- If there is an official SDK or library for the service you are integrating with, then use it to simplify the implementation.
- Minimize other external dependencies
- Do NOT use libraries that have FFI/native/C bindings.- Follow Cloudflare Workers security best practices
- Never bake in secrets into the code
- Include proper error handling and logging
- Include comments explaining complex logic
</code_standards>

<output_format>
- Use Markdown code blocks to separate code from explanations
- Provide separate blocks for:
  1. Main worker code (index.ts/index.js)
  2. Configuration (wrangler.jsonc)
  3. Type definitions (if applicable)
  4. Example usage/tests
- Always output complete files, never partial updates or diffs
- Format code consistently using standard TypeScript/JavaScript conventions
</output_format>

<cloudflare_integrations>
- When data storage is needed, integrate with appropriate Cloudflare services:
  - Workers KV for key-value storage, including configuration data, user profiles, and A/B testing
  - Durable Objects for strongly consistent state management, storage, multiplayer co-ordination, and agent use-cases
  - D1 for relational data and for its SQL dialect
  - R2 for object storage, including storing structured data, AI assets, image assets and for user-facing uploads
  - Hyperdrive to connect to existing (PostgreSQL) databases that a developer may already have
  - Queues for asynchronous processing and background tasks
  - Vectorize for storing embeddings and to support vector search (often in combination with Workers AI)
  - Workers Analytics Engine for tracking user events, billing, metrics and high-cardinality analytics
  - Workers AI as the default AI API for inference requests. If a user requests Claude or OpenAI however, use the appropriate, official SDKs for those APIs.
  - Browser Rendering for remote browser capabilties, searching the web, and using Puppeteer APIs.
  - Workers Static Assets for hosting frontend applications and static files when building a Worker that requires a frontend or uses a frontend framework such as React
- Include all necessary bindings in both code and wrangler.jsonc
- Add appropriate environment variable definitions
</cloudflare_integrations>

<configuration_requirements>
- Always provide a wrangler.jsonc (not wrangler.toml)
- Include:
  - Appropriate triggers (http, scheduled, queues)
  - Required bindings
  - Environment variables
  - Compatibility flags
  - Set compatibility_date = "
  ++ DQUOTE ++ js "2025-03-07"
  ++ DQUOTE ++ js "
  - Set compatibility_flags = ["
  ++ DQUOTE ++ js "nodejs_compat"
  ++ DQUOTE ++ js "]
  - Set `enabled = true` and `head_sampling_rate = 1` for `[observability]` when generating the wrangler configuration
  - Routes and domains (only if applicable)
  - Do NOT include dependencies in the wrangler.jsonc file
  - Only include bindings that are used in the code
</configuration_requirements>

<security_guidelines>
- Implement proper request validation
- Use appropriate security headers
- Handle CORS correctly when needed
- Implement rate limiting where appropriate
- Follow least privilege principle for bindings
- Sanitize user inputs
</security_guidelines>

<performance_guidelines>
- Optimize for cold starts
- Minimize unnecessary computation
- Use appropriate caching strategies
- Consider Workers limits and quotas
- Implement streaming where beneficial
</performance_guidelines>

<error_handling>
- Implement proper error boundaries
- Return appropriate HTTP status codes
- Provide meaningful error messages
- Log errors appropriately
- Handle edge cases gracefully
</error_handling>

Generate Cloudflare Workers code based on the user's requirements. Always include both the main worker code and the wrangler.jsonc configuration.".

(** The feedback namespace: its entries, the first one of a key being the
    one that counts.  The value of an entry is the JSON text of the value
    given here. *)
Definition KV := list (jsstring * JSON).

(** What a get of the key [k] would read. *)
Fixpoint KV_get (k : jsstring) (kv : KV) : option JSON :=
  match kv with
  | [] => None
  | (k', v) :: rest => if jseqb k k' then Some v else KV_get k rest
  end.

(** The namespace after an accepted put: the value under a key it holds is
    replaced, a key it does not hold is added. *)
Fixpoint KV_put (k : jsstring) (v : JSON) (kv : KV) : KV :=
  match kv with
  | [] => [(k, v)]
  | (k', v') :: rest =>
      if jseqb k k' then (k', v) :: rest else (k', v') :: KV_put k v rest
  end.

Record Env := {
  services : LinkAnalysis.Env;          (* AI, BROWSER_RENDERING, the clock *)
  FEEDBACK_KV_put : jsstring -> JSON -> outcome unit
                                        (* await env.FEEDBACK_KV.put(key, text) *)
}.

Record Request := {
  method : jsstring;
  pathname : jsstring;                  (* new URL(request.url).pathname *)
  body_json : outcome JSON              (* await request.json() *)
}.

(** The answer to a preflight; a response holds the headers the handler
    gives it. *)
Definition preflight : Response :=
  {| status := 200;
     headers := [(js "Access-Control-Allow-Origin", js "*");
                 (js "Access-Control-Allow-Methods", js "POST, OPTIONS");
                 (js "Access-Control-Allow-Headers", js "Content-Type")];
     payload := BodyNone |}.

Definition not_found : Response :=
  {| status := 404;
     headers := LinkAnalysis.corsHeaders;
     payload := BodyText (js "Not Found") |}.

(** ** [/generate] *)

Definition generate_model : jsstring :=
  js "@cf/meta/llama-4-scout-17b-16e-instruct".

Definition generate_inputs (prompt : jsstring) : JSON :=
  JObj [(js "messages",
         JArr [JObj [(js "role", JStr (js "system"));
                     (js "content", JStr SYSTEM_PROMPT)];
               JObj [(js "role", JStr (js "user"));
                     (js "content", JStr prompt)]]);
        (js "max_tokens", JNum (inject_Z 100000));
        (js "temperature", JNum (Qmake 1 10))].

Definition prompt_required : Response :=
  LinkAnalysis.json_response
    (JObj [(js "error", JStr (js "Prompt is required"))]) 400.

Definition generation_failure (e : exn) : Response :=
  LinkAnalysis.json_response
    (JObj [(js "error", JStr (js "Failed to generate code"));
           (js "details", JStr (LinkAnalysis.error_text e))])
    500.

Definition generated (generatedCode : jsval) (timestamp : jsstring)
  : Response :=
  LinkAnalysis.json_response
    (JObj (fields_of [(js "generatedCode", generatedCode);
                      (js "timestamp", Some (JStr timestamp))]))
    200.

(** The [/generate] branch.  [prompt.trim()] removes the code units that
    [\s] matches; a truthy prompt that is no string has no [trim]. *)
Definition generate (request : Request) (env : Env) : M Response :=
  try_catch
    (body <- perform Request_json (body_json request) ;;
     prompt <- lift (member (Some body) (js "prompt")) ;;
     if negb (truthy prompt) then ret prompt_required
     else
       match prompt with
       | Some (JStr s) =>
           match Scraper.trim s with
           | [] => ret prompt_required
           | _ :: _ =>
               response <-
                 perform (AI_run generate_model (generate_inputs s))
                         (LinkAnalysis.AI (services env) generate_model
                                          (generate_inputs s)) ;;
               generatedCode <- lift (member response (js "response")) ;;
               timestamp <-
                 perform Date_toISOString
                         (Normal (LinkAnalysis.toISOString (services env))) ;;
               ret (generated generatedCode timestamp)
           end
       | _ => throw (type_error "prompt.trim is not a function")
       end)
    (fun e =>
       perform (Console_error [LogStr (js "Error generating code:"); LogExn e])
               (Normal tt) ;;;
       ret (generation_failure e)).

(** ** [/feedback] *)

Definition feedback_required : Response :=
  LinkAnalysis.json_response
    (JObj [(js "error", JStr (js "messageId and feedbackType are required"))])
    400.

Definition feedback_stored : Response :=
  LinkAnalysis.json_response
    (JObj [(js "success", JBool true);
           (js "message", JStr (js "Feedback submitted successfully"))])
    200.

Definition feedback_failure (e : exn) : Response :=
  LinkAnalysis.json_response
    (JObj [(js "success", JBool false);
           (js "error", JStr (js "Failed to submit feedback"));
           (js "details", JStr (LinkAnalysis.error_text e))])
    500.

(** The object the handler stores: comment || null. *)
Definition feedbackData (feedbackType : JSON) (comment : jsval)
           (timestamp : jsstring) : JSON :=
  JObj (fields_of [(js "feedbackType", Some feedbackType);
                   (js "comment", js_or comment (Some JNull));
                   (js "timestamp", Some (JStr timestamp))]).

Section Handler.
(** [new URL(v)] succeeds, the conversion of [v] to a string included. *)
Variable URL_constructs : JSON -> bool.
(** The conversion to a string of a value that is no string; it raises a
    TypeError for a value without a primitive conversion, such as an object
    with a key [toString]. *)
Variable ToString : JSON -> outcome jsstring.

(** The key of a message: the template literal feedback:${messageId}. *)
Definition feedback_key (messageId : JSON) : outcome jsstring :=
  match messageId with
  | JStr s => Normal (js "feedback:" ++ s)
  | v =>
      match ToString v with
      | Normal s => Normal (js "feedback:" ++ s)
      | Raise e => Raise e
      end
  end.

(** The [/feedback] branch, from the store before to the store after.  The
    put is no entry of the trace: what it does is in the store it returns,
    and what it raises is raised here. *)
Definition feedback (request : Request) (env : Env) (kv : KV)
  : M (Response * KV) :=
  try_catch
    (body <- perform Request_json (body_json request) ;;
     messageId <- lift (member (Some body) (js "messageId")) ;;
     feedbackType <- lift (member (Some body) (js "feedbackType")) ;;
     comment <- lift (member (Some body) (js "comment")) ;;
     match messageId, feedbackType with
     | Some id, Some ty =>
         if negb (truthy messageId) || negb (truthy feedbackType)
         then ret (feedback_required, kv)
         else
           timestamp <-
             perform Date_toISOString
                     (Normal (LinkAnalysis.toISOString (services env))) ;;
           let value := feedbackData ty comment timestamp in
           key <- lift (feedback_key id) ;;
           lift (FEEDBACK_KV_put env key value) ;;;
           ret (feedback_stored, KV_put key value kv)
     | _, _ => ret (feedback_required, kv)
     end)
    (fun e =>
       perform (Console_error [LogStr (js "Error submitting feedback:");
                               LogExn e])
               (Normal tt) ;;;
       ret (feedback_failure e, kv)).

(** Is the request a POST to [path]? *)
Definition routed (request : Request) (path : string) : bool :=
  jseqb (pathname request) (js path) && jseqb (method request) (js "POST").

(** The [fetch] handler of the worker. *)
Definition fetch (request : Request) (env : Env) (kv : KV)
  : M (Response * KV) :=
  if jseqb (method request) (js "OPTIONS") then ret (preflight, kv)
  else if routed request "/generate" then
    r <- generate request env ;; ret (r, kv)
  else if routed request "/feedback" then feedback request env kv
  else if routed request "/analyze-link" then
    r <- LinkAnalysis.analyze_link URL_constructs (body_json request)
                                   (services env) ;;
    ret (r, kv)
  else ret (not_found, kv).
End Handler.

End Assistant.

(* ================================================================= *)
(** * The structured-extraction worker: its [fetch] handler *)

Module ScrapeWorker.

Record Env := {
  MY_BROWSER : Browser;
  llm : Scraper.Env                     (* ACCOUNT_ID, API_TOKEN, the HTTP client *)
}.

Definition userPrompt : jsstring := js "Extract the first post only.".
Definition targetUrl : jsstring := js "https://labs.apnic.net/".

(** new Response("Not found"): the status is the default one. *)
Definition not_found : Response :=
  {| status := 200; headers := []; payload := BodyText (js "Not found") |}.

Section Handler.
(** The platform's [JSON.parse]. *)
Variable JSON_parse : jsstring -> JSON + jsstring.
(** JSON.stringify(outputSchema), the schema being what zodToJsonSchema makes
    of z.object({ title: z.string(), url: z.string(), date: z.string() }). *)
Variable outputSchema_text : jsstring.
(** Response.json(undefined), which the platform decides. *)
Variable Response_json_undefined : outcome Response.

(** The text of the prompt before the text of the page. *)
Definition prompt_head : jsstring :=
  LF ++ js "    You are a sophisticated web scraper. You are given the user data extraction goal and the JSON schema for the output data format."
  ++ LF ++ js "    Your task is to extract the requested information from the text and output it in the specified JSON schema format:"
  ++ LF ++ LF ++ js "        " ++ outputSchema_text
  ++ LF ++ LF ++ js "    DO NOT include anything else besides the JSON output, no markdown, no plaintext, just JSON."
  ++ LF ++ LF ++ js "    User Data Extraction Goal: " ++ userPrompt
  ++ LF ++ LF ++ js "    Text extracted from the webpage: ".

Definition prompt (renderedText : jsstring) : jsstring :=
  prompt_head ++ renderedText.

(** Response.json(result) *)
Definition respond (result : jsval) : M Response :=
  match result with
  | Some v => ret (Response_json_of v 200)
  | None => lift Response_json_undefined
  end.

(** The [fetch] handler.  The callback of [page.evaluate] answers the
    inner text of the body, or the empty string for a document without one;
    [innerText] is what it answers. *)
Definition fetch (pathname : jsstring) (env : Env) : M Response :=
  if negb (jseqb pathname (js "/")) then ret not_found
  else
    perform Puppeteer_launch (launch (MY_BROWSER env)) ;;;
    perform Browser_newPage (newPage (MY_BROWSER env)) ;;;
    perform (Page_goto (JStr targetUrl) None None)
            (goto (MY_BROWSER env) (JStr targetUrl)) ;;;
    renderedText <- perform Page_evaluate_innerText
                            (innerText (MY_BROWSER env)) ;;
    perform Browser_close (close (MY_BROWSER env)) ;;;
    result <- Scraper.getLLMResult JSON_parse (llm env) (prompt renderedText) ;;
    respond result.
End Handler.

End ScrapeWorker.

(* ================================================================= *)
(** * Concrete services and requests for the other handlers *)

Module Scenarios.

(** A feedback namespace that accepts every put, and one that is over its
    limits. *)
Definition put_accepted (k : jsstring) (v : JSON) : outcome unit := Normal tt.

Definition put_rejected (k : jsstring) (v : JSON) : outcome unit :=
  Raise (JSError (js "Error") (js "KV PUT failed: 429 Too Many Requests")).

Definition assistant_env : Assistant.Env :=
  {| Assistant.services := Examples.link_env (js "Some page text");
     Assistant.FEEDBACK_KV_put := put_accepted |}.

Definition assistant_env_kv_down : Assistant.Env :=
  {| Assistant.services := Examples.link_env (js "Some page text");
     Assistant.FEEDBACK_KV_put := put_rejected |}.

(** A conversion for the examples, which convert objects only: an object
    with a key [toString] has no primitive conversion, as the value of the
    key is no function. *)
Definition to_string (v : JSON) : outcome jsstring :=
  match v with
  | JObj fields =>
      match obj_get (js "toString") fields with
      | Some _ =>
          Raise (JSError (js "TypeError")
                         (js "Cannot convert object to primitive value"))
      | None => Normal (js "[object Object]")
      end
  | _ => Normal (js "[object Object]")
  end.

Definition assistant_fetch :=
  Assistant.fetch Examples.http_url_value to_string.

Definition request_to (method path : string) (body : JSON) : Assistant.Request :=
  {| Assistant.method := js method;
     Assistant.pathname := js path;
     Assistant.body_json := Normal body |}.

Definition body_prompt (prompt : jsstring) : JSON :=
  JObj [(js "prompt", JStr prompt)].

Definition body_feedback : JSON :=
  JObj [(js "messageId", JStr (js "m-42"));
        (js "feedbackType", JStr (js "good"))].

Definition body_feedback_no_type : JSON :=
  JObj [(js "messageId", JStr (js "m-42"))].

(** A body whose prompt is a number. *)
Definition body_prompt_number : JSON :=
  JObj [(js "prompt", JNum (inject_Z 5))].

(** A browser that cannot reach the address. *)
Definition browser_unreachable : Browser :=
  {| launch := Normal tt;
     newPage := Normal tt;
     setViewport := fun _ _ => Normal tt;
     goto := fun _ =>
       Raise (JSError (js "Error") (js "net::ERR_NAME_NOT_RESOLVED"));
     waitFor := fun _ => Normal tt;
     screenshot := fun _ => Normal [];
     innerText := Normal [];
     body_textContent := Normal [];
     content := Normal [];
     close := Normal tt |}.

Definition link_env_unreachable : LinkAnalysis.Env :=
  {| LinkAnalysis.BROWSER_RENDERING := browser_unreachable;
     LinkAnalysis.AI := Examples.model_answering "An analysis.";
     LinkAnalysis.toISOString := js "2025-03-07T00:00:00.000Z" |}.

Definition analyze_link := LinkAnalysis.analyze_link Examples.http_url_value.

(** The extraction worker, with the reference parser, an empty schema and a
    platform whose Response.json raises on undefined. *)
Definition scrape :=
  ScrapeWorker.fetch JsonText.parse (js "{}")
    (Raise (JSError (js "TypeError") (js "Value is not JSON serializable"))).

Definition scrape_env (page_text reply : jsstring) : ScrapeWorker.Env :=
  {| ScrapeWorker.MY_BROWSER := Examples.browser_of page_text Examples.page_html;
     ScrapeWorker.llm := Examples.env_answering reply |}.

Definition scrape_env_unreachable : ScrapeWorker.Env :=
  {| ScrapeWorker.MY_BROWSER := browser_unreachable;
     ScrapeWorker.llm := Examples.env_answering Examples.reply_bare |}.

(** A model service whose answer has the given body. *)
Definition env_with_body (data : JSON) : Scraper.Env :=
  {| Scraper.ACCOUNT_ID := js "acct"; Scraper.API_TOKEN := js "token";
     Scraper.fetch := fun _ _ =>
       Normal {| Scraper.ok := true; Scraper.http_status := 200;
                 Scraper.text := Normal [];
                 Scraper.json := Normal data |} |}.

(** Bodies the schema of [src/index.ts] refuses. *)
Definition body_bad_url : JSON :=
  JObj [(js "url", JStr (js "example.com"));
        (js "action", JStr (js "extract_html"))].

Definition body_bad_action : JSON :=
  JObj [(js "url", JStr Examples.example_url);
        (js "action", JStr (js "screenshot"))].

Definition body_empty_prompt : JSON :=
  JObj [(js "url", JStr Examples.example_url);
        (js "action", JStr (js "analyze_image"));
        (js "prompt", JStr [])].

Definition body_bad_viewport : JSON :=
  JObj [(js "url", JStr Examples.example_url);
        (js "action", JStr (js "extract_html"));
        (js "renderOptions",
         JObj [(js "viewport",
                JObj [(js "width", JNum (inject_Z 0));
                      (js "height", JNum (inject_Z 600))])])].

Definition data_analyze : Index.RequestData :=
  {| Index.url := Examples.example_url;
     Index.action := Index.analyze_image;
     Index.prompt := Some (js "Describe the page");
     Index.model := Index.default_model;
     Index.renderOptions := Index.default_renderOptions |}.

(** A JSON object whose string holds three backticks, a reply that fences
    it amid prose, and a bare JSON reply whose string holds a fenced word. *)
Definition object_backticks : jsstring :=
  js "{" ++ Examples.QUOTE ++ js "a" ++ Examples.QUOTE ++ js ":"
  ++ Examples.QUOTE ++ js "```" ++ Examples.QUOTE ++ js "}".

Definition reply_fenced_backticks : jsstring :=
  js "prefix ```json" ++ LF ++ object_backticks ++ LF ++ js "``` suffix".

Definition reply_bare_backticks : jsstring :=
  js "{" ++ Examples.QUOTE ++ js "a" ++ Examples.QUOTE ++ js ":"
  ++ Examples.QUOTE ++ js "```x```" ++ Examples.QUOTE ++ js "}".

(** What is left of [object_backticks] up to its three backticks. *)
Definition object_cut : jsstring :=
  js "{" ++ Examples.QUOTE ++ js "a" ++ Examples.QUOTE ++ js ":"
  ++ Examples.QUOTE.

(** The model service answers 503 and the body of the answer cannot be
    read. *)
Definition connection_reset : exn :=
  JSError (js "TypeError") (js "Network connection lost.").

Definition env_unreadable : Scraper.Env :=
  {| Scraper.ACCOUNT_ID := js "acct"; Scraper.API_TOKEN := js "token";
     Scraper.fetch := fun _ _ =>
       Normal {| Scraper.ok := false; Scraper.http_status := 503;
                 Scraper.text := Raise connection_reset;
                 Scraper.json := Raise connection_reset |} |}.

(** The answer of the model service as it sends it, with further keys
    beside the result. *)
Definition envelope (reply : jsstring) : JSON :=
  JObj [(js "result", JObj [(js "response", JStr reply);
                            (js "usage", JObj [(js "total_tokens",
                                                JNum (inject_Z 42))])]);
        (js "success", JBool true);
        (js "errors", JArr []);
        (js "messages", JArr [])].

(** A browser whose close raises. *)
Definition browser_close_fails : Browser :=
  {| launch := Normal tt;
     newPage := Normal tt;
     setViewport := fun _ _ => Normal tt;
     goto := fun _ => Normal tt;
     waitFor := fun _ => Normal tt;
     screenshot := fun _ => Normal [];
     innerText := Normal (js "A post");
     body_textContent := Normal (js "A post");
     content := Normal [];
     close := Raise (JSError (js "Error") (js "Session closed.")) |}.

(** A feedback whose message id has no conversion to a string. *)
Definition body_feedback_object_id : JSON :=
  JObj [(js "messageId", JObj [(js "toString", JNum (inject_Z 1))]);
        (js "feedbackType", JStr (js "good"))].

(** A namespace that holds an earlier feedback for the message m-42. *)
Definition kv_earlier : Assistant.KV :=
  [(js "feedback:m-41", JObj [(js "feedbackType", JStr (js "bad"))]);
   (js "feedback:m-42", JObj [(js "feedbackType", JStr (js "bad"))])].

(** The extraction worker with a browser whose close raises, with a model
    service that answers 503, and with one that answers with an envelope. *)
Definition scrape_env_close_fails : ScrapeWorker.Env :=
  {| ScrapeWorker.MY_BROWSER := browser_close_fails;
     ScrapeWorker.llm := Examples.env_answering Examples.reply_bare |}.

Definition scrape_env_unavailable : ScrapeWorker.Env :=
  {| ScrapeWorker.MY_BROWSER :=
       Examples.browser_of (js "A post") Examples.page_html;
     ScrapeWorker.llm := Examples.env_unavailable |}.

Definition scrape_env_envelope (reply : jsstring) : ScrapeWorker.Env :=
  {| ScrapeWorker.MY_BROWSER :=
       Examples.browser_of (js "A post") Examples.page_html;
     ScrapeWorker.llm := env_with_body (envelope reply) |}.

(** A model whose answer has no [response]. *)
Definition model_describing (model : jsstring) (inputs : JSON) : outcome jsval :=
  Normal (Some (JObj [(js "description", JStr (js "A page."))])).

Definition env_describing : Index.Env :=
  {| Index.BROWSER := Examples.browser_of (js "Some page text") Examples.page_html;
     Index.AI := model_describing;
     Index.now := Examples.clock |}.

End Scenarios.

(* ================================================================= *)
(** * Specification vocabulary of the other handlers *)

(** A prompt the [/generate] branch refuses: falsy, or a string of white
    space. *)
Definition blank_prompt (p : jsval) : Prop :=
  truthy p = false \/
  exists s, p = Some (JStr s) /\ Forall (fun c => RegExp.is_space c = true) s.

(** The status of a response of the assistant worker. *)
Definition assistant_status (r : Response) : Prop :=
  (status r = 200 \/ status r = 400 \/ status r = 404 \/ status r = 500)%Z.

(** ** [src/index.ts], further *)

(** A call that reads the page or consults the model. *)
Definition reads_page (c : call) : bool :=
  match c with
  | Page_screenshot _ | Page_evaluate_innerText | Page_content | AI_run _ _ => true
  | _ => false
  end.

(** The inputs of the image model: the prompt and the bytes of the
    screenshot. *)
Definition image_inputs (p : jsstring) (bytes : list N) : JSON :=
  JObj [(js "prompt", JStr p);
        (js "image", JArr (map (fun b => JNum (inject_Z (Z.of_N b))) bytes))].

(** The issue of a url that is no URL, at the top of a body. *)
Definition url_issue : Zod.issue :=
  {| Zod.code := Zod.invalid_string_url;
     Zod.path := [js "url"];
     Zod.message := js "A valid URL is required." |}.

(** The names of the three actions. *)
Definition action_names : list jsstring :=
  [js "analyze_image"; js "summarize_text"; js "extract_html"].

(** A number that is a positive integer. *)
Definition positive_integer (q : Q) : bool :=
  Zod.is_integer q && Zod.is_positive q.

(* ================================================================= *)
(** * The fence pattern of [getLLMResult] *)

Section FenceFacts.
Import RegExp Scraper.

Lemma fence_unfold : fence = [96; 96; 96]%N.
Proof. reflexivity. Qed.

Lemma strip_fence_head c s r :
  strip_prefix fence (c :: s) = Some r -> c = 96%N.
Proof.
  rewrite fence_unfold. cbn [strip_prefix].
  destruct (N.eqb_spec 96 c) as [<-|]; [intros; reflexivity | discriminate].
Qed.

Lemma strip_fence_space c s :
  is_space c = true -> strip_prefix fence (c :: s) = None.
Proof.
  intros Hc. destruct (strip_prefix fence (c :: s)) eqn:E; [|reflexivity].
  apply strip_fence_head in E. subst c. discriminate.
Qed.

(** greedy white space: the continuation is tried on the longest run first;
    when failing on [r] implies failing on one more white space before [r],
    only that first attempt counts *)
Lemma star_space_first (R : Type) (k : jsstring -> option R) :
  (forall c r, is_space c = true -> k r = None -> k (c :: r) = None) ->
  forall s, star is_space s k = k (trim_start s).
Proof.
  intros Hk.
  assert (Hnone : forall s, k (trim_start s) = None -> k s = None).
  { induction s as [|c s IH]; simpl; [tauto|].
    destruct (is_space c) eqn:Hc; [|tauto].
    intros H. apply Hk; auto. }
  induction s as [|c s IH]; simpl; [reflexivity|].
  destruct (is_space c) eqn:Hc; [|reflexivity].
  rewrite IH. destruct (k (trim_start s)) eqn:E; [reflexivity|].
  apply Hk; auto.
Qed.

Lemma strip_prefix_app l r : strip_prefix l (l ++ r) = Some r.
Proof.
  induction l as [|a l IH]; simpl; [reflexivity|].
  rewrite N.eqb_refl. exact IH.
Qed.

Lemma strip_prefix_sound l : forall s r, strip_prefix l s = Some r -> s = l ++ r.
Proof.
  induction l as [|a l IH]; intros s r; simpl.
  - intros H; injection H as <-; reflexivity.
  - destruct s as [|b s]; [discriminate|].
    destruct (N.eqb_spec a b) as [<-|]; [|discriminate].
    intros H. apply IH in H. now subst s.
Qed.

Lemma trim_start_fence r : trim_start (fence ++ r) = fence ++ r.
Proof. reflexivity. Qed.

Lemma strip_trim_none s :
  strip_prefix fence (trim_start s) = None -> strip_prefix fence s = None.
Proof.
  destruct s as [|c s]; simpl; [tauto|].
  destruct (is_space c) eqn:Hc; [|tauto].
  intros _. now apply strip_fence_space.
Qed.

Lemma find_sound needle : forall s b r,
  find needle s = Some (b, r) -> s = b ++ needle ++ r.
Proof.
  induction s as [|c s IH]; intros b r; simpl.
  - destruct (strip_prefix needle []) eqn:E; [|discriminate].
    intros H; injection H as <- <-. now apply strip_prefix_sound in E.
  - destruct (strip_prefix needle (c :: s)) eqn:E.
    + intros H; injection H as <- <-. now apply strip_prefix_sound in E.
    + destruct (find needle s) as [[b' r']|] eqn:F; [|discriminate].
      intros H; injection H as <- <-. simpl. f_equal. now apply IH.
Qed.

Lemma find_cons_space c s :
  is_space c = true ->
  find fence (c :: s) =
  match find fence s with
  | Some (b, r) => Some (c :: b, r)
  | None => None
  end.
Proof.
  intros Hc. cbn [find]. now rewrite (strip_fence_space _ _ Hc).
Qed.

Lemma trim_end_nil_trim_start b x :
  trim_end b = [] -> trim_start (b ++ x) = trim_start x.
Proof.
  induction b as [|c b IH]; simpl; [reflexivity|].
  destruct (trim_end b) eqn:E; [|discriminate].
  destruct (is_space c); [auto | discriminate].
Qed.

(** a fence right after white space is the first fence *)
Lemma find_after_space : forall s r,
  strip_prefix fence (trim_start s) = Some r ->
  exists ws, find fence s = Some (ws, r) /\ trim_end ws = [].
Proof.
  induction s as [|c s IH]; intros r.
  - simpl. discriminate.
  - cbn [trim_start]. destruct (is_space c) eqn:Hc.
    + intros H. destruct (IH _ H) as (ws & F & T).
      exists (c :: ws). rewrite find_cons_space, F by assumption.
      split; [reflexivity|]. simpl. now rewrite T, Hc.
    + intros H. exists []. cbn [find]. now rewrite H.
Qed.

Lemma trim_end_cons c b :
  (is_space c = true -> trim_end b <> []) ->
  trim_end (c :: b) = c :: trim_end b.
Proof.
  intros H. simpl. destruct (trim_end b) eqn:E; [|reflexivity].
  destruct (is_space c); [now destruct H | reflexivity].
Qed.

Lemma consumed_app (pre s : jsstring) : consumed (pre ++ s) s = pre.
Proof.
  unfold consumed. rewrite length_app.
  replace (length pre + length s - length s) with (length pre) by lia.
  rewrite firstn_app, firstn_all, Nat.sub_diag. simpl. apply app_nil_r.
Qed.

Section Tail.
Variable R : Type.
Variable F : jsstring -> option jsstring -> R.
Variable s0 : jsstring.

Let k (s3 : jsstring) : option R :=
  match strip_prefix fence (trim_start s3) with
  | Some r => Some (F r (Some (consumed s0 s3)))
  | None => None
  end.

Lemma lazy_tail : forall s pre, s0 = pre ++ s ->
  star_lazy any_char s k =
  match find fence s with
  | Some (before, rest) => Some (F rest (Some (pre ++ trim_end before)))
  | None => None
  end.
Proof.
  induction s as [|c s IH]; intros pre E.
  - reflexivity.
  - cbn [star_lazy]. unfold k at 1.
    destruct (strip_prefix fence (trim_start (c :: s))) as [r|] eqn:S.
    + destruct (find_after_space _ _ S) as (ws & Fd & T).
      rewrite Fd, T, app_nil_r, E, consumed_app. reflexivity.
    + cbn [any_char]. rewrite (IH (pre ++ [c])) by (rewrite <- app_assoc; exact E).
      cbn [find]. rewrite (strip_trim_none _ S).
      destruct (find fence s) as [[b r]|] eqn:Fd; [|reflexivity].
      rewrite trim_end_cons, <- app_assoc; [reflexivity|].
      intros Hc T. apply find_sound in Fd.
      cbn [trim_start] in S. rewrite Hc, Fd in S.
      rewrite (trim_end_nil_trim_start _ _ T), trim_start_fence in S.
      now rewrite strip_prefix_app in S.
Qed.
End Tail.

Lemma star_ext (R : Type) p (k1 k2 : jsstring -> option R) :
  (forall x, k1 x = k2 x) -> forall s, star p s k1 = star p s k2.
Proof.
  intros H. induction s as [|c s IH]; simpl; [apply H|].
  now rewrite IH, H.
Qed.

Lemma star_lazy_ext (R : Type) p (k1 k2 : jsstring -> option R) :
  (forall x, k1 x = k2 x) -> forall s, star_lazy p s k1 = star_lazy p s k2.
Proof.
  intros H. induction s as [|c s IH]; simpl; rewrite H; [reflexivity|].
  now rewrite IH.
Qed.

Lemma find_cons_other c s :
  c <> 96%N ->
  find fence (c :: s) =
  match find fence s with
  | Some (b, r) => Some (c :: b, r)
  | None => None
  end.
Proof.
  intros Hc. cbn [find].
  destruct (strip_prefix fence (c :: s)) eqn:E; [|reflexivity].
  now apply strip_fence_head in E.
Qed.

Lemma find_trim_start : forall a,
  find fence (trim_start a) =
  match find fence a with
  | Some (b, r) => Some (trim_start b, r)
  | None => None
  end.
Proof.
  induction a as [|c a IH]; [reflexivity|].
  cbn [trim_start]. destruct (is_space c) eqn:Hc.
  - rewrite IH, find_cons_space by assumption.
    destruct (find fence a) as [[b r]|]; [|reflexivity].
    cbn [trim_start]. now rewrite Hc.
  - cbn [find]. destruct (strip_prefix fence (c :: a)); [reflexivity|].
    destruct (find fence a) as [[b r]|]; [|reflexivity].
    cbn [trim_start]. now rewrite Hc.
Qed.

(** a fence in a suffix is a fence in the whole *)
Lemma find_app_some p : forall x,
  find fence x <> None -> find fence (p ++ x) <> None.
Proof.
  induction p as [|c p IH]; intros x H; [exact H|].
  simpl app. cbn [find].
  destruct (strip_prefix fence (c :: p ++ x)); [discriminate|].
  specialize (IH x H). destruct (find fence (p ++ x)) as [[? ?]|];
    [discriminate | contradiction].
Qed.

Lemma find_drop_tag a :
  find fence (drop_tag a) = None <-> find fence a = None.
Proof.
  unfold drop_tag.
  destruct (strip_prefix (js "json") a) as [a'|] eqn:E; [|tauto].
  apply strip_prefix_sound in E. subst a.
  change (js "json" ++ a') with (106 :: 115 :: 111 :: 110 :: a')%N.
  rewrite !find_cons_other by discriminate.
  destruct (find fence a') as [[? ?]|]; split; congruence.
Qed.

Lemma exec_Seq (R : Type) r1 r2 s c (k : jsstring -> option jsstring -> option R) :
  exec (Seq r1 r2) s c k = exec r1 s c (fun s' c' => exec r2 s' c' k).
Proof. reflexivity. Qed.

Section MatchHere.
Variable s : jsstring.

Let K0 (s' : jsstring) (cap : option jsstring) : option match_array :=
  Some {| whole := consumed s s'; group1 := cap |}.

Let W := Seq (Star is_space) (Lit fence).
Let Z := Seq (Group (StarLazy any_char)) W.
Let Y := Seq (Star is_space) Z.

Lemma exec_close s3 c3 :
  exec W s3 c3 K0 =
  match strip_prefix fence (trim_start s3) with
  | Some r => K0 r c3
  | None => None
  end.
Proof.
  unfold W. rewrite exec_Seq. cbn [exec].
  rewrite star_space_first; [reflexivity|].
  intros c r Hc _. now rewrite strip_fence_space.
Qed.

Lemma exec_interior s' c :
  exec Z s' c K0 =
  match find fence s' with
  | Some (before, rest) => K0 rest (Some (trim_end before))
  | None => None
  end.
Proof.
  unfold Z. rewrite exec_Seq. cbn [exec].
  rewrite (star_lazy_ext _ _ _
             (fun s3 => match strip_prefix fence (trim_start s3) with
                        | Some r => Some {| whole := consumed s r;
                                             group1 := Some (consumed s' s3) |}
                        | None => None
                        end)).
  - rewrite (lazy_tail _ (fun r cap => {| whole := consumed s r; group1 := cap |})
                       s' s' [] eq_refl).
    reflexivity.
  - intros x. apply exec_close.
Qed.

Lemma exec_body a c :
  exec Y a c K0 =
  match find fence a with
  | Some (before, rest) => K0 rest (Some (trim before))
  | None => None
  end.
Proof.
  unfold Y. rewrite exec_Seq. cbn [exec].
  rewrite (star_ext _ _ _
             (fun s' => match find fence s' with
                        | Some (before, rest) => K0 rest (Some (trim_end before))
                        | None => None
                        end)) by (intros; apply exec_interior).
  rewrite star_space_first.
  - rewrite find_trim_start. now destruct (find fence a) as [[b r]|].
  - intros c0 r Hc. rewrite find_cons_space by assumption.
    destruct (find fence r) as [[b r']|]; [discriminate | reflexivity].
Qed.

Lemma match_here_spec :
  match_here fence_regex s =
  match strip_prefix fence s with
  | None => None
  | Some after =>
      match find fence (drop_tag after) with
      | Some (before, rest) =>
          Some {| whole := consumed s rest; group1 := Some (trim before) |}
      | None => None
      end
  end.
Proof.
  change (match_here fence_regex s) with
    (match strip_prefix fence s with
     | Some after =>
         match
           match strip_prefix (js "json") after with
           | Some a' => exec Y a' None K0
           | None => None
           end
         with
         | Some x => Some x
         | None => exec Y after None K0
         end
     | None => None
     end).
  destruct (strip_prefix fence s) as [after|]; [|reflexivity].
  unfold drop_tag.
  destruct (strip_prefix (js "json") after) as [a'|] eqn:E.
  - rewrite !exec_body.
    destruct (find fence a') as [[b r]|] eqn:Fa; [reflexivity|].
    assert (Fn : find fence after = None).
    { apply find_drop_tag. unfold drop_tag. now rewrite E. }
    now rewrite Fn.
  - now rewrite exec_body.
Qed.
End MatchHere.

(** no fence after any fence: nothing matches *)
Lemma String_match_none : forall s,
  (forall a x, s = a ++ fence ++ x -> find fence x = None) ->
  String_match fence_regex s = None.
Proof.
  induction s as [|c s IH]; intros H; cbn [String_match];
    rewrite match_here_spec.
  - reflexivity.
  - destruct (strip_prefix fence (c :: s)) as [after|] eqn:E.
    + apply strip_prefix_sound in E.
      assert (Fn : find fence after = None) by (apply (H []); exact E).
      apply (proj2 (find_drop_tag _)) in Fn. rewrite Fn.
      apply IH. intros a x Hs. apply (H (c :: a)). now rewrite Hs.
    + apply IH. intros a x Hs. apply (H (c :: a)). now rewrite Hs.
Qed.

Lemma fenced_interior_cons c s :
  strip_prefix fence (c :: s) = None ->
  fenced_interior (c :: s) = fenced_interior s.
Proof.
  intros E. unfold fenced_interior. cbn [find]. rewrite E.
  now destruct (find fence s) as [[b r]|].
Qed.

Lemma String_match_group1 : forall s,
  option_map group1 (String_match fence_regex s) =
  option_map Some (fenced_interior s).
Proof.
  induction s as [|c s IH].
  - reflexivity.
  - cbn [String_match]. rewrite match_here_spec.
    destruct (strip_prefix fence (c :: s)) as [after|] eqn:E.
    + assert (Fd : find fence (c :: s) = Some ([], after))
        by (cbn [find]; now rewrite E).
      unfold fenced_interior. rewrite Fd.
      destruct (find fence (drop_tag after)) as [[b r]|] eqn:Fa; [reflexivity|].
      rewrite String_match_none; [reflexivity|].
      intros a x Hs.
      apply strip_prefix_sound in E. rewrite fence_unfold in E.
      injection E as -> E. subst s.
      apply (proj1 (find_drop_tag _)) in Fa.
      destruct (find fence x) as [[b r]|] eqn:Fx; [exfalso | reflexivity].
      change ([96; 96] ++ after = a ++ fence ++ x)%N in Hs.
      rewrite app_assoc in Hs.
      apply app_eq_app in Hs. destruct Hs as (l & [[H1 H2] | [H1 H2]]).
      * apply (f_equal (@length N)) in H1.
        rewrite !length_app, fence_unfold in H1. simpl in H1. lia.
      * subst after. revert Fa. apply find_app_some. now rewrite Fx.
    + rewrite fenced_interior_cons by assumption. exact IH.
Qed.

Lemma candidate_spec reply : candidate reply = Some (spec_candidate reply).
Proof.
  unfold candidate, spec_candidate.
  pose proof (String_match_group1 reply) as H.
  destruct (String_match fence_regex reply) as [m|];
    destruct (fenced_interior reply) as [i|]; simpl in H; congruence.
Qed.

(** ** A fenced block amid prose *)

Lemma find_here needle s rest :
  strip_prefix needle s = Some rest -> find needle s = Some ([], rest).
Proof. intros H. destruct s; cbn [find]; now rewrite H. Qed.

Lemma find_no_backtick r : forall b,
  ~ In 96%N b -> find fence (b ++ fence ++ r) = Some (b, r).
Proof.
  induction b as [|c b IH]; intros Hb.
  - cbn [app]. apply find_here, strip_prefix_app.
  - cbn [app]. rewrite find_cons_other.
    + rewrite IH; [reflexivity|]. intros Hin. apply Hb. now right.
    + intros ->. apply Hb. now left.
Qed.

Lemma trim_start_spaces ws x :
  Forall (fun c => is_space c = true) ws -> trim_start (ws ++ x) = trim_start x.
Proof.
  induction 1 as [|c ws Hc _ IH]; [reflexivity|]. cbn. now rewrite Hc.
Qed.

Lemma trim_end_spaces_only ws :
  Forall (fun c => is_space c = true) ws -> trim_end ws = [].
Proof.
  induction 1 as [|c ws Hc _ IH]; [reflexivity|]. cbn. now rewrite IH, Hc.
Qed.

Lemma trim_end_app_spaces ws : forall x,
  Forall (fun c => is_space c = true) ws -> trim_end (x ++ ws) = trim_end x.
Proof.
  intros x Hws. induction x as [|c x IH]; cbn [app].
  - now apply trim_end_spaces_only.
  - simpl. now rewrite IH.
Qed.

Lemma trim_start_app x y :
  trim_start x = x -> x <> [] -> trim_start (x ++ y) = x ++ y.
Proof.
  destruct x as [|c x]; [congruence|]. cbn. intros H _.
  destruct (is_space c) eqn:Hc; [|reflexivity].
  exfalso. assert (L : length (trim_start x) <= length x).
  { clear. induction x as [|a x IH]; cbn; [lia|].
    destruct (is_space a); cbn; lia. }
  rewrite H in L. cbn in L. lia.
Qed.

(** text between the fences: white space, a trimmed text without backticks,
    white space *)
Lemma trim_padded ws1 obj ws2 :
  Forall (fun c => is_space c = true) ws1 ->
  Forall (fun c => is_space c = true) ws2 ->
  trim obj = obj ->
  trim (ws1 ++ obj ++ ws2) = obj.
Proof.
  intros H1 H2 Ht. unfold trim in *.
  rewrite trim_start_spaces by assumption.
  destruct obj as [|c obj].
  - cbn [app]. rewrite <- (app_nil_r ws2), trim_start_spaces by assumption.
    reflexivity.
  - assert (Hs : trim_start (c :: obj) = c :: obj).
    { cbn in *. destruct (is_space c) eqn:Hc; [|reflexivity]. exfalso.
      assert (L : forall x, length (trim_end x) <= length x).
      { clear. induction x as [|a x IH]; cbn; [lia|].
        destruct (trim_end x); [destruct (is_space a)|]; cbn in *; lia. }
      assert (L2 : forall x, length (trim_start x) <= length x).
      { clear. induction x as [|a x IH]; cbn; [lia|].
        destruct (is_space a); cbn; lia. }
      pose proof (L (trim_start obj)) as La. pose proof (L2 obj) as Lb.
      rewrite Ht in La. cbn in La. lia. }
    rewrite trim_start_app by (assumption || discriminate).
    rewrite trim_end_app_spaces by assumption.
    now rewrite Hs in Ht.
Qed.

(** The fenced block of a reply, when its opening fence is the first three
    backticks of the reply and its closing fence the next three. *)
Lemma fenced_block pre (tagged : bool) ws1 obj ws2 post :
  first_fence (pre ++ fence ++ (if tagged then js "json" else [])
                   ++ ws1 ++ obj ++ ws2 ++ fence ++ post)
              pre
              ((if tagged then js "json" else [])
                 ++ ws1 ++ obj ++ ws2 ++ fence ++ post) ->
  first_fence (ws1 ++ obj ++ ws2 ++ fence ++ post) (ws1 ++ obj ++ ws2) post ->
  Forall (fun c => is_space c = true) ws1 ->
  Forall (fun c => is_space c = true) ws2 ->
  trim obj = obj ->
  (tagged = false ->
   strip_prefix (js "json") (ws1 ++ obj ++ ws2 ++ fence ++ post) = None) ->
  spec_candidate
    (pre ++ fence ++ (if tagged then js "json" else [])
         ++ ws1 ++ obj ++ ws2 ++ fence ++ post) = obj.
Proof.
  unfold first_fence. intros Hopen Hclose H1 H2 Ht Htag.
  unfold spec_candidate, fenced_interior. rewrite Hopen.
  assert (D : drop_tag ((if tagged then js "json" else [])
                          ++ ws1 ++ obj ++ ws2 ++ fence ++ post)
              = ws1 ++ obj ++ ws2 ++ fence ++ post).
  { unfold drop_tag. destruct tagged.
    - now rewrite strip_prefix_app.
    - cbn [app]. now rewrite Htag. }
  rewrite D, Hclose. now apply trim_padded.
Qed.

(** A reply without a second fence is taken whole. *)
Lemma unfenced_whole reply :
  no_fence reply \/
  (exists before after,
      first_fence reply before after /\ no_fence (drop_tag after)) ->
  spec_candidate reply = reply.
Proof.
  unfold no_fence, first_fence, spec_candidate, fenced_interior.
  intros [-> | (b & a & -> & ->)]; reflexivity.
Qed.

(** Text without a backtick holds no fence, and a fence after it is the
    first one. *)
Lemma first_fence_after pre rest :
  ~ In 96%N pre -> first_fence (pre ++ fence ++ rest) pre rest.
Proof. intros H. unfold first_fence. now apply find_no_backtick. Qed.

End FenceFacts.

(* ================================================================= *)
(** * The program logic *)

(** ** Rules for sequencing, calls, catch and finally *)

Lemma spec_conseq {A} (m : M A) (Q Q' : outcome A -> trace -> Prop) :
  spec m Q -> (forall o t, Q o t -> Q' o t) -> spec m Q'.
Proof.
  intros H HQ t. destruct (H t) as (o & t' & E & q). eauto.
Qed.

Lemma spec_ret {A} (a : A) (Q : outcome A -> trace -> Prop) :
  Q (Normal a) [] -> spec (ret a) Q.
Proof. intros q t. exists (Normal a), []. now rewrite app_nil_r. Qed.

Lemma spec_lift {A} (o : outcome A) (Q : outcome A -> trace -> Prop) :
  Q o [] -> spec (lift o) Q.
Proof. intros q t. exists o, []. now rewrite app_nil_r. Qed.

Lemma spec_throw {A} e (Q : outcome A -> trace -> Prop) :
  Q (Raise e) [] -> spec (throw e) Q.
Proof. intros q t. exists (Raise e), []. now rewrite app_nil_r. Qed.

Lemma spec_perform {A} c (o : outcome A) (Q : outcome A -> trace -> Prop) :
  Q o [{| what := c; raised := raised_of o |}] -> spec (perform c o) Q.
Proof. intros q t. now exists o, [{| what := c; raised := raised_of o |}]. Qed.

Lemma spec_bind {A B} (m : M A) (f : A -> M B) (Q1 : outcome A -> trace -> Prop)
      (Q : outcome B -> trace -> Prop) :
  spec m Q1 ->
  (forall a t1, Q1 (Normal a) t1 -> spec (f a) (fun o t2 => Q o (t1 ++ t2))) ->
  (forall e t1, Q1 (Raise e) t1 -> Q (Raise e) t1) ->
  spec (bind m f) Q.
Proof.
  intros Hm Hf He t. unfold bind.
  destruct (Hm t) as (o & t1 & E & q). rewrite E.
  destruct o as [a|e].
  - destruct (Hf a t1 q (t ++ t1)) as (o2 & t2 & E2 & q2).
    exists o2, (t1 ++ t2). now rewrite app_assoc.
  - exists (Raise e), t1. auto.
Qed.




(** ** Traces that account for their outcome *)

Lemma clean_app t1 t2 : clean t1 -> clean t2 -> clean (t1 ++ t2).
Proof. intros H1 H2 x Hx. apply in_app_or in Hx. destruct Hx; auto. Qed.

Lemma G_nil R {A} (V : A -> Prop) (o : outcome A) :
  (forall a, o = Normal a -> V a) -> G R V o [].
Proof.
  intros v. split; [|split]; [| intros e _ x e' [] | constructor].
  intros a E. split; [intros x [] | auto].
Qed.

Lemma G_call R {A} (V : A -> Prop) c (o : outcome A) :
  R c -> (forall a, o = Normal a -> V a) ->
  G R V o [{| what := c; raised := raised_of o |}].
Proof.
  intros r v. repeat split.
  - subst o. intros x [<-|[]]. reflexivity.
  - auto.
  - intros e -> x e' [<-|[]]. cbn. congruence.
  - constructor; [exact r | constructor].
Qed.

Lemma G_app R {A B} (V1 : A -> Prop) (V : B -> Prop) (a : A) (o : outcome B) t1 t2 :
  G R V1 (Normal a) t1 -> G R V o t2 -> G R V o (t1 ++ t2).
Proof.
  intros (c1 & _ & f1) (c2 & r2 & f2).
  destruct (c1 a eq_refl) as [cl1 _]. repeat split.
  - apply clean_app; [assumption | now apply (c2 a0)].
  - now apply (c2 a0).
  - intros e E x e' Hx Hr. apply in_app_or in Hx. destruct Hx as [Hx|Hx].
    + rewrite (cl1 x Hx) in Hr. discriminate.
    + eauto.
  - apply Forall_app. split; assumption.
Qed.

Lemma G_cast R {A B} (V1 : A -> Prop) (V : B -> Prop) e t :
  G R V1 (@Raise A e) t -> G R V (@Raise B e) t.
Proof.
  intros (_ & r & f). repeat split; try discriminate; [| exact f].
  intros e0 [= <-]. now apply r.
Qed.

Lemma G_mono (R R' : call -> Prop) {A} (V V' : A -> Prop) (o : outcome A) t :
  (forall c, R c -> R' c) -> (forall a, V a -> V' a) ->
  G R V o t -> G R' V' o t.
Proof.
  intros H HV (c & r & f). repeat split; try assumption.
  - now apply (c a).
  - apply HV. now apply (c a).
  - eapply Forall_impl; [|exact f]. intros x. apply H.
Qed.

Lemma spec_G_bind R {A B} (V1 : A -> Prop) (V : B -> Prop)
      (m : M A) (f : A -> M B) :
  spec m (G R V1) -> (forall a, V1 a -> spec (f a) (G R V)) ->
  spec (bind m f) (G R V).
Proof.
  intros Hm Hf. apply spec_bind with (Q1 := G R V1); [exact Hm | |].
  - intros a t1 g. eapply spec_conseq.
    + apply Hf. now apply (proj1 g a).
    + intros o t2. now apply G_app with (a := a) (V1 := V1).
  - intros e t1. apply G_cast.
Qed.

Lemma spec_G_perform R {A} (V : A -> Prop) c (o : outcome A) :
  R c -> (forall a, o = Normal a -> V a) -> spec (perform c o) (G R V).
Proof. intros r v. apply spec_perform. now apply G_call. Qed.

Lemma spec_G_bind_perform R {A B} (V : B -> Prop) c (o : outcome A)
      (f : A -> M B) :
  R c -> (forall a, o = Normal a -> spec (f a) (G R V)) ->
  spec (bind (perform c o) f) (G R V).
Proof.
  intros r Hf.
  apply spec_G_bind with (V1 := fun a => o = Normal a); [|exact Hf].
  now apply spec_G_perform.
Qed.

Lemma spec_G_bind_lift R {A B} (V : B -> Prop) (o : outcome A) (f : A -> M B) :
  (forall a, o = Normal a -> spec (f a) (G R V)) ->
  spec (bind (lift o) f) (G R V).
Proof.
  intros Hf.
  apply spec_G_bind with (V1 := fun a => o = Normal a); [|exact Hf].
  apply spec_lift, G_nil. auto.
Qed.

Lemma spec_G_ret R {A} (V : A -> Prop) (a : A) : V a -> spec (ret a) (G R V).
Proof. intros v. apply spec_ret, G_nil. now intros ? [= <-]. Qed.

Lemma spec_G_throw R {A} (V : A -> Prop) e : spec (@throw A e) (G R V).
Proof. apply spec_throw, G_nil. discriminate. Qed.

(** ** Calls of a handler that catches *)

Lemma H_nil R {A} (V : A -> Prop) (o : outcome A) :
  (forall a, o = Normal a -> V a) -> H R V o [].
Proof. intros v. split; [exact v | constructor]. Qed.

Lemma spec_H_ret R {A} (V : A -> Prop) (a : A) : V a -> spec (ret a) (H R V).
Proof. intros v. apply spec_ret, H_nil. now intros ? [= <-]. Qed.

Lemma spec_H_perform R {A} (V : A -> Prop) c (o : outcome A) :
  R c -> (forall a, o = Normal a -> V a) -> spec (perform c o) (H R V).
Proof.
  intros r v. apply spec_perform. split; [exact v|].
  constructor; [exact r | constructor].
Qed.

Lemma spec_H_bind R {A B} (V1 : A -> Prop) (V : B -> Prop)
      (m : M A) (f : A -> M B) :
  spec m (H R V1) -> (forall a, V1 a -> spec (f a) (H R V)) ->
  spec (bind m f) (H R V).
Proof.
  intros Hm Hf. apply spec_bind with (Q1 := H R V1); [exact Hm | |].
  - intros a t1 [v f1]. eapply spec_conseq; [apply Hf; now apply v|].
    intros o t2 [v2 f2]. split; [exact v2 | now apply Forall_app].
  - intros e t1 [_ f1]. split; [discriminate | exact f1].
Qed.

Lemma spec_H_bind_perform R {A B} (V : B -> Prop) c (o : outcome A)
      (f : A -> M B) :
  R c -> (forall a, o = Normal a -> spec (f a) (H R V)) ->
  spec (bind (perform c o) f) (H R V).
Proof.
  intros r Hf.
  apply spec_H_bind with (V1 := fun a => o = Normal a); [|exact Hf].
  now apply spec_H_perform.
Qed.

Lemma spec_H_bind_lift R {A B} (V : B -> Prop) (o : outcome A) (f : A -> M B) :
  (forall a, o = Normal a -> spec (f a) (H R V)) ->
  spec (bind (lift o) f) (H R V).
Proof.
  intros Hf.
  apply spec_H_bind with (V1 := fun a => o = Normal a); [|exact Hf].
  apply spec_lift, H_nil. auto.
Qed.



(* ================================================================= *)
(** * The handler of [src/index.ts] *)

Section IndexFacts.
Import Index.

Lemma launchAndNavigate_spec R env url o :
  R Puppeteer_launch -> R Browser_newPage ->
  (forall w h, R (Page_setViewport w h)) ->
  (forall u w t, R (Page_goto u w t)) ->
  (forall s t, R (Page_waitForSelector s t)) ->
  spec (launchAndNavigate env url o) (G R any).
Proof.
  intros R1 R2 R3 R4 R5. unfold launchAndNavigate.
  apply spec_G_bind_perform; [exact R1 | intros _ _].
  apply spec_G_bind_perform; [exact R2 | intros _ _].
  apply spec_G_bind with (V1 := any).
  { destruct (viewport o) as [[w h]|];
      [apply spec_G_perform; [apply R3 | easy] | now apply spec_G_ret]. }
  intros _ _. apply spec_G_bind_perform; [apply R4 | intros _ _].
  destruct (waitForSelector o) as [[|c sel]|];
    [now apply spec_G_ret | apply spec_G_perform; [apply R5 | easy]
     | now apply spec_G_ret].
Qed.

Lemma run_action_spec env d :
  spec (run_action env d) (G (expected_call env d) (expected_data env d)).
Proof.
  unfold run_action, expected_data.
  destruct (action d) eqn:Ha.
  - apply spec_G_bind with (V1 := any);
      [apply launchAndNavigate_spec; cbn; auto | intros _ _].
    apply spec_G_bind_perform; [exact Ha | intros buf _].
    apply spec_G_bind_perform; [cbn; now rewrite Ha | intros ai _].
    apply spec_G_bind_lift. intros resp _. apply spec_G_ret. eauto.
  - apply spec_G_bind with (V1 := any);
      [apply launchAndNavigate_spec; cbn; auto | intros _ _].
    apply spec_G_bind_perform; [exact Ha | intros pageText Ht].
    apply spec_G_bind_perform; [cbn; rewrite Ha; eauto | intros ai _].
    apply spec_G_bind_lift. intros resp _. apply spec_G_ret. eauto.
  - apply spec_G_bind with (V1 := any);
      [apply launchAndNavigate_spec; cbn; auto | intros _ _].
    apply spec_G_bind_perform; [exact Ha | intros html Hh].
    apply spec_G_ret. eauto.
Qed.

Lemma jseqb_refl s : jseqb s s = true.
Proof. unfold jseqb. now destruct (list_eq_dec N.eq_dec s s). Qed.

Lemma jseqb_eq a b : jseqb a b = true -> a = b.
Proof. unfold jseqb. now destruct (list_eq_dec N.eq_dec a b). Qed.

Section FetchFacts.
Variable default_message : Zod.issue_code -> jsstring.
Variable URL_valid : jsstring -> bool.

Let fetch := Index.fetch default_message URL_valid.
Let RequestSchema := Index.RequestSchema default_message URL_valid.

Lemma fetch_not_post request env :
  method request <> js "POST" ->
  run (fetch request env) = (Normal method_not_allowed, []).
Proof.
  intros H. unfold fetch, Index.fetch.
  destruct (jseqb (method request) (js "POST")) eqn:E; [|reflexivity].
  now apply jseqb_eq in E.
Qed.

Lemma fetch_unparseable request env e :
  method request = js "POST" -> body_json request = Raise e ->
  run (fetch request env) =
  (Normal (internal_error e),
   [entry_ok Date_now; {| what := Request_json; raised := Some e |};
    console_entry e]).
Proof.
  intros Hm Hb. unfold fetch, Index.fetch.
  rewrite Hm, jseqb_refl. cbn [negb].
  unfold run, bind, try_catch, perform, ret. now rewrite Hb.
Qed.

Lemma fetch_invalid request env body issues :
  method request = js "POST" -> body_json request = Normal body ->
  Zod.safeParse RequestSchema (Some body) = inr issues ->
  run (fetch request env) =
  (Normal (validation_failure issues),
   [entry_ok Date_now; entry_ok Request_json]).
Proof.
  intros Hm Hb Hs. unfold fetch, Index.fetch.
  rewrite Hm, jseqb_refl. cbn [negb].
  unfold run, bind, try_catch, perform, ret. rewrite Hb.
  fold RequestSchema. now rewrite Hs.
Qed.

Lemma fetch_valid request env body d :
  method request = js "POST" -> body_json request = Normal body ->
  Zod.safeParse RequestSchema (Some body) = inl d ->
  exists r t' tail,
    run (fetch request env) =
    (Normal r, [entry_ok Date_now; entry_ok Request_json] ++ t' ++ tail) /\
    Forall (fun x => fetch_call env d (what x)) t' /\
    ((clean t' /\ tail = [] /\
      exists data, expected_data env d data /\
                   r = success d data (now env 0) (now env 1)) \/
     (exists e, r = internal_error e /\ tail = [console_entry e] /\
                forall x e', In x t' -> raised x = Some e' -> e' = e)).
Proof.
  intros Hm Hb Hs. unfold fetch, Index.fetch.
  rewrite Hm, jseqb_refl. cbn [negb].
  unfold run. unfold bind at 1. unfold perform at 1. unfold try_catch.
  unfold bind at 1. unfold perform at 1. rewrite Hb.
  fold RequestSchema. rewrite Hs.
  assert (S : spec (data <- run_action env d ;;
                    perform Browser_close (close (BROWSER env)) ;;;
                    endTime <- perform Date_now (Normal (now env 1)) ;;
                    ret (success d data (now env 0) endTime))
                   (G (fetch_call env d)
                      (fun r => exists data, expected_data env d data /\
                         r = success d data (now env 0) (now env 1)))).
  { apply spec_G_bind with (V1 := expected_data env d).
    - eapply spec_conseq; [apply run_action_spec|].
      intros o t. apply G_mono; [intros c; left; assumption | auto].
    - intros data Hd.
      apply spec_G_bind_perform; [right; left; reflexivity | intros _ _].
      apply spec_G_bind_perform; [right; right; reflexivity | intros t1 [= <-]].
      apply spec_G_ret. eauto. }
  destruct (S ([] ++ [{| what := Date_now; raised := raised_of (Normal (now env 0)) |}]
               ++ [{| what := Request_json; raised := raised_of (Normal body) |}]))
    as (o & t' & E & (gn & gr & gf)).
  cbn [app raised_of] in E |- *. rewrite E.
  destruct o as [r|e].
  - exists r, t', []. rewrite app_nil_r. split; [reflexivity|]. split; [exact gf|].
    left. destruct (gn r eq_refl) as [cl v]. auto.
  - exists (internal_error e), t', [console_entry e].
    split; [|split; [exact gf|]].
    + unfold ret, perform, bind. cbn. reflexivity.
    + right. exists e. repeat split. now apply gr.
Qed.
End FetchFacts.

(** ** What validation makes of the keys of the body *)

Section SchemaFacts.
Variable default_message : Zod.issue_code -> jsstring.
Variable URL_valid : jsstring -> bool.

Let RequestSchema := Index.RequestSchema default_message URL_valid.
Let RequestObject := Index.RequestObject default_message URL_valid.
Local Abbreviation parsed_url := (Index.parsed_url default_message URL_valid).
Local Abbreviation parsed_action := (Index.parsed_action default_message).
Local Abbreviation parsed_prompt := (Index.parsed_prompt default_message).
Local Abbreviation parsed_model := (Index.parsed_model default_message).
Local Abbreviation parsed_renderOptions :=
  (Index.parsed_renderOptions default_message).

Lemma RequestObject_keys fields :
  RequestObject [] (Some (JObj fields)) =
  Zod.merge
    (Zod.merge
       (Zod.merge
          (Zod.merge
             (Zod.merge (Zod.ok Build_RequestData, []) (parsed_url fields))
             (parsed_action fields))
          (parsed_prompt fields))
       (parsed_model fields))
    (parsed_renderOptions fields).
Proof. reflexivity. Qed.

(** A parse that did not abort took its value from the five keys. *)
Lemma RequestObject_value fields d :
  fst (RequestObject [] (Some (JObj fields))) = Zod.ok d \/
  fst (RequestObject [] (Some (JObj fields))) = Zod.dirty d ->
  exists u a p m r,
    d = Build_RequestData u a p m r /\
    (fst (parsed_url fields) = Zod.ok u \/ fst (parsed_url fields) = Zod.dirty u) /\
    (fst (parsed_action fields) = Zod.ok a \/ fst (parsed_action fields) = Zod.dirty a) /\
    (fst (parsed_prompt fields) = Zod.ok p \/ fst (parsed_prompt fields) = Zod.dirty p) /\
    (fst (parsed_model fields) = Zod.ok m \/ fst (parsed_model fields) = Zod.dirty m) /\
    (fst (parsed_renderOptions fields) = Zod.ok r \/
     fst (parsed_renderOptions fields) = Zod.dirty r).
Proof.
  rewrite RequestObject_keys. unfold Zod.merge. cbn [fst snd].
  destruct (fst (parsed_url fields)) as [u|u|];
    destruct (fst (parsed_action fields)) as [a|a|];
    destruct (fst (parsed_prompt fields)) as [p|p|];
    destruct (fst (parsed_model fields)) as [m|m|];
    destruct (fst (parsed_renderOptions fields)) as [r|r|];
    intros [H|H]; try discriminate H; injection H as <-;
    exists u, a, p, m, r; repeat split; auto.
Qed.

Lemma parsed_action_analyze fields :
  obj_get (js "action") fields = Some (JStr (js "analyze_image")) ->
  parsed_action fields = (Zod.ok analyze_image, []).
Proof. unfold parsed_action, Zod.key. now intros ->. Qed.

Lemma parsed_prompt_absent fields :
  obj_get (js "prompt") fields = None ->
  parsed_prompt fields = (Zod.ok None, []).
Proof. unfold parsed_prompt, Zod.key. now intros ->. Qed.

Lemma parsed_model_absent fields :
  obj_get (js "model") fields = None ->
  parsed_model fields = (Zod.ok default_model, []).
Proof. unfold parsed_model, Zod.key. now intros ->. Qed.

Lemma parsed_model_given fields m :
  obj_get (js "model") fields = Some (JStr m) ->
  parsed_model fields = (Zod.ok m, []).
Proof. unfold parsed_model, Zod.key. now intros ->. Qed.

(** A successful safeParse: the body is an object, valid key by key. *)
Lemma safeParse_valid body d :
  Zod.safeParse RequestSchema (Some body) = inl d ->
  exists fields,
    body = JObj fields /\
    fst (RequestObject [] (Some (JObj fields))) = Zod.ok d /\
    prompt_rule d = true.
Proof.
  unfold Zod.safeParse, RequestSchema, Index.RequestSchema, Zod.z_refine.
  fold RequestObject.
  destruct body as [| | | | |fields];
    try (cbn; discriminate).
  intros H. exists fields. split; [reflexivity|].
  unfold Zod.add_check in H.
  destruct (RequestObject [] (Some (JObj fields))) as [[d0|d0|] iss] eqn:E;
    cbn [fst snd] in *.
  - destruct (prompt_rule d0) eqn:P; [|discriminate].
    injection H as <-. auto.
  - destruct (prompt_rule d0); discriminate.
  - discriminate.
Qed.


Lemma safeParse_model_given fields d m :
  Zod.safeParse RequestSchema (Some (JObj fields)) = inl d ->
  obj_get (js "model") fields = Some (JStr m) -> model d = m.
Proof.
  intros H Hm. apply safeParse_valid in H.
  destruct H as (f & [= <-] & Hd & _).
  destruct (RequestObject_value fields d (or_introl Hd))
    as (u & a & p & m' & r & -> & _ & _ & _ & Hmod & _).
  rewrite (parsed_model_given _ _ Hm) in Hmod. cbn in Hmod.
  destruct Hmod as [[= <-]|[=]]. reflexivity.
Qed.

(** analyze_image without a prompt never validates; when the object parse
    does not abort, the refinement adds its issue. *)
Lemma safeParse_analyze_no_prompt fields :
  obj_get (js "action") fields = Some (JStr (js "analyze_image")) ->
  obj_get (js "prompt") fields = None ->
  exists issues,
    Zod.safeParse RequestSchema (Some (JObj fields)) = inr issues /\
    (Zod.is_aborted (fst (RequestObject [] (Some (JObj fields)))) = false ->
     In prompt_issue issues).
Proof.
  intros Ha Hp.
  unfold Zod.safeParse, RequestSchema, Index.RequestSchema, Zod.z_refine.
  fold RequestObject. unfold Zod.add_check.
  assert (prompt_rule_fails : forall d,
            fst (RequestObject [] (Some (JObj fields))) = Zod.ok d \/
            fst (RequestObject [] (Some (JObj fields))) = Zod.dirty d ->
            prompt_rule d = false).
  { intros d V. apply RequestObject_value in V.
    destruct V as (u & a & p & m & r & Hd & _ & Hact & Hpr & _). subst d.
    rewrite (parsed_action_analyze _ Ha) in Hact.
    rewrite (parsed_prompt_absent _ Hp) in Hpr. cbn in Hact, Hpr.
    destruct Hact as [[= <-]|[=]]. destruct Hpr as [[= <-]|[=]]. reflexivity. }
  destruct (RequestObject [] (Some (JObj fields))) as [[d|d|] iss] eqn:E;
    cbn [fst snd] in *.
  - rewrite (prompt_rule_fails d); [|auto].
    eexists; split; [reflexivity|].
    intros _; apply in_or_app; right; left; reflexivity.
  - rewrite (prompt_rule_fails d); [|auto].
    eexists; split; [reflexivity|].
    intros _; apply in_or_app; right; left; reflexivity.
  - eexists; split; [reflexivity | discriminate].
Qed.
(** The parse of the object does not abort on a body that has a string for
    url, whether or not it is a URL, and leaves model and renderOptions
    out. *)
Lemma RequestObject_not_aborted fields u :
  obj_get (js "url") fields = Some (JStr u) ->
  obj_get (js "action") fields = Some (JStr (js "analyze_image")) ->
  obj_get (js "prompt") fields = None ->
  obj_get (js "model") fields = None ->
  obj_get (js "renderOptions") fields = None ->
  Zod.is_aborted (fst (RequestObject [] (Some (JObj fields)))) = false.
Proof.
  intros Hu Ha Hp Hm Hr. rewrite RequestObject_keys.
  rewrite (parsed_action_analyze _ Ha), (parsed_prompt_absent _ Hp),
    (parsed_model_absent _ Hm).
  unfold Index.parsed_url, Index.parsed_renderOptions, Zod.key.
  rewrite Hu, Hr. unfold Zod.z_string_url, Zod.add_check. cbn.
  now destruct (URL_valid u).
Qed.
End SchemaFacts.

(** ** error.flatten() keeps every issue under its first path element *)

Lemma push_field_new k m fe : field_has (Zod.push_field k m fe) k m.
Proof.
  induction fe as [|[k' ms] fe IH]; cbn.
  - exists [m]. split; left; reflexivity.
  - destruct (jseqb k k') eqn:E.
    + apply jseqb_eq in E. subst k'. exists (ms ++ [m]).
      split; [left; reflexivity | apply in_or_app; right; left; reflexivity].
    + destruct IH as (msgs & I1 & I2). exists msgs. split; [right|]; assumption.
Qed.

Lemma push_field_keeps k m k' m' fe :
  field_has fe k m -> field_has (Zod.push_field k' m' fe) k m.
Proof.
  induction fe as [|[k0 ms] fe IH]; intros (msgs & I1 & I2); [destruct I1|].
  cbn. destruct I1 as [[= -> ->]|I1].
  - destruct (jseqb k' k).
    + exists (msgs ++ [m']). split; [left; reflexivity | apply in_or_app; now left].
    + exists msgs. split; [left; reflexivity | assumption].
  - destruct (jseqb k' k0).
    + exists msgs. split; [right; assumption | assumption].
    + destruct (IH (ex_intro _ msgs (conj I1 I2))) as (msgs' & J1 & J2).
      exists msgs'. split; [right; assumption | assumption].
Qed.

Lemma flatten_from_keeps k m : forall issues form fe,
  field_has fe k m -> field_has (snd (Zod.flatten_from issues form fe)) k m.
Proof.
  induction issues as [|i issues IH]; intros form fe H; [exact H|].
  cbn. destruct (Zod.path i) as [|k' rest]; apply IH; [exact H|].
  now apply push_field_keeps.
Qed.

Lemma flatten_from_has i k rest : forall issues form fe,
  In i issues -> Zod.path i = k :: rest ->
  field_has (snd (Zod.flatten_from issues form fe)) k (Zod.message i).
Proof.
  induction issues as [|j issues IH]; intros form fe Hin Hp; [destruct Hin|].
  destruct Hin as [<-|Hin].
  - cbn. rewrite Hp. apply flatten_from_keeps, push_field_new.
  - cbn. destruct (Zod.path j); now apply IH.
Qed.

(** ** Runs in which the browser answers every call *)

Lemma launchAndNavigate_ok env url o t :
  browser_succeeds (BROWSER env) ->
  launchAndNavigate env url o t = (Normal tt, t ++ nav_trace url o).
Proof.
  intros (H1 & H2 & H3 & H4 & H5 & _).
  unfold launchAndNavigate, nav_trace, bind, perform, ret.
  rewrite H1, H2, H4. cbn [raised_of].
  destruct (viewport o) as [[w h]|]; destruct (waitForSelector o) as [[|c sel]|];
    rewrite ?H3, ?H5; cbn [raised_of]; rewrite <- ?app_assoc; cbn [app];
    rewrite ?app_nil_r; reflexivity.
Qed.

(** ** The claims about [src/index.ts] *)

Section IndexClaims.
Variable default_message : Zod.issue_code -> jsstring.
Variable URL_valid : jsstring -> bool.

Let fetch := Index.fetch default_message URL_valid.
Let RequestSchema := Index.RequestSchema default_message URL_valid.
Let RequestObject := Index.RequestObject default_message URL_valid.
Local Abbreviation parsed_url := (Index.parsed_url default_message URL_valid).
Local Abbreviation parsed_action := (Index.parsed_action default_message).
Local Abbreviation parsed_prompt := (Index.parsed_prompt default_message).
Local Abbreviation parsed_model := (Index.parsed_model default_message).
Local Abbreviation parsed_renderOptions :=
  (Index.parsed_renderOptions default_message).

(** C3, as amended: a POST request whose body is an object with action
    analyze_image and no prompt key never validates: the handler answers
    with the validation envelope at status 400 and makes no remote call, so
    no browser session is acquired.  When the parse of the object does not
    abort, that is when the other keys have the types the schema declares,
    the issues include the one of the refinement, whose path is [prompt],
    and the flattened details list its message under the field [prompt]. *)
Theorem prompt_required_before_any_remote_call request env fields :
  method request = js "POST" ->
  body_json request = Normal (JObj fields) ->
  obj_get (js "action") fields = Some (JStr (js "analyze_image")) ->
  obj_get (js "prompt") fields = None ->
  exists issues,
    Zod.safeParse RequestSchema (Some (JObj fields)) = inr issues /\
    fst (run (fetch request env)) = Normal (validation_failure issues) /\
    status (validation_failure issues) = 400%Z /\
    count_calls is_remote (snd (run (fetch request env))) = 0 /\
    count_calls is_launch (snd (run (fetch request env))) = 0 /\
    (Zod.is_aborted (fst (RequestObject [] (Some (JObj fields)))) = false ->
     In (prompt_issue) issues /\
     field_has (Zod.field_errors issues) (js "prompt")
               (Zod.message prompt_issue)).
Proof.
  intros Hm Hb Ha Hp.
  destruct (safeParse_analyze_no_prompt default_message URL_valid fields Ha Hp)
    as (issues & Hs & Hi).
  exists issues. split; [exact Hs|].
  unfold fetch.
  rewrite (fetch_invalid default_message URL_valid request env _ issues Hm Hb Hs).
  repeat split.
  - now apply Hi.
  - unfold Zod.field_errors.
    apply flatten_from_has with (rest := []); [now apply Hi | reflexivity].
Qed.

(** C8, as amended: a POST request always gets a response.  A body that
    parses as JSON and fails the schema gets the validation envelope
    [{ success: false, error: { message, details } }] at status 400, with the
    flattened issues as details and without any remote call.  A body that
    does not parse as JSON, and every call that raises after validation, gets
    the envelope [{ success: false, error: { message } }] at status 500 with
    the message of what was raised; status 200 is reached only when no call
    raised. *)
Theorem error_envelopes request env :
  method request = js "POST" ->
  exists r t,
    run (fetch request env) = (Normal r, t) /\
    (forall body issues,
        body_json request = Normal body ->
        Zod.safeParse RequestSchema (Some body) = inr issues ->
        r = validation_failure issues /\ count_calls is_remote t = 0) /\
    (forall e, body_json request = Raise e -> r = internal_error e) /\
    (forall x e, In x t -> raised x = Some e -> r = internal_error e) /\
    ((status r = 200%Z /\ clean t) \/
     (exists issues, r = validation_failure issues) \/
     (exists e, r = internal_error e)) /\
    (forall issues,
        validation_failure issues =
        {| status := 400; headers := [];
           payload :=
             BodyJSON
               (JObj [(js "success", JBool false);
                      (js "error",
                       JObj [(js "message", JStr (js "Invalid request body."));
                             (js "details", Zod.flatten issues)])]) |}) /\
    (forall e,
        internal_error e =
        {| status := 500; headers := [];
           payload :=
             BodyJSON
               (JObj [(js "success", JBool false);
                      (js "error",
                       JObj [(js "message",
                              JStr (js "An internal server error occurred: "
                                    ++ errorMessage e))])]) |}).
Proof.
  intros Hm.
  assert (shapes :
    (forall issues,
        validation_failure issues =
        {| status := 400; headers := [];
           payload :=
             BodyJSON
               (JObj [(js "success", JBool false);
                      (js "error",
                       JObj [(js "message", JStr (js "Invalid request body."));
                             (js "details", Zod.flatten issues)])]) |}) /\
    (forall e,
        internal_error e =
        {| status := 500; headers := [];
           payload :=
             BodyJSON
               (JObj [(js "success", JBool false);
                      (js "error",
                       JObj [(js "message",
                              JStr (js "An internal server error occurred: "
                                    ++ errorMessage e))])]) |}))
    by (split; reflexivity).
  destruct (body_json request) as [body|e0] eqn:Hb.
  - destruct (Zod.safeParse RequestSchema (Some body)) as [d|issues] eqn:Hs.
    + destruct (fetch_valid default_message URL_valid request env body d Hm Hb Hs)
        as (r & t' & tail & E & _ & Hcases).
      exists r, ([entry_ok Date_now; entry_ok Request_json] ++ t' ++ tail).
      split; [exact E|]. split; [|split; [|split; [|split; [|exact shapes]]]].
      * intros b i [= <-]. fold RequestSchema in Hs. congruence.
      * discriminate.
      * intros x e Hx Hr.
        destruct Hcases as [(cl & -> & _)|(e1 & -> & -> & He)].
        -- rewrite app_nil_r in Hx. destruct Hx as [<-|[<-|Hx]]; try discriminate.
           rewrite (cl x Hx) in Hr. discriminate.
        -- destruct Hx as [<-|[<-|Hx]]; try discriminate.
           apply (in_app_or t' [console_entry e1]) in Hx. cbn [In] in Hx.
           destruct Hx as [Hx|[<-|[]]]; [|discriminate].
           now rewrite (He x e Hx Hr).
      * destruct Hcases as [(cl & -> & data & _ & ->)|(e1 & -> & _)].
        -- left. split; [reflexivity|].
           rewrite app_nil_r. cbn [app]. intros x [<-|[<-|Hx]]; auto.
        -- right; right. eauto.
    + exists (validation_failure issues), [entry_ok Date_now; entry_ok Request_json].
      split; [now apply fetch_invalid with (body := body)|].
      split; [|split; [|split; [|split; [|exact shapes]]]].
      * intros b i [= <-] Hi. fold RequestSchema in Hs.
        rewrite Hs in Hi. injection Hi as <-. split; reflexivity.
      * discriminate.
      * intros x e [<-|[<-|[]]]; discriminate.
      * right; left. eauto.
  - exists (internal_error e0),
      [entry_ok Date_now; {| what := Request_json; raised := Some e0 |};
       console_entry e0].
    split; [now apply fetch_unparseable|].
    split; [|split; [|split; [|split; [|exact shapes]]]].
    + discriminate.
    + now intros e [= <-].
    + intros x e [<-|[<-|[<-|[]]]]; try discriminate. now intros [= <-].
    + right; right. eauto.
Qed.

(** Every model call of a valid request is one [run_action] expects. *)
Lemma fetch_AI_calls request env body d :
  method request = js "POST" -> body_json request = Normal body ->
  Zod.safeParse RequestSchema (Some body) = inl d ->
  forall x m inputs,
    In x (snd (run (fetch request env))) -> what x = AI_run m inputs ->
    expected_call env d (AI_run m inputs).
Proof.
  intros Hm Hb Hs x m inputs Hx Hw.
  destruct (fetch_valid default_message URL_valid request env body d Hm Hb Hs)
    as (r & t' & tail & E & Hf & Hcases).
  unfold fetch in Hx. rewrite E in Hx. cbn [snd app] in Hx.
  destruct Hx as [<-|[<-|Hx]]; try discriminate.
  apply in_app_or in Hx. destruct Hx as [Hx|Hx].
  - rewrite Forall_forall in Hf. specialize (Hf x Hx). rewrite Hw in Hf.
    destruct Hf as [Hf|[Hf|Hf]]; [exact Hf | discriminate | discriminate].
  - destruct Hcases as [(_ & -> & _)|(e & _ & -> & _)]; [destruct Hx|].
    destruct Hx as [<-|[]]. discriminate.
Qed.

(** A response with status 200 is the success envelope of the data that
    the action built. *)
Lemma fetch_success request env body d r :
  method request = js "POST" -> body_json request = Normal body ->
  Zod.safeParse RequestSchema (Some body) = inl d ->
  fst (run (fetch request env)) = Normal r -> status r = 200%Z ->
  exists data, expected_data env d data /\
               r = success d data (now env 0) (now env 1).
Proof.
  intros Hm Hb Hs Hr Hst.
  destruct (fetch_valid default_message URL_valid request env body d Hm Hb Hs)
    as (r' & t' & tail & E & _ & Hcases).
  unfold fetch in Hr. rewrite E in Hr. cbn [fst] in Hr. injection Hr as ->.
  destruct Hcases as [(_ & _ & data & Hd & ->)|(e & -> & _)];
    [eauto | discriminate].
Qed.

(** C7: for a valid extract_html request no model call is made, the
    model the response reports is the one the request names or else the
    schema default, and a successful response carries the markup the page
    serialises to, whole.  When the browser answers every call the response
    is exactly the success envelope with [data.html] the markup. *)
Theorem extract_html_returns_markup request env fields d :
  method request = js "POST" ->
  body_json request = Normal (JObj fields) ->
  Zod.safeParse RequestSchema (Some (JObj fields)) = inl d ->
  action d = extract_html ->
  count_calls is_AI_run (snd (run (fetch request env))) = 0 /\
  model d = match obj_get (js "model") fields with
            | Some (JStr m) => m
            | _ => default_model
            end /\
  (forall r, fst (run (fetch request env)) = Normal r -> status r = 200%Z ->
     exists html,
       content (BROWSER env) = Normal html /\
       body_member r "data" "html" = Some (JStr html) /\
       body_member r "metadata" "modelUsed" = Some (JStr (model d))) /\
  (forall html,
      browser_succeeds (BROWSER env) -> content (BROWSER env) = Normal html ->
      run (fetch request env) =
      (Normal
         (Response_json_of
            (JObj [(js "success", JBool true);
                   (js "data", JObj [(js "html", JStr html)]);
                   (js "metadata",
                    JObj [(js "url", JStr (url d));
                          (js "action", JStr (js "extract_html"));
                          (js "modelUsed", JStr (model d));
                          (js "executionTimeMs",
                           JNum (inject_Z (now env 1 - now env 0)))])])
            200),
       [entry_ok Date_now; entry_ok Request_json]
       ++ nav_trace (url d) (renderOptions d)
       ++ [entry_ok Page_content; entry_ok Browser_close; entry_ok Date_now])).
Proof.
  intros Hm Hb Hs Ha. split; [|split; [|split]].
  - unfold count_calls.
    destruct (filter (fun e => is_AI_run (what e))
                     (snd (run (fetch request env)))) as [|x l] eqn:F;
      [reflexivity | exfalso].
    assert (Hx : In x (filter (fun e => is_AI_run (what e))
                              (snd (run (fetch request env)))))
      by (rewrite F; left; reflexivity).
    apply filter_In in Hx. destruct Hx as [Hx Hai].
    destruct (what x) as [| | | | | | | | | | | | |m inputs| | | | |] eqn:Hw;
      try discriminate Hai.
    pose proof (fetch_AI_calls request env _ d Hm Hb Hs x m inputs Hx Hw) as H.
    cbn in H. now rewrite Ha in H.
  - pose proof (safeParse_valid default_message URL_valid _ d Hs)
      as (f & [= <-] & Hd & _).
    destruct (RequestObject_value default_message URL_valid fields d (or_introl Hd))
      as (u & a & p & m & r & -> & _ & _ & _ & Hmod & _).
    cbn [model]. unfold parsed_model, Zod.key in Hmod.
    destruct (obj_get (js "model") fields) as [[| | |s| |]|];
      cbn in Hmod; destruct Hmod as [H|H]; try discriminate H;
      now injection H.
  - intros r Hr Hst.
    destruct (fetch_success request env _ d r Hm Hb Hs Hr Hst)
      as (data & Hd & ->).
    unfold expected_data in Hd. rewrite Ha in Hd.
    destruct Hd as (html & Hc & ->). exists html. repeat split; assumption.
  - intros html Hok Hc. unfold fetch, Index.fetch.
    rewrite Hm, jseqb_refl. cbn [negb].
    unfold run, bind, try_catch, perform, ret. rewrite Hb.
    fold RequestSchema. rewrite Hs. unfold run_action. rewrite Ha.
    unfold bind, perform, ret. rewrite launchAndNavigate_ok by assumption.
    rewrite Hc. destruct Hok as (_ & _ & _ & _ & _ & ->).
    cbn [raised_of]. unfold success. rewrite Ha.
    rewrite <- !app_assoc. reflexivity.
Qed.

Lemma summarize_run request env body d pageText ai response :
  method request = js "POST" -> body_json request = Normal body ->
  Zod.safeParse RequestSchema (Some body) = inl d ->
  action d = summarize_text ->
  browser_succeeds (BROWSER env) ->
  innerText (BROWSER env) = Normal pageText ->
  AI env textModel (JObj [(js "prompt", JStr (summarizationPrompt pageText))])
  = Normal ai ->
  member ai (js "response") = Normal response ->
  run (fetch request env) =
  (Normal (success d [(js "aiResponse", response);
                      (js "modelUsed", Some (JStr textModel))]
                   (now env 0) (now env 1)),
   [entry_ok Date_now; entry_ok Request_json]
   ++ nav_trace (url d) (renderOptions d)
   ++ [entry_ok Page_evaluate_innerText;
       entry_ok (AI_run textModel
                   (JObj [(js "prompt", JStr (summarizationPrompt pageText))]));
       entry_ok Browser_close; entry_ok Date_now]).
Proof.
  intros Hm Hb Hs Ha Hok Ht Hai Hr. unfold fetch, Index.fetch.
  rewrite Hm, jseqb_refl. cbn [negb].
  unfold run, bind, try_catch, perform, ret. rewrite Hb.
  fold RequestSchema. rewrite Hs. unfold run_action. rewrite Ha.
  unfold bind, perform, ret, lift. rewrite launchAndNavigate_ok by assumption.
  rewrite Ht, Hai, Hr. destruct Hok as (_ & _ & _ & _ & _ & ->).
  cbn [raised_of]. rewrite <- !app_assoc. reflexivity.
Qed.


End IndexClaims.

(** ** Sessions: the launch and the close of a request *)

Lemma launch_first_bind env {A B} (m : M A) (f : A -> M B) :
  spec m (launch_first env) ->
  (forall a, spec (f a) (H not_session any)) ->
  spec (bind m f) (launch_first env).
Proof.
  intros Hm Hf. apply spec_bind with (Q1 := launch_first env); [exact Hm | |].
  - intros a t1 (t2 & -> & F2). eapply spec_conseq; [apply Hf|].
    intros o t3 [_ F3]. exists (t2 ++ t3). split; [reflexivity|].
    now apply Forall_app.
  - intros e t1 (t2 & -> & F2). now exists t2.
Qed.

Lemma launchAndNavigate_launch_first env url o :
  spec (launchAndNavigate env url o) (launch_first env).
Proof.
  unfold launchAndNavigate.
  apply spec_bind
    with (Q1 := fun o' t => o' = launch (BROWSER env) /\ t = [launch_entry env]).
  - apply spec_perform. split; reflexivity.
  - intros a t1 [_ ->].
    apply spec_conseq with (Q := H not_session any).
    + apply spec_H_bind_perform; [split; reflexivity | intros _ _].
      apply spec_H_bind with (V1 := any).
      { destruct (viewport o) as [[w h]|];
          [apply spec_H_perform; [split; reflexivity | easy]
          | now apply spec_H_ret]. }
      intros _ _. apply spec_H_bind_perform; [split; reflexivity | intros _ _].
      destruct (waitForSelector o) as [[|c sel]|];
        [now apply spec_H_ret
        | apply spec_H_perform; [split; reflexivity | easy]
        | now apply spec_H_ret].
    + intros o2 t2 [_ F2]. now exists t2.
  - intros e t1 [_ ->]. exists []. split; [reflexivity | constructor].
Qed.

Lemma run_action_launch_first env d :
  spec (run_action env d) (launch_first env).
Proof.
  unfold run_action. destruct (action d);
    (apply launch_first_bind; [apply launchAndNavigate_launch_first | intros _]).
  - apply spec_H_bind_perform; [split; reflexivity | intros buf _].
    apply spec_H_bind_perform; [split; reflexivity | intros ai _].
    apply spec_H_bind_lift. intros resp _. now apply spec_H_ret.
  - apply spec_H_bind_perform; [split; reflexivity | intros pageText _].
    apply spec_H_bind_perform; [split; reflexivity | intros ai _].
    apply spec_H_bind_lift. intros resp _. now apply spec_H_ret.
  - apply spec_H_bind_perform; [split; reflexivity | intros html _].
    now apply spec_H_ret.
Qed.

Lemma count_calls_app p t1 t2 :
  count_calls p (t1 ++ t2) = count_calls p t1 + count_calls p t2.
Proof. unfold count_calls. now rewrite filter_app, length_app. Qed.

Lemma count_none p t :
  Forall (fun x => p (what x) = false) t -> count_calls p t = 0.
Proof.
  unfold count_calls. induction 1 as [|x t Hx _ IH]; [reflexivity|].
  cbn. now rewrite Hx.
Qed.

Lemma not_session_counts t :
  Forall (fun x => not_session (what x)) t ->
  count_calls is_launch t = 0 /\ count_calls is_close t = 0.
Proof.
  intros F. split; apply count_none; eapply Forall_impl; try exact F;
    intros x [Hl Hc]; assumption.
Qed.

Section Sessions.
Variable default_message : Zod.issue_code -> jsstring.
Variable URL_valid : jsstring -> bool.

Let fetch := Index.fetch default_message URL_valid.
Let RequestSchema := Index.RequestSchema default_message URL_valid.

(** A valid request launches the browser once.  It closes it once when it
    answers 200; when it answers 500, the only close call its trace can
    hold is one that raised. *)
Lemma fetch_sessions request env body d :
  method request = js "POST" -> body_json request = Normal body ->
  Zod.safeParse RequestSchema (Some body) = inl d ->
  exists r t,
    run (fetch request env) = (Normal r, t) /\
    count_calls is_launch t = 1 /\
    ((status r = 200%Z /\ count_calls is_close t = 1) \/
     (status r = 500%Z /\
      forall x, In x t -> what x = Browser_close -> raised x <> None)).
Proof.
  intros Hm Hb Hs. unfold fetch, Index.fetch.
  rewrite Hm, jseqb_refl. cbn [negb].
  unfold run. unfold bind at 1. unfold perform at 1. unfold try_catch.
  unfold bind at 1. unfold perform at 1. rewrite Hb.
  fold RequestSchema. rewrite Hs. cbn [raised_of app].
  unfold bind at 1.
  destruct (run_action_launch_first env d
              [entry_ok Date_now; entry_ok Request_json])
    as (o & t' & E & t2 & -> & F2).
  change [{| what := Date_now; raised := None |};
          {| what := Request_json; raised := None |}]
    with [entry_ok Date_now; entry_ok Request_json].
  rewrite E. destruct (not_session_counts t2 F2) as [L0 C0].
  assert (Hclose : forall x, In x t2 -> what x <> Browser_close).
  { intros x Hx Hw. rewrite Forall_forall in F2.
    destruct (F2 x Hx) as [_ Hc]. rewrite Hw in Hc. discriminate. }
  destruct o as [data|e].
  - unfold bind, perform, ret.
    destruct (close (BROWSER env)) as [[]|e] eqn:Ec; cbn [raised_of].
    + eexists _, _. split; [reflexivity|]. split.
      * unfold count_calls in *. rewrite !filter_app, !length_app. cbn.
        rewrite L0. reflexivity.
      * left. split; [reflexivity|].
        unfold count_calls in *. rewrite !filter_app, !length_app. cbn.
        rewrite C0. reflexivity.
    + eexists _, _. split; [reflexivity|]. split.
      * unfold count_calls in *. rewrite !filter_app, !length_app. cbn.
        rewrite L0. reflexivity.
      * right. split; [reflexivity|]. intros x Hx Hw.
        repeat (apply in_app_or in Hx; destruct Hx as [Hx|Hx]);
          cbn [In] in Hx.
        -- destruct Hx as [<-|[<-|[]]]; discriminate.
        -- destruct Hx as [<-|Hx]; [discriminate | now apply Hclose in Hx].
        -- destruct Hx as [<-|[]]. discriminate.
        -- destruct Hx as [<-|[]]. discriminate.
  - unfold bind, perform, ret. cbn [raised_of].
    eexists _, _. split; [reflexivity|]. split.
    + unfold count_calls in *. rewrite !filter_app, !length_app. cbn.
        rewrite L0. reflexivity.
    + right. split; [reflexivity|]. intros x Hx Hw.
      repeat (apply in_app_or in Hx; destruct Hx as [Hx|Hx]);
        cbn [In] in Hx.
      * destruct Hx as [<-|[<-|[]]]; discriminate.
      * destruct Hx as [<-|Hx]; [discriminate | now apply Hclose in Hx].
      * destruct Hx as [<-|[]]. discriminate.
Qed.
End Sessions.

End IndexFacts.

(* ================================================================= *)
(** * The link-analysis handler, truncation and session release *)

Section LinkAnalysisFacts.
Import LinkAnalysis.

Section LinkFacts.
Variable URL_constructs : JSON -> bool.



(** The inner try / finally: whatever the page does, the last call of
    [extract] is the one close of the browser. *)
Lemma extract_closes env u t :
  exists o t',
    extract env u t =
    (o, t ++ t' ++ [{| what := Browser_close;
                       raised := raised_of (close (BROWSER_RENDERING env)) |}])
    /\ count_calls is_close t' = 0.
Proof.
  unfold extract, try_finally, try_catch, bind, perform, ret.
  destruct (goto (BROWSER_RENDERING env) u) as [[]|e1] eqn:E1; cbn [raised_of].
  - destruct (body_textContent (BROWSER_RENDERING env)) as [pc|e2] eqn:E2;
      cbn [raised_of].
    + exists (match close (BROWSER_RENDERING env) with
              | Normal _ => Normal (inr pc)
              | Raise e => Raise e
              end),
        [entry_ok (Page_goto u (Some (js "domcontentloaded")) (Some 30000%Z));
         entry_ok Page_eval_body_textContent].
      split; [|reflexivity].
      rewrite <- !app_assoc.
      now destruct (close (BROWSER_RENDERING env)) as [[]|e3].
    + exists (match close (BROWSER_RENDERING env) with
              | Normal _ => Normal (inl (extraction_failure e2))
              | Raise e => Raise e
              end),
        [entry_ok (Page_goto u (Some (js "domcontentloaded")) (Some 30000%Z));
         {| what := Page_eval_body_textContent; raised := Some e2 |};
         entry_ok (Console_error
                     [LogStr (js "Error navigating to or extracting content from ");
                      LogJSON u; LogStr (js ":"); LogExn e2])].
      split; [|reflexivity].
      rewrite <- !app_assoc.
      now destruct (close (BROWSER_RENDERING env)) as [[]|e3].
  - exists (match close (BROWSER_RENDERING env) with
            | Normal _ => Normal (inl (extraction_failure e1))
            | Raise e => Raise e
            end),
      [{| what := Page_goto u (Some (js "domcontentloaded")) (Some 30000%Z);
          raised := Some e1 |};
       entry_ok (Console_error
                   [LogStr (js "Error navigating to or extracting content from ");
                    LogJSON u; LogStr (js ":"); LogExn e1])].
    split; [|reflexivity].
    rewrite <- !app_assoc.
    now destruct (close (BROWSER_RENDERING env)) as [[]|e3].
Qed.
End LinkFacts.

(** ** Truncation *)



Lemma substring0_idempotent n s : substring0 n (substring0 n s) = substring0 n s.
Proof. unfold substring0. rewrite firstn_firstn. now rewrite Nat.min_id. Qed.





(** C5, the defect: summarize_text cuts the page text without marking it.
    The prompt of a page is the prompt of its first 8000 characters, so the
    whole run on a page of 8001 characters, response included, equals the run
    on its 8000-character prefix, although the two texts differ.  The
    link-analysis handler does mark: it appends an ellipsis to a text it
    cut, and leaves a text of exactly the bound as it is. *)
Theorem summary_truncation_is_unmarked :
  (forall pageText,
      Index.summarizationPrompt (substring0 8000 pageText)
      = Index.summarizationPrompt pageText) /\
  run (Examples.fetch (Examples.post Examples.body_summarize)
         (Examples.env_ok (Examples.text_of_length 8001) Examples.page_html))
  = run (Examples.fetch (Examples.post Examples.body_summarize)
           (Examples.env_ok (Examples.text_of_length 8000) Examples.page_html)) /\
  Examples.text_of_length 8001 <> Examples.text_of_length 8000 /\
  limit_content (Examples.text_of_length 10001)
  = Examples.text_of_length 10000 ++ js "..." /\
  limit_content (Examples.text_of_length 10000) = Examples.text_of_length 10000.
Proof.
  split; [|split; [|split; [|split]]].
  - intros pageText. unfold Index.summarizationPrompt.
    now rewrite substring0_idempotent.
  - vm_compute. reflexivity.
  - intros E. apply (f_equal (@length N)) in E.
    unfold Examples.text_of_length in E. rewrite !repeat_length in E. lia.
  - vm_compute. reflexivity.
  - vm_compute. reflexivity.
Qed.

(** C1, the defect: a valid request launches the browser once, and closes
    it once when it answers 200; but whenever it answers 500 the browser was
    not closed: the only close call such a run can hold is one that itself
    raised.  So on a valid summarize_text request whose model call raises, and
    on one whose awaited selector never appears, the handler launched one
    browser, answers 500, and makes no close call.  The link-analysis handler
    closes its browser as the last call of its extraction block on every
    exit. *)
Theorem session_not_released_on_failure :
  (forall default_message URL_valid request env body d,
      Index.method request = js "POST" ->
      Index.body_json request = Normal body ->
      Zod.safeParse (Index.RequestSchema default_message URL_valid) (Some body)
      = inl d ->
      exists r t,
        run (Index.fetch default_message URL_valid request env) = (Normal r, t) /\
        count_calls is_launch t = 1 /\
        ((status r = 200%Z /\ count_calls is_close t = 1) \/
         (status r = 500%Z /\
          forall x, In x t -> what x = Browser_close -> raised x <> None))) /\
  (let r := run (Examples.fetch (Examples.post Examples.body_summarize)
                   (Examples.env_model_down (js "Some page text")
                                            Examples.page_html)) in
   option_map status (match fst r with Normal x => Some x | Raise _ => None end)
   = Some 500%Z /\
   count_calls is_launch (snd r) = 1 /\ count_calls is_close (snd r) = 0) /\
  (let r := run (Examples.fetch (Examples.post Examples.body_summarize_wait)
                   (Examples.env_selector_timeout (js "Some page text")
                                                  Examples.page_html)) in
   option_map status (match fst r with Normal x => Some x | Raise _ => None end)
   = Some 500%Z /\
   count_calls is_launch (snd r) = 1 /\ count_calls is_close (snd r) = 0) /\
  (let r := run (Examples.fetch (Examples.post Examples.body_summarize)
                   (Examples.env_ok (js "Some page text") Examples.page_html)) in
   option_map status (match fst r with Normal x => Some x | Raise _ => None end)
   = Some 200%Z /\
   count_calls is_launch (snd r) = 1 /\ count_calls is_close (snd r) = 1) /\
  (forall env u t,
      exists o t',
        extract env u t =
        (o, t ++ t' ++ [{| what := Browser_close;
                           raised := raised_of (close (BROWSER_RENDERING env)) |}])
        /\ count_calls is_close t' = 0).
Proof.
  split; [exact fetch_sessions|].
  split; [|split; [|split]].
  - vm_compute. auto.
  - vm_compute. auto.
  - vm_compute. auto.
  - exact extract_closes.
Qed.

End LinkAnalysisFacts.

(* ================================================================= *)
(** * Structured results and model invocation *)

Section ScraperFacts.
Import RegExp Scraper.

Lemma resolve_spec JSON_parse reply t :
  resolve JSON_parse reply t =
  match JSON_parse (spec_candidate reply) with
  | inl v => (Normal (Some v), t)
  | inr msg =>
      (Normal undefined, t ++ [parse_failure_log msg (spec_candidate reply)])
  end.
Proof.
  unfold resolve. rewrite candidate_spec. cbn [to_text].
  now destruct (JSON_parse (spec_candidate reply)).
Qed.

Lemma getLLMResult_answer JSON_parse env prompt resp data result reply :
  fetch env (aiUrl env) (init env prompt) = Normal resp ->
  ok resp = true ->
  json resp = Normal data ->
  member (Some data) (js "result") = Normal result ->
  member result (js "response") = Normal (Some (JStr reply)) ->
  run (getLLMResult JSON_parse env prompt) =
  resolve JSON_parse reply
          [entry_ok (HTTP_fetch (aiUrl env) (init env prompt));
           entry_ok Response_json].
Proof.
  intros Hf Hok Hj Hr Hrep. unfold getLLMResult, run, bind, perform, lift.
  rewrite Hf, Hok, Hj. cbn [negb raised_of app]. rewrite Hr, Hrep.
  unfold js_or. destruct reply; reflexivity.
Qed.

(** C2, the defect: for every reply, resolution parses the text between
    the first three backticks (after an optional json tag) and the next three
    backticks, white space around it dropped, when the reply holds such a
    pair, and the whole reply otherwise; it returns the parsed value, or logs
    and returns [undefined], which no parsed value equals, and it never
    raises.  So an object fenced amid prose resolves to that object when its
    opening fence is the first three backticks of the reply and its closing
    fence the next (which a prose and an object without backticks give), and
    a reply without a pair of fences resolves as a whole: the three replies of
    the scenario resolve as the specification says.  But the three backticks
    that end the text need not be a fence of the reply: a fenced object whose
    string holds three backticks is cut at them, and of a bare JSON reply
    whose string holds a fenced word only the word is parsed.  Both replies
    hold valid JSON, and both resolve to [undefined]. *)
Theorem structured_result_resolution :
  (forall JSON_parse reply t,
      resolve JSON_parse reply t =
      match JSON_parse (spec_candidate reply) with
      | inl v => (Normal (Some v), t)
      | inr msg =>
          (Normal undefined,
           t ++ [parse_failure_log msg (spec_candidate reply)])
      end) /\
  (forall JSON_parse env prompt resp data result reply,
      fetch env (aiUrl env) (init env prompt) = Normal resp ->
      ok resp = true ->
      json resp = Normal data ->
      member (Some data) (js "result") = Normal result ->
      member result (js "response") = Normal (Some (JStr reply)) ->
      fst (run (getLLMResult JSON_parse env prompt)) =
      match JSON_parse (spec_candidate reply) with
      | inl v => Normal (Some v)
      | inr _ => Normal undefined
      end) /\
  (forall pre (tagged : bool) ws1 obj ws2 post,
      first_fence (pre ++ fence ++ (if tagged then js "json" else [])
                       ++ ws1 ++ obj ++ ws2 ++ fence ++ post)
                  pre
                  ((if tagged then js "json" else [])
                     ++ ws1 ++ obj ++ ws2 ++ fence ++ post) ->
      first_fence (ws1 ++ obj ++ ws2 ++ fence ++ post) (ws1 ++ obj ++ ws2) post ->
      Forall (fun c => is_space c = true) ws1 ->
      Forall (fun c => is_space c = true) ws2 ->
      trim obj = obj ->
      (tagged = false ->
       strip_prefix (js "json") (ws1 ++ obj ++ ws2 ++ fence ++ post) = None) ->
      spec_candidate
        (pre ++ fence ++ (if tagged then js "json" else [])
             ++ ws1 ++ obj ++ ws2 ++ fence ++ post) = obj) /\
  (forall pre rest, ~ In 96%N pre -> first_fence (pre ++ fence ++ rest) pre rest) /\
  (forall reply,
      no_fence reply \/
      (exists before after,
          first_fence reply before after /\ no_fence (drop_tag after)) ->
      spec_candidate reply = reply) /\
  fst (run (resolve JsonText.parse Examples.reply_fenced))
  = Normal (Some (JObj [(js "a", JNum (inject_Z 1))])) /\
  fst (run (resolve JsonText.parse Examples.reply_bare))
  = Normal (Some (JObj [(js "a", JNum (inject_Z 1))])) /\
  fst (run (resolve JsonText.parse Examples.reply_prose)) = Normal undefined /\
  fst (run (getLLMResult JsonText.parse
              (Scenarios.env_with_body (Scenarios.envelope Examples.reply_fenced))
              (js "p")))
  = Normal (Some (JObj [(js "a", JNum (inject_Z 1))])) /\
  fst (run (getLLMResult JsonText.parse
              (Scenarios.env_with_body (Scenarios.envelope Examples.reply_prose))
              (js "p")))
  = Normal undefined /\
  (JsonText.parse Scenarios.object_backticks
   = inl (JObj [(js "a", JStr (js "```"))]) /\
   spec_candidate Scenarios.reply_fenced_backticks = Scenarios.object_cut /\
   Scenarios.object_cut <> Scenarios.object_backticks /\
   forall JSON_parse,
     fst (run (resolve JSON_parse Scenarios.reply_fenced_backticks))
     = match JSON_parse Scenarios.object_cut with
       | inl v => Normal (Some v)
       | inr _ => Normal undefined
       end) /\
  fst (run (resolve JsonText.parse Scenarios.reply_fenced_backticks))
  = Normal undefined /\
  (JsonText.parse Scenarios.reply_bare_backticks
   = inl (JObj [(js "a", JStr (js "```x```"))]) /\
   spec_candidate Scenarios.reply_bare_backticks = js "x" /\
   forall JSON_parse,
     fst (run (resolve JSON_parse Scenarios.reply_bare_backticks))
     = match JSON_parse (js "x") with
       | inl v => Normal (Some v)
       | inr _ => Normal undefined
       end) /\
  fst (run (resolve JsonText.parse Scenarios.reply_bare_backticks))
  = Normal undefined.
Proof.
  split; [exact resolve_spec|].
  split.
  { intros JSON_parse env prompt resp data result reply Hf Hok Hj Hr Hrep.
    rewrite (getLLMResult_answer JSON_parse env prompt resp data result reply
                                 Hf Hok Hj Hr Hrep).
    rewrite resolve_spec. now destruct (JSON_parse (spec_candidate reply)). }
  split; [exact fenced_block|].
  split; [exact first_fence_after|].
  split; [exact unfenced_whole|].
  assert (cut : forall JSON_parse reply text,
             spec_candidate reply = text ->
             fst (run (resolve JSON_parse reply))
             = match JSON_parse text with
               | inl v => Normal (Some v)
               | inr _ => Normal undefined
               end).
  { intros JSON_parse reply text <-. unfold run. rewrite resolve_spec.
    now destruct (JSON_parse (spec_candidate reply)). }
  assert (Cf : spec_candidate Scenarios.reply_fenced_backticks
               = Scenarios.object_cut) by (vm_compute; reflexivity).
  assert (Cb : spec_candidate Scenarios.reply_bare_backticks = js "x")
    by (vm_compute; reflexivity).
  split; [vm_compute; reflexivity|].
  split; [vm_compute; reflexivity|].
  split; [vm_compute; reflexivity|].
  split; [vm_compute; reflexivity|].
  split; [vm_compute; reflexivity|].
  split.
  { split; [vm_compute; reflexivity|]. split; [exact Cf|].
    split; [vm_compute; discriminate|].
    intros JSON_parse. now apply cut. }
  split; [vm_compute; reflexivity|].
  split.
  { split; [vm_compute; reflexivity|]. split; [exact Cb|].
    intros JSON_parse. now apply cut. }
  vm_compute; reflexivity.
Qed.

Lemma structured_result_resolution_witness :
  spec_candidate Examples.reply_fenced = Examples.object_a1.
Proof.
  exact (proj1 (proj2 (proj2 structured_result_resolution))
           (js "prefix ") true LF (Examples.object_a1) LF (js " suffix")
           ltac:(vm_compute; reflexivity)
           ltac:(vm_compute; reflexivity)
           ltac:(repeat constructor)
           ltac:(repeat constructor)
           eq_refl
           ltac:(discriminate)).
Defined.

Lemma Z_to_js_three_digits st :
  (100 <= st <= 999)%Z -> Z_to_js st = three_digits st.
Proof.
  intros Hst.
  assert (all : forallb (fun n => jseqb (Z_to_js (Z.of_nat n))
                                        (three_digits (Z.of_nat n)))
                        (seq 100 900) = true)
    by (vm_compute; reflexivity).
  rewrite forallb_forall in all.
  specialize (all (Z.to_nat st)).
  rewrite Z2Nat.id in all by lia.
  apply jseqb_eq, all, in_seq. lia.
Qed.

Lemma llm_failure_status env st :
  (100 <= st <= 999)%Z -> llm_failure env st = status_error (ACCOUNT_ID env) st.
Proof.
  intros Hst. unfold llm_failure, status_error, aiUrl, model.
  rewrite (Z_to_js_three_digits st Hst). now rewrite <- !app_assoc.
Qed.

(** C9, the defect: [getLLMResult] calls the model service exactly once,
    whatever the service answers, and a failed call is not tried again: a
    call that raises is raised on, and a response that is not ok makes the
    function raise.  When the body of that response can be read, what is
    raised is the error whose message ends with the upstream status in
    decimal digits.  But the body is read, for the log, before the error is
    made: when reading it raises, what the function raises is what the
    reading raised, and the status is lost.  So for a service that answers
    503 with a body that cannot be read, the error raised is the one of the
    connection, not the one with the status. *)
Theorem model_invocation_single_call JSON_parse env prompt :
  count_calls is_fetch (snd (run (getLLMResult JSON_parse env prompt))) = 1 /\
  (forall resp,
      fetch env (aiUrl env) (init env prompt) = Normal resp ->
      ok resp = false ->
      (exists e, fst (run (getLLMResult JSON_parse env prompt)) = Raise e) /\
      (forall upstream,
          text resp = Normal upstream ->
          (100 <= http_status resp <= 999)%Z ->
          run (getLLMResult JSON_parse env prompt)
          = (Raise (JSError (js "Error")
                      (js "LLM call failed https://api.cloudflare.com/client/v4/accounts/"
                       ++ ACCOUNT_ID env
                       ++ js "/ai/run/@hf/thebloke/deepseek-coder-6.7b-instruct-awq "
                       ++ three_digits (http_status resp))),
             [entry_ok (HTTP_fetch (aiUrl env) (init env prompt));
              entry_ok Response_text;
              entry_ok (Console_log [LogJSON (JStr upstream)])])) /\
      (forall e,
          text resp = Raise e ->
          run (getLLMResult JSON_parse env prompt)
          = (Raise e,
             [entry_ok (HTTP_fetch (aiUrl env) (init env prompt));
              {| what := Response_text; raised := Some e |}]))) /\
  (forall e,
      fetch env (aiUrl env) (init env prompt) = Raise e ->
      run (getLLMResult JSON_parse env prompt)
      = (Raise e,
         [{| what := HTTP_fetch (aiUrl env) (init env prompt);
             raised := Some e |}])) /\
  three_digits 503 = js "503" /\
  fst (run (getLLMResult JsonText.parse Examples.env_unavailable
                         (js "Extract the first post only.")))
  = Raise (JSError (js "Error")
                   (js "LLM call failed https://api.cloudflare.com/client/v4/accounts/acct/ai/run/@hf/thebloke/deepseek-coder-6.7b-instruct-awq 503")) /\
  fst (run (getLLMResult JsonText.parse Scenarios.env_unreadable
                         (js "Extract the first post only.")))
  = Raise Scenarios.connection_reset /\
  Scenarios.connection_reset
  <> JSError (js "Error")
             (js "LLM call failed https://api.cloudflare.com/client/v4/accounts/acct/ai/run/@hf/thebloke/deepseek-coder-6.7b-instruct-awq 503").
Proof.
  split; [|split; [|split; [|split; [|split; [|split]]]]].
  - unfold getLLMResult, run, bind, perform, lift, throw, ret.
    destruct (fetch env (aiUrl env) (init env prompt)) as [resp|e];
      [|reflexivity].
    cbn [raised_of app]. destruct (ok resp); cbn [negb].
    + destruct (json resp) as [data|e]; [|reflexivity]. cbn [raised_of].
      destruct (member (Some data) (js "result")) as [result|e]; [|reflexivity].
      destruct (member result (js "response")) as [field|e]; [|reflexivity].
      destruct (js_or field (Some (JStr []))) as [[| | |reply| |]|].
      4: rewrite resolve_spec; destruct (JSON_parse (spec_candidate reply)).
      all: reflexivity.
    + destruct (text resp); reflexivity.
  - intros resp Hf Hok.
    unfold getLLMResult, run, bind, perform, lift, throw, ret.
    rewrite Hf, Hok. cbn [negb raised_of app]. split; [|split].
    + destruct (text resp); cbn [fst raised_of]; eexists; reflexivity.
    + intros upstream -> Hst. cbn [raised_of app].
      rewrite (llm_failure_status env _ Hst). reflexivity.
    + now intros e ->.
  - intros e Hf. unfold getLLMResult, run, bind, perform. now rewrite Hf.
  - reflexivity.
  - vm_compute. reflexivity.
  - vm_compute. reflexivity.
  - discriminate.
Qed.

End ScraperFacts.

(* ================================================================= *)
(** * The claims on concrete requests *)

(** C3 at a body with the other keys well formed. *)
Lemma prompt_required_before_any_remote_call_witness :
  exists issues,
    fst (run (Examples.fetch (Examples.post Examples.body_analyze_no_prompt)
                             (Examples.env_ok [] Examples.page_html)))
    = Normal (Index.validation_failure issues) /\
    In Index.prompt_issue issues.
Proof.
  destruct (prompt_required_before_any_remote_call
              Examples.messages Examples.http_url
              (Examples.post Examples.body_analyze_no_prompt)
              (Examples.env_ok [] Examples.page_html)
              [(js "url", JStr Examples.example_url);
               (js "action", JStr (js "analyze_image"))]
              eq_refl eq_refl eq_refl eq_refl)
    as (issues & _ & Hr & _ & _ & _ & Hi).
  exists issues. split; [exact Hr | apply Hi; reflexivity].
Defined.

(** C3 as first stated fails on a body without a url: the action is
    analyze_image, there is no prompt, the handler answers 400, and the one
    issue of the details is about the url; none has the path [prompt]. *)
Lemma prompt_error_absent_when_url_missing :
  obj_get (js "action") [(js "action", JStr (js "analyze_image"))]
  = Some (JStr (js "analyze_image")) /\
  obj_get (js "prompt") [(js "action", JStr (js "analyze_image"))] = None /\
  run (Examples.fetch (Examples.post Examples.body_analyze_only_action)
                      (Examples.env_ok [] Examples.page_html))
  = (Normal (Index.validation_failure [Examples.url_required_issue]),
     [entry_ok Date_now; entry_ok Request_json]) /\
  Zod.field_errors [Examples.url_required_issue] = [(js "url", [js "Required"])] /\
  ~ (exists i, In i [Examples.url_required_issue] /\ Zod.path i = [js "prompt"]).
Proof.
  split; [reflexivity|]. split; [reflexivity|]. split; [reflexivity|].
  split; [reflexivity|].
  intros (i & [<-|[]] & Hp). discriminate Hp.
Qed.

(** C8 at a body that fails the schema. *)
Lemma error_envelopes_witness :
  exists r,
    fst (run (Examples.fetch (Examples.post Examples.body_analyze_only_action)
                             (Examples.env_ok [] Examples.page_html)))
    = Normal r /\
    r = Index.validation_failure [Examples.url_required_issue].
Proof.
  destruct (error_envelopes
              Examples.messages Examples.http_url
              (Examples.post Examples.body_analyze_only_action)
              (Examples.env_ok [] Examples.page_html) eq_refl)
    as (r & t & E & Hinvalid & _).
  exists r. split.
  - unfold Examples.fetch. now rewrite E.
  - exact (proj1 (Hinvalid Examples.body_analyze_only_action
                           [Examples.url_required_issue] eq_refl eq_refl)).
Defined.

(** C8 as first stated fails on a body that is not JSON: the handler answers
    500, not 400. *)
Lemma unparseable_body_gets_status_500 :
  exists r,
    fst (run (Examples.fetch Examples.post_unparseable
                             (Examples.env_ok [] Examples.page_html)))
    = Normal r /\
    status r = 500%Z /\ status r <> 400%Z.
Proof.
  eexists. split; [reflexivity|]. split; [reflexivity | discriminate].
Qed.

(** C7 at the request of the first end-to-end scenario. *)
Lemma extract_html_returns_markup_witness :
  count_calls is_AI_run
    (snd (run (Examples.fetch (Examples.post Examples.body_extract_html)
                              (Examples.env_ok [] Examples.page_html)))) = 0 /\
  fst (run (Examples.fetch (Examples.post Examples.body_extract_html)
                           (Examples.env_ok [] Examples.page_html)))
  = Normal
      (Response_json_of
         (JObj [(js "success", JBool true);
                (js "data", JObj [(js "html", JStr Examples.page_html)]);
                (js "metadata",
                 JObj [(js "url", JStr Examples.example_url);
                       (js "action", JStr (js "extract_html"));
                       (js "modelUsed", JStr Index.default_model);
                       (js "executionTimeMs", JNum (inject_Z 250))])])
         200).
Proof.
  destruct (extract_html_returns_markup
              Examples.messages Examples.http_url
              (Examples.post Examples.body_extract_html)
              (Examples.env_ok [] Examples.page_html)
              [(js "url", JStr Examples.example_url);
               (js "action", JStr (js "extract_html"))]
              Examples.data_extract_html eq_refl eq_refl eq_refl eq_refl)
    as (Hno & _ & _ & Hrun).
  split; [exact Hno|].
  unfold Examples.fetch.
  rewrite (Hrun Examples.page_html
             (conj eq_refl (conj eq_refl (conj (fun _ _ => eq_refl)
                (conj (fun _ => eq_refl) (conj (fun _ => eq_refl) eq_refl)))))
             eq_refl).
  reflexivity.
Defined.



(** C9 at a model service that answers 503 with a body that cannot be
    read. *)
Lemma model_invocation_single_call_witness :
  run (Scraper.getLLMResult JsonText.parse Scenarios.env_unreadable
                            (js "Extract the first post only."))
  = (Raise Scenarios.connection_reset,
     [entry_ok (HTTP_fetch (Scraper.aiUrl Scenarios.env_unreadable)
                           (Scraper.init Scenarios.env_unreadable
                                         (js "Extract the first post only.")));
      {| what := Response_text; raised := Some Scenarios.connection_reset |}]).
Proof.
  exact (proj2 (proj2 (proj1 (proj2 (model_invocation_single_call
                                       JsonText.parse Scenarios.env_unreadable
                                       (js "Extract the first post only.")))
                             _ eq_refl eq_refl))
               Scenarios.connection_reset eq_refl).
Defined.

(* ================================================================= *)
(** * Further properties of the handlers *)

(** X1: what [getLLMResult] takes from a reply with its regular expression,
    matched by backtracking at the leftmost position that matches, is the
    candidate of the specification: the trimmed interior of the first fenced
    block, or the whole reply. *)
Theorem fence_match_is_first_fenced_block reply :
  Scraper.candidate reply = Some (Scraper.spec_candidate reply).
Proof. exact (candidate_spec reply). Qed.

(** X2: a request whose method is not POST gets status 405 and the text of
    the handler, before the clock is read or any call is made. *)
Theorem other_methods_are_refused default_message URL_valid request env :
  Index.method request <> js "POST" ->
  run (Index.fetch default_message URL_valid request env)
  = (Normal {| status := 405; headers := [];
               payload := BodyText (js "Method Not Allowed. Please use POST.") |},
     []).
Proof.
  intros Hm.
  exact (fetch_not_post default_message URL_valid request env Hm).
Qed.

Lemma other_methods_are_refused_witness :
  fst (run (Examples.fetch Examples.get_request
                           (Examples.env_ok [] Examples.page_html)))
  = Normal Index.method_not_allowed.
Proof.
  unfold Examples.fetch.
  rewrite (other_methods_are_refused
             Examples.messages Examples.http_url Examples.get_request
             (Examples.env_ok [] Examples.page_html)
             ltac:(discriminate)).
  reflexivity.
Defined.

(** X3: the handler of [src/index.ts] never throws: whatever the request and
    whatever the services answer, it ends with a response, whose status is
    200, 400, 405 or 500. *)
Theorem every_request_gets_a_response default_message URL_valid request env :
  exists r t,
    run (Index.fetch default_message URL_valid request env) = (Normal r, t) /\
    (status r = 200 \/ status r = 400 \/ status r = 405 \/ status r = 500)%Z.
Proof.
  destruct (list_eq_dec N.eq_dec (Index.method request) (js "POST")) as [Hm|Hm].
  - destruct (Index.body_json request) as [body|e] eqn:Hb.
    + destruct (Zod.safeParse (Index.RequestSchema default_message URL_valid)
                              (Some body)) as [d|issues] eqn:Hs.
      * destruct (fetch_valid default_message URL_valid request env body d
                              Hm Hb Hs)
          as (r & t' & tail & E & _ & [(_ & _ & data & _ & ->)|(e & -> & _)]);
          eexists _, _; (split; [exact E|]); [left | right; right; right];
          reflexivity.
      * eexists _, _. split;
          [exact (fetch_invalid default_message URL_valid request env body
                                issues Hm Hb Hs)|].
        right; left. reflexivity.
    + eexists _, _. split;
        [exact (fetch_unparseable default_message URL_valid request env e Hm Hb)|].
      right; right; right. reflexivity.
  - eexists _, _. split;
      [exact (fetch_not_post default_message URL_valid request env Hm)|].
    right; right; left. reflexivity.
Qed.

(* ================================================================= *)
(** * The assistant worker *)

Section AssistantFacts.
Import Assistant.

Lemma trim_nil_blank s :
  Scraper.trim s = [] <-> Forall (fun c => RegExp.is_space c = true) s.
Proof.
  split.
  - unfold Scraper.trim. induction s as [|c s IH]; [constructor|].
    cbn [Scraper.trim_start]. destruct (RegExp.is_space c) eqn:Hc.
    + intros Ht. constructor; auto.
    + cbn [Scraper.trim_end]. rewrite Hc.
      destruct (Scraper.trim_end s); discriminate.
  - intros Hs. unfold Scraper.trim.
    rewrite <- (app_nil_r s), trim_start_spaces by assumption. reflexivity.
Qed.

Ltac answered :=
  eexists _, _; (split; [reflexivity|]); (split; [reflexivity|]);
  unfold assistant_status; cbn [status]; auto.

Lemma generate_answers request env :
  exists r t,
    run (generate request env) = (Normal r, t) /\
    headers r = (js "Content-Type", js "application/json")
                  :: LinkAnalysis.corsHeaders /\
    assistant_status r.
Proof.
  unfold generate, run, try_catch, bind, perform, lift, ret, throw.
  destruct (body_json request) as [body|e]; cbn [raised_of app]; [|answered].
  destruct (member (Some body) (js "prompt")) as [prompt|e]; [|answered].
  destruct (negb (truthy prompt)); [answered|].
  destruct prompt as [[| | |s| |]|]; try answered.
  destruct (Scraper.trim s); [answered|].
  destruct (LinkAnalysis.AI (services env) generate_model (generate_inputs s))
    as [response|e]; cbn [raised_of]; [|answered].
  destruct (member response (js "response")) as [code|e]; answered.
Qed.

Lemma analyze_link_answers URL_constructs body_json env :
  exists r t,
    run (LinkAnalysis.analyze_link URL_constructs body_json env) = (Normal r, t) /\
    headers r = (js "Content-Type", js "application/json")
                  :: LinkAnalysis.corsHeaders /\
    assistant_status r.
Proof.
  unfold LinkAnalysis.analyze_link, LinkAnalysis.extract, run, try_catch,
    try_finally, bind, perform, lift, ret, throw.
  destruct body_json as [body|e]; cbn [raised_of app]; [|answered].
  destruct (member (Some body) (js "url")) as [[u|]|e]; [|answered|answered].
  destruct (negb (truthy (Some u))); [answered|].
  destruct (negb (URL_constructs u)); [answered|].
  destruct (launch (LinkAnalysis.BROWSER_RENDERING env)) as [[]|e];
    cbn [raised_of]; [|answered].
  destruct (newPage (LinkAnalysis.BROWSER_RENDERING env)) as [[]|e];
    cbn [raised_of]; [|answered].
  destruct (goto (LinkAnalysis.BROWSER_RENDERING env) u) as [[]|e];
    cbn [raised_of].
  - destruct (body_textContent (LinkAnalysis.BROWSER_RENDERING env)) as [pc|e];
      cbn [raised_of].
    + destruct (close (LinkAnalysis.BROWSER_RENDERING env)) as [[]|e];
        cbn [raised_of]; [|answered].
      destruct (LinkAnalysis.AI env LinkAnalysis.link_model
                  (LinkAnalysis.ai_inputs (LinkAnalysis.limit_content pc)))
        as [ai|e]; cbn [raised_of]; [|answered].
      destruct (member ai (js "response")) as [analysis|e]; answered.
    + destruct (close (LinkAnalysis.BROWSER_RENDERING env)) as [[]|e'];
        cbn [raised_of]; answered.
  - destruct (close (LinkAnalysis.BROWSER_RENDERING env)) as [[]|e'];
      cbn [raised_of]; answered.
Qed.

Lemma KV_get_put k v kv : KV_get k (KV_put k v kv) = Some v.
Proof.
  induction kv as [|[k' v'] rest IH]; cbn [KV_put KV_get].
  - now rewrite jseqb_refl.
  - destruct (jseqb k k') eqn:E; cbn [KV_get]; rewrite E; [reflexivity | exact IH].
Qed.

Lemma KV_get_put_other k k0 v kv :
  k0 <> k -> KV_get k0 (KV_put k v kv) = KV_get k0 kv.
Proof.
  intros Hk. induction kv as [|[k' v'] rest IH]; cbn [KV_put KV_get].
  - unfold jseqb. now destruct (list_eq_dec N.eq_dec k0 k).
  - destruct (jseqb k k') eqn:E; cbn [KV_get].
    + apply jseqb_eq in E. subst k'.
      unfold jseqb. now destruct (list_eq_dec N.eq_dec k0 k).
    + destruct (jseqb k0 k'); [reflexivity | exact IH].
Qed.

Section WithPlatform.
Variable URL_constructs : JSON -> bool.
Variable ToString : JSON -> outcome jsstring.

Let fetch := Assistant.fetch URL_constructs ToString.
Let feedback := Assistant.feedback ToString.

Lemma feedback_key_prefix id key :
  feedback_key ToString id = Normal key ->
  exists rest, key = js "feedback:" ++ rest.
Proof.
  unfold feedback_key. intros H.
  destruct id as [|b|n|s|l|fields];
    [destruct (ToString JNull) as [s'|e]
    |destruct (ToString (JBool b)) as [s'|e]
    |destruct (ToString (JNum n)) as [s'|e]
    |
    |destruct (ToString (JArr l)) as [s'|e]
    |destruct (ToString (JObj fields)) as [s'|e]];
    try discriminate H; injection H as <-;
    eexists; reflexivity.
Qed.

Lemma feedback_answers request env kv :
  exists r kv' t,
    run (feedback request env kv) = (Normal (r, kv'), t) /\
    headers r = (js "Content-Type", js "application/json")
                  :: LinkAnalysis.corsHeaders /\
    assistant_status r /\
    (kv' = kv \/
     exists id ty comment key,
       feedback_key ToString id = Normal key /\
       FEEDBACK_KV_put env key
         (feedbackData ty comment (LinkAnalysis.toISOString (services env)))
       = Normal tt /\
       kv' = KV_put key
               (feedbackData ty comment (LinkAnalysis.toISOString (services env)))
               kv /\
       r = feedback_stored).
Proof.
  unfold feedback, Assistant.feedback, run, try_catch, bind, perform, lift,
    ret, throw.
  destruct (body_json request) as [body|e]; cbn [raised_of app].
  2: { eexists _, _, _. split; [reflexivity|]. split; [reflexivity|].
       unfold assistant_status; cbn; auto. }
  destruct (member (Some body) (js "messageId")) as [messageId|e].
  2: { eexists _, _, _. split; [reflexivity|]. split; [reflexivity|].
       unfold assistant_status; cbn; auto. }
  destruct (member (Some body) (js "feedbackType")) as [feedbackType|e].
  2: { eexists _, _, _. split; [reflexivity|]. split; [reflexivity|].
       unfold assistant_status; cbn; auto. }
  destruct (member (Some body) (js "comment")) as [comment|e].
  2: { eexists _, _, _. split; [reflexivity|]. split; [reflexivity|].
       unfold assistant_status; cbn; auto. }
  destruct messageId as [id|], feedbackType as [ty|].
  2-4: eexists _, _, _; (split; [reflexivity|]); (split; [reflexivity|]);
       unfold assistant_status; cbn; auto.
  destruct (negb (truthy (Some id)) || negb (truthy (Some ty))).
  { eexists _, _, _. split; [reflexivity|]. split; [reflexivity|].
    unfold assistant_status; cbn; auto. }
  cbn [raised_of].
  destruct (feedback_key ToString id) as [key|e] eqn:Hkey.
  2: { eexists _, _, _. split; [reflexivity|]. split; [reflexivity|].
       unfold assistant_status; cbn; auto. }
  destruct (FEEDBACK_KV_put env key
              (feedbackData ty comment (LinkAnalysis.toISOString (services env))))
    as [[]|e] eqn:Hput.
  - eexists _, _, _. split; [reflexivity|]. split; [reflexivity|].
    split; [unfold assistant_status; cbn; auto|].
    right. exists id, ty, comment, key. auto.
  - eexists _, _, _. split; [reflexivity|]. split; [reflexivity|].
    unfold assistant_status; cbn; auto.
Qed.


Lemma routed_true request path :
  routed request path = true ->
  pathname request = js path /\ method request = js "POST".
Proof.
  unfold routed. intros Hr. apply andb_prop in Hr. destruct Hr as [Hp Hm].
  split; now apply jseqb_eq.
Qed.

Lemma routed_path request path :
  method request = js "POST" -> pathname request = js path ->
  routed request path = true.
Proof. unfold routed. intros -> ->. now rewrite !jseqb_refl. Qed.

Lemma jseqb_neq a b : a <> b -> jseqb a b = false.
Proof. unfold jseqb. now destruct (list_eq_dec N.eq_dec a b). Qed.

(** X4: the assistant worker never throws, and every response it gives
    allows any origin: whatever the request, the answers of the services and
    the store, [fetch] ends with a response whose headers hold
    [Access-Control-Allow-Origin: *] and
    [Access-Control-Allow-Headers: Content-Type]; the response to a request
    that is no preflight holds the three CORS headers of the handler, error
    responses included, and its status is 200, 400, 404 or 500. *)
Theorem every_answer_carries_the_cors_headers request env kv :
  exists r kv' t,
    run (fetch request env kv) = (Normal (r, kv'), t) /\
    In (js "Access-Control-Allow-Origin", js "*") (headers r) /\
    In (js "Access-Control-Allow-Headers", js "Content-Type") (headers r) /\
    (method request <> js "OPTIONS" ->
     incl LinkAnalysis.corsHeaders (headers r)) /\
    assistant_status r.
Proof.
  unfold fetch, Assistant.fetch.
  destruct (jseqb (method request) (js "OPTIONS")) eqn:Ho.
  { eexists _, _, _. split; [reflexivity|]. cbn.
    split; [auto|]. split; [auto|]. split.
    - intros Hm. apply jseqb_eq in Ho. contradiction.
    - unfold assistant_status. cbn. auto. }
  assert (cors : forall r : Response,
             headers r = (js "Content-Type", js "application/json")
                           :: LinkAnalysis.corsHeaders ->
             In (js "Access-Control-Allow-Origin", js "*") (headers r) /\
             In (js "Access-Control-Allow-Headers", js "Content-Type") (headers r) /\
             (method request <> js "OPTIONS" ->
              incl LinkAnalysis.corsHeaders (headers r))).
  { intros r ->. split; [right; left; reflexivity|].
    split; [right; right; right; left; reflexivity|].
    intros _. apply incl_tl, incl_refl. }
  destruct (routed request "/generate").
  { destruct (generate_answers request env) as (r & t & E & Hh & Hs).
    exists r, kv, t. unfold run, bind, ret in *. rewrite E.
    split; [reflexivity|]. destruct (cors r Hh) as (c1 & c2 & c3). auto. }
  destruct (routed request "/feedback").
  { destruct (feedback_answers request env kv) as (r & kv' & t & E & Hh & Hs & _).
    exists r, kv', t. split; [exact E|].
    destruct (cors r Hh) as (c1 & c2 & c3). auto. }
  destruct (routed request "/analyze-link").
  { destruct (analyze_link_answers URL_constructs (body_json request)
                                   (services env)) as (r & t & E & Hh & Hs).
    exists r, kv, t. unfold run, bind, ret in *. rewrite E.
    split; [reflexivity|]. destruct (cors r Hh) as (c1 & c2 & c3). auto. }
  eexists _, _, _. split; [reflexivity|]. cbn.
  split; [auto|]. split; [auto|]. split.
  - intros _. apply incl_refl.
  - unfold assistant_status. cbn. auto.
Qed.

(** X5: routing is by method first, then by exact path.  A request whose
    method is OPTIONS gets the preflight response, status 200 without a
    body, whatever its path; any other request that is not a POST to
    [/generate], [/feedback] or [/analyze-link] gets 404 with the text
    [Not Found].  Neither reads the body, makes a call or touches the
    store. *)
Theorem requests_are_routed_by_method_then_path request env kv :
  (method request = js "OPTIONS" ->
   run (fetch request env kv) = (Normal (preflight, kv), [])) /\
  (method request <> js "OPTIONS" ->
   method request <> js "POST" \/
   (pathname request <> js "/generate" /\
    pathname request <> js "/feedback" /\
    pathname request <> js "/analyze-link") ->
   run (fetch request env kv) = (Normal (not_found, kv), [])) /\
  status preflight = 200%Z /\ payload preflight = BodyNone /\
  status not_found = 404%Z.
Proof.
  split; [|split; [|repeat split]].
  - intros Hm. unfold fetch, Assistant.fetch. now rewrite Hm, jseqb_refl.
  - intros Ho Hr. unfold fetch, Assistant.fetch.
    rewrite (jseqb_neq _ _ Ho).
    assert (R : forall path,
               path = "/generate"%string \/ path = "/feedback"%string \/
               path = "/analyze-link"%string ->
               routed request path = false).
    { intros path Hp. destruct (routed request path) eqn:E; [|reflexivity].
      apply routed_true in E. destruct E as [E1 E2].
      destruct Hr as [Hr|(H1 & H2 & H3)]; [contradiction|].
      destruct Hp as [->|[->| ->]]; contradiction. }
    rewrite !R by auto. reflexivity.
Qed.

(** X6: [/generate] refuses a blank prompt before any model call: when the
    prompt of the body is missing, falsy, or a string of white space only,
    the response is 400 with the error [Prompt is required], and the only
    call made is the read of the body. *)
Theorem blank_prompt_is_refused request env kv body prompt :
  method request = js "POST" -> pathname request = js "/generate" ->
  body_json request = Normal body ->
  member (Some body) (js "prompt") = Normal prompt ->
  blank_prompt prompt ->
  run (fetch request env kv)
  = (Normal (prompt_required, kv), [entry_ok Request_json]) /\
  status prompt_required = 400%Z /\
  payload prompt_required
  = BodyJSON (JObj [(js "error", JStr (js "Prompt is required"))]).
Proof.
  intros Hm Hp Hb Hpr Hblank. split; [|split; reflexivity].
  unfold fetch, Assistant.fetch. rewrite Hm. cbn [jseqb].
  change (jseqb (js "POST") (js "OPTIONS")) with false. cbv iota.
  rewrite (routed_path request "/generate" Hm Hp).
  unfold generate, run, try_catch, bind, perform, lift, ret.
  rewrite Hb, Hpr. cbn [raised_of app].
  destruct Hblank as [Hf|(s & -> & Hs)].
  - now rewrite Hf.
  - destruct (truthy (Some (JStr s))); [|reflexivity]. cbn [negb].
    now rewrite (proj2 (trim_nil_blank s) Hs).
Qed.


Lemma fetch_generate request env kv :
  method request = js "POST" -> pathname request = js "/generate" ->
  run (fetch request env kv)
  = (match fst (run (generate request env)) with
     | Normal r => Normal (r, kv)
     | Raise e => Raise e
     end,
     snd (run (generate request env))).
Proof.
  intros Hm Hp. unfold fetch, Assistant.fetch. rewrite Hm.
  change (jseqb (js "POST") (js "OPTIONS")) with false. cbv iota.
  rewrite (routed_path request "/generate" Hm Hp).
  unfold run, bind, ret. now destruct (generate request env []) as [[r|e] t].
Qed.


(** X8: a truthy prompt that is no string is a server error, not a client
    error: it has no [trim], so [/generate] raises a TypeError, logs it, and
    answers 500 with the error [Failed to generate code] and the message of
    the TypeError as details; no model call is made. *)
Theorem prompt_that_is_no_string_is_a_server_error request env kv body v :
  method request = js "POST" -> pathname request = js "/generate" ->
  body_json request = Normal body ->
  member (Some body) (js "prompt") = Normal (Some v) ->
  truthy (Some v) = true ->
  (forall s, v <> JStr s) ->
  exists m,
    run (fetch request env kv)
    = (Normal (generation_failure (JSError (js "TypeError") m), kv),
       [entry_ok Request_json;
        entry_ok (Console_error
                    [LogStr (js "Error generating code:");
                     LogExn (JSError (js "TypeError") m)])]) /\
    status (generation_failure (JSError (js "TypeError") m)) = 500%Z /\
    payload (generation_failure (JSError (js "TypeError") m))
    = BodyJSON (JObj [(js "error", JStr (js "Failed to generate code"));
                      (js "details", JStr m)]).
Proof.
  intros Hm Hp Hb Hpr Ht Hv. exists (js "prompt.trim is not a function").
  split; [|split; reflexivity].
  rewrite (fetch_generate request env kv Hm Hp).
  unfold generate, run, try_catch, bind, perform, lift, ret, throw.
  rewrite Hb, Hpr, Ht. cbn [raised_of app negb].
  destruct v as [| | |s| |]; try reflexivity. now destruct (Hv s).
Qed.

Lemma fetch_feedback request env kv :
  method request = js "POST" -> pathname request = js "/feedback" ->
  fetch request env kv = feedback request env kv.
Proof.
  intros Hm Hp. unfold fetch, Assistant.fetch. rewrite Hm.
  change (jseqb (js "POST") (js "OPTIONS")) with false. cbv iota.
  unfold routed at 1. rewrite Hp.
  change (jseqb (js "/feedback") (js "/generate")) with false. cbv iota.
  cbn [andb]. now rewrite (routed_path request "/feedback" Hm Hp).
Qed.

(** X9: [/feedback] stores nothing without a message and a type: when
    [messageId] or [feedbackType] of the body is missing or falsy, the
    response is 400 with the error of the handler, the clock is not read and
    the store is left as it was. *)
Theorem feedback_needs_message_and_type request env kv body id ty :
  method request = js "POST" -> pathname request = js "/feedback" ->
  body_json request = Normal body ->
  member (Some body) (js "messageId") = Normal id ->
  member (Some body) (js "feedbackType") = Normal ty ->
  truthy id = false \/ truthy ty = false ->
  run (fetch request env kv)
  = (Normal (feedback_required, kv), [entry_ok Request_json]) /\
  status feedback_required = 400%Z /\
  payload feedback_required
  = BodyJSON (JObj [(js "error",
                     JStr (js "messageId and feedbackType are required"))]).
Proof.
  intros Hm Hp Hb Hid Hty Hf. split; [|split; reflexivity].
  rewrite (fetch_feedback request env kv Hm Hp).
  unfold feedback, Assistant.feedback, run, try_catch, bind, perform, lift, ret.
  rewrite Hb, Hid, Hty. cbn [raised_of app].
  assert (Hc : exists comment, member (Some body) (js "comment") = Normal comment).
  { destruct body; try discriminate Hid; eexists; reflexivity. }
  destruct Hc as (comment & ->).
  destruct id as [id|], ty as [ty|]; try reflexivity.
  destruct Hf as [-> | ->]; [reflexivity|].
  now rewrite orb_true_r.
Qed.

(** X10: an accepted feedback is stored under the key of its message.  With
    a truthy [messageId] and [feedbackType], the handler reads the clock and
    makes the key: [feedback:] followed by the message id, which for an id
    that is no string is first converted to one.  It puts under that key
    the object holding the feedback type, the comment or else [null], and
    the time stamp.  When the namespace accepts the put the response is
    200; a get of that key then reads the object, whatever the key held
    before, and every other key reads what it read before.  When the
    namespace rejects the put the response is 500 with the message of what
    was raised as details, and the store is left as it was.  When the id has
    no conversion to a string, what the conversion raises is caught the same
    way: the response is 500, nothing is put and the store is left as it
    was. *)
Theorem feedback_is_stored_under_the_message_key
        request env kv body id ty comment :
  method request = js "POST" -> pathname request = js "/feedback" ->
  body_json request = Normal body ->
  member (Some body) (js "messageId") = Normal (Some id) ->
  member (Some body) (js "feedbackType") = Normal (Some ty) ->
  member (Some body) (js "comment") = Normal comment ->
  truthy (Some id) = true -> truthy (Some ty) = true ->
  let timestamp := LinkAnalysis.toISOString (services env) in
  let value :=
    JObj [(js "feedbackType", ty);
          (js "comment", match comment with
                         | Some c => if truthy comment then c else JNull
                         | None => JNull
                         end);
          (js "timestamp", JStr timestamp)] in
  (forall s, id = JStr s ->
             feedback_key ToString id = Normal (js "feedback:" ++ s)) /\
  (forall s, (forall s', id <> JStr s') -> ToString id = Normal s ->
             feedback_key ToString id = Normal (js "feedback:" ++ s)) /\
  (forall key,
      feedback_key ToString id = Normal key ->
      FEEDBACK_KV_put env key value = Normal tt ->
      exists kv',
        run (fetch request env kv)
        = (Normal (feedback_stored, kv'),
           [entry_ok Request_json; entry_ok Date_toISOString]) /\
        status feedback_stored = 200%Z /\
        KV_get key kv' = Some value /\
        forall k, k <> key -> KV_get k kv' = KV_get k kv) /\
  (forall key e,
      feedback_key ToString id = Normal key ->
      FEEDBACK_KV_put env key value = Raise e ->
      run (fetch request env kv)
      = (Normal (feedback_failure e, kv),
         [entry_ok Request_json; entry_ok Date_toISOString;
          entry_ok (Console_error [LogStr (js "Error submitting feedback:");
                                   LogExn e])])) /\
  (forall e,
      (forall s', id <> JStr s') -> ToString id = Raise e ->
      run (fetch request env kv)
      = (Normal (feedback_failure e, kv),
         [entry_ok Request_json; entry_ok Date_toISOString;
          entry_ok (Console_error [LogStr (js "Error submitting feedback:");
                                   LogExn e])])) /\
  (forall e,
      status (feedback_failure e) = 500%Z /\
      payload (feedback_failure e)
      = BodyJSON (JObj [(js "success", JBool false);
                        (js "error", JStr (js "Failed to submit feedback"));
                        (js "details", JStr (LinkAnalysis.error_text e))])).
Proof.
  intros Hm Hp Hb Hid Hty Hc Tid Tty timestamp value.
  assert (Hv : feedbackData ty comment timestamp = value).
  { unfold feedbackData, value, js_or.
    destruct comment as [c|]; [|reflexivity].
    now destruct (truthy (Some c)). }
  assert (Hk : forall o, (forall s', id <> JStr s') -> ToString id = o ->
                         feedback_key ToString id
                         = match o with
                           | Normal s => Normal (js "feedback:" ++ s)
                           | Raise e => Raise e
                           end).
  { intros o Hn <-. unfold feedback_key.
    destruct id as [| | |s| |]; try reflexivity. now destruct (Hn s). }
  split; [|split; [|split; [|split; [|split]]]].
  - now intros s ->.
  - intros s Hn Hs. exact (Hk _ Hn Hs).
  - intros key Hkey Hput. exists (KV_put key value kv).
    rewrite (fetch_feedback request env kv Hm Hp).
    unfold feedback, Assistant.feedback, run, try_catch, bind, perform, lift, ret.
    rewrite Hb, Hid, Hty, Hc, Tid, Tty. cbn [raised_of app negb orb].
    fold timestamp. rewrite Hv, Hkey, Hput.
    split; [reflexivity|]. split; [reflexivity|]. split.
    + apply KV_get_put.
    + intros k Hne. now apply KV_get_put_other.
  - intros key e Hkey Hput.
    rewrite (fetch_feedback request env kv Hm Hp).
    unfold feedback, Assistant.feedback, run, try_catch, bind, perform, lift, ret.
    rewrite Hb, Hid, Hty, Hc, Tid, Tty. cbn [raised_of app negb orb].
    fold timestamp. rewrite Hv, Hkey, Hput. reflexivity.
  - intros e Hn He. pose proof (Hk _ Hn He) as Hkey.
    rewrite (fetch_feedback request env kv Hm Hp).
    unfold feedback, Assistant.feedback, run, try_catch, bind, perform, lift, ret.
    rewrite Hb, Hid, Hty, Hc, Tid, Tty. cbn [raised_of app negb orb].
    rewrite Hkey. reflexivity.
  - intros e. split; reflexivity.
Qed.

(** X11: the worker writes to the namespace only for an accepted feedback,
    and only under the key of its message.  Whatever the request, every key
    that does not begin with [feedback:] reads after the request what it
    read before it.  The namespace is as it was, unless the request is a
    POST to [/feedback] whose put the namespace accepted and whose response
    is the success response; then one key reads the value that was put,
    whatever it held before, and every other key reads what it read
    before. *)
Theorem only_accepted_feedback_changes_the_store request env kv :
  exists r kv' t,
    run (fetch request env kv) = (Normal (r, kv'), t) /\
    (forall k, (forall rest, k <> js "feedback:" ++ rest) ->
               KV_get k kv' = KV_get k kv) /\
    (kv' = kv \/
     (method request = js "POST" /\ pathname request = js "/feedback" /\
      r = feedback_stored /\
      exists key value,
        FEEDBACK_KV_put env key value = Normal tt /\
        KV_get key kv' = Some value /\
        forall k, k <> key -> KV_get k kv' = KV_get k kv)).
Proof.
  unfold fetch, Assistant.fetch.
  destruct (jseqb (method request) (js "OPTIONS")).
  { eexists _, _, _. split; [reflexivity | auto]. }
  destruct (routed request "/generate").
  { destruct (generate_answers request env) as (r & t & E & _).
    exists r, kv, t. unfold run, bind, ret in *. rewrite E. auto. }
  destruct (routed request "/feedback") eqn:Hr.
  { destruct (feedback_answers request env kv)
      as (r & kv' & t & E & _ & _ &
          [->|(id & ty & c & key & Hkey & Hput & -> & ->)]).
    - exists r, kv, t. auto.
    - apply routed_true in Hr. destruct Hr as [Hp Hm].
      eexists _, _, t. split; [exact E|]. split.
      + intros k Hk. apply KV_get_put_other.
        destruct (feedback_key_prefix id key Hkey) as (rest & ->). apply Hk.
      + right. split; [exact Hm|]. split; [exact Hp|]. split; [reflexivity|].
        eexists _, _. split; [exact Hput|]. split.
        * apply KV_get_put.
        * intros k Hk. now apply KV_get_put_other. }
  destruct (routed request "/analyze-link").
  { destruct (analyze_link_answers URL_constructs (body_json request)
                                   (services env)) as (r & t & E & _).
    exists r, kv, t. unfold run, bind, ret in *. rewrite E. auto. }
  eexists _, _, _. split; [reflexivity | auto].
Qed.

End WithPlatform.
End AssistantFacts.

(* ================================================================= *)
(** * The link-analysis branch, call by call *)

Section LinkBranchFacts.
Import LinkAnalysis.
Variable URL_constructs : JSON -> bool.

Let analyze_link := LinkAnalysis.analyze_link URL_constructs.

(** X12: the link-analysis branch checks the address before it launches a
    browser.  When the [url] of the body is missing or falsy the response is
    400 with the error [URL to analyze is required]; when it is truthy and no
    URL can be constructed from it, the response is 400 with the error
    [Invalid URL format].  In both cases the only call made is the read of
    the body. *)
Theorem link_address_is_checked_before_launch body_json env body url :
  body_json = Normal body ->
  member (Some body) (js "url") = Normal url ->
  (truthy url = false ->
   run (analyze_link body_json env)
   = (Normal url_required, [entry_ok Request_json])) /\
  (forall u, url = Some u -> truthy url = true -> URL_constructs u = false ->
   run (analyze_link body_json env)
   = (Normal url_invalid, [entry_ok Request_json])) /\
  (status url_required = 400%Z /\
   payload url_required
   = BodyJSON (JObj [(js "error", JStr (js "URL to analyze is required"))])) /\
  (status url_invalid = 400%Z /\
   payload url_invalid
   = BodyJSON (JObj [(js "error", JStr (js "Invalid URL format"))])).
Proof.
  intros Hb Hu. split; [|split; [|split; split; reflexivity]].
  - intros Hf. unfold analyze_link, LinkAnalysis.analyze_link, run, try_catch,
      bind, perform, lift, ret.
    rewrite Hb, Hu. cbn [raised_of app]. destruct url as [u|]; [|reflexivity].
    now rewrite Hf.
  - intros u -> Ht Hc. unfold analyze_link, LinkAnalysis.analyze_link, run,
      try_catch, bind, perform, lift, ret.
    rewrite Hb, Hu. cbn [raised_of app]. now rewrite Ht, Hc.
Qed.

Lemma analyze_link_valid body_json env body u :
  body_json = Normal body ->
  member (Some body) (js "url") = Normal (Some u) ->
  truthy (Some u) = true -> URL_constructs u = true ->
  analyze_link body_json env [] =
  try_catch
    (perform Puppeteer_launch (launch (BROWSER_RENDERING env)) ;;;
     perform Browser_newPage (newPage (BROWSER_RENDERING env)) ;;;
     r <- extract env u ;;
     match r with
     | inl early => ret early
     | inr pageContent =>
         let inputs := ai_inputs (limit_content pageContent) in
         aiResponse <- perform (AI_run link_model inputs)
                               (AI env link_model inputs) ;;
         analysis <- lift (member aiResponse (js "response")) ;;
         timestamp <- perform Date_toISOString (Normal (toISOString env)) ;;
         ret (json_response
                (JObj (fields_of
                         [(js "analysis", analysis);
                          (js "originalUrl", Some u);
                          (js "timestamp", Some (JStr timestamp))]))
                200)
     end)
    (fun e =>
       perform (Console_error [LogStr (js "Error analyzing link:"); LogExn e])
               (Normal tt) ;;;
       ret (analysis_failure e))
    [entry_ok Request_json].
Proof.
  intros Hb Hu Ht Hc.
  unfold analyze_link, LinkAnalysis.analyze_link, try_catch.
  unfold bind at 1. unfold perform at 1. rewrite Hb. cbn [raised_of app].
  unfold bind at 1. unfold lift at 1. rewrite Hu, Ht, Hc. reflexivity.
Qed.

(** X13: once a page is open, the link-analysis branch closes the browser
    exactly once, on every path, and consults the model only after that.
    For a body with a well-formed address the browser is launched once; when
    the launch and the opening of the page succeed, the trace holds exactly
    one close call, and no model call comes before it.  But when opening the
    page raises, the launched browser is not closed, and the response is 500
    with the message of what was raised. *)
Theorem link_browser_is_closed_once_a_page_is_open body_json env body u :
  body_json = Normal body ->
  member (Some body) (js "url") = Normal (Some u) ->
  truthy (Some u) = true -> URL_constructs u = true ->
  count_calls is_launch (snd (run (analyze_link body_json env))) = 1 /\
  (launch (BROWSER_RENDERING env) = Normal tt ->
   newPage (BROWSER_RENDERING env) = Normal tt ->
   exists t1 t2,
     snd (run (analyze_link body_json env))
     = t1 ++ {| what := Browser_close;
                raised := raised_of (close (BROWSER_RENDERING env)) |} :: t2 /\
     count_calls is_close t1 = 0 /\ count_calls is_close t2 = 0 /\
     count_calls is_AI_run t1 = 0) /\
  (forall e,
      launch (BROWSER_RENDERING env) = Normal tt ->
      newPage (BROWSER_RENDERING env) = Raise e ->
      fst (run (analyze_link body_json env)) = Normal (analysis_failure e) /\
      count_calls is_close (snd (run (analyze_link body_json env))) = 0).
Proof.
  intros Hb Hu Ht Hc. unfold run.
  rewrite (analyze_link_valid body_json env body u Hb Hu Ht Hc).
  unfold extract, try_catch, try_finally, bind, perform, lift, ret.
  split; [|split].
  - destruct (launch (BROWSER_RENDERING env)) as [[]|e]; cbn [raised_of app];
      [|reflexivity].
    destruct (newPage (BROWSER_RENDERING env)) as [[]|e]; cbn [raised_of app];
      [|reflexivity].
    destruct (goto (BROWSER_RENDERING env) u) as [[]|e]; cbn [raised_of app].
    + destruct (body_textContent (BROWSER_RENDERING env)) as [pc|e];
        cbn [raised_of app].
      * destruct (close (BROWSER_RENDERING env)) as [[]|e]; cbn [raised_of app];
          [|reflexivity].
        destruct (AI env link_model (ai_inputs (limit_content pc))) as [ai|e];
          cbn [raised_of app]; [|reflexivity].
        destruct (member ai (js "response")); reflexivity.
      * destruct (close (BROWSER_RENDERING env)) as [[]|e']; reflexivity.
    + destruct (close (BROWSER_RENDERING env)) as [[]|e']; reflexivity.
  - intros -> ->. cbn [raised_of app].
    destruct (goto (BROWSER_RENDERING env) u) as [[]|e]; cbn [raised_of app].
    + destruct (body_textContent (BROWSER_RENDERING env)) as [pc|e];
        cbn [raised_of app].
      * exists [entry_ok Request_json; entry_ok Puppeteer_launch;
                entry_ok Browser_newPage;
                entry_ok (Page_goto u (Some (js "domcontentloaded"))
                                    (Some 30000%Z));
                entry_ok Page_eval_body_textContent].
        destruct (close (BROWSER_RENDERING env)) as [[]|e]; cbn [raised_of app].
        -- destruct (AI env link_model (ai_inputs (limit_content pc)))
             as [ai|e]; cbn [raised_of app].
           ++ destruct (member ai (js "response")); eexists;
                (split; [reflexivity|]); repeat split.
           ++ eexists; (split; [reflexivity|]); repeat split.
        -- eexists; (split; [reflexivity|]); repeat split.
      * exists [entry_ok Request_json; entry_ok Puppeteer_launch;
                entry_ok Browser_newPage;
                entry_ok (Page_goto u (Some (js "domcontentloaded"))
                                    (Some 30000%Z));
                {| what := Page_eval_body_textContent; raised := Some e |};
                entry_ok (Console_error
                            [LogStr (js "Error navigating to or extracting content from ");
                             LogJSON u; LogStr (js ":"); LogExn e])].
        destruct (close (BROWSER_RENDERING env)) as [[]|e']; cbn [raised_of app];
          eexists; (split; [reflexivity|]); repeat split.
    + exists [entry_ok Request_json; entry_ok Puppeteer_launch;
              entry_ok Browser_newPage;
              {| what := Page_goto u (Some (js "domcontentloaded"))
                                   (Some 30000%Z);
                 raised := Some e |};
              entry_ok (Console_error
                          [LogStr (js "Error navigating to or extracting content from ");
                           LogJSON u; LogStr (js ":"); LogExn e])].
      destruct (close (BROWSER_RENDERING env)) as [[]|e']; cbn [raised_of app];
        eexists; (split; [reflexivity|]); repeat split.
  - intros e -> ->. split; reflexivity.
Qed.

(** X14: a page that cannot be loaded or read is reported, and the model is
    not consulted.  When the navigation or the reading of the body text
    raises, the branch logs it and closes the browser; the response is 500
    with the error [Failed to load or extract content from URL: ] followed by
    the message of what was raised, and no model call is made.  If the close
    raises as well, what the close raised replaces that response: the answer
    is the 500 of the outer handler with the message of the close. *)
Theorem link_page_failure_is_reported body_json env body u e :
  body_json = Normal body ->
  member (Some body) (js "url") = Normal (Some u) ->
  truthy (Some u) = true -> URL_constructs u = true ->
  launch (BROWSER_RENDERING env) = Normal tt ->
  newPage (BROWSER_RENDERING env) = Normal tt ->
  goto (BROWSER_RENDERING env) u = Raise e \/
  (goto (BROWSER_RENDERING env) u = Normal tt /\
   body_textContent (BROWSER_RENDERING env) = Raise e) ->
  count_calls is_AI_run (snd (run (analyze_link body_json env))) = 0 /\
  (close (BROWSER_RENDERING env) = Normal tt ->
   fst (run (analyze_link body_json env)) = Normal (extraction_failure e)) /\
  (forall e', close (BROWSER_RENDERING env) = Raise e' ->
   fst (run (analyze_link body_json env)) = Normal (analysis_failure e')) /\
  status (extraction_failure e) = 500%Z /\
  payload (extraction_failure e)
  = BodyJSON (JObj [(js "error",
                     JStr (js "Failed to load or extract content from URL: "
                           ++ error_text e))]).
Proof.
  intros Hb Hu Ht Hc Hl Hn Hfail. unfold run.
  rewrite (analyze_link_valid body_json env body u Hb Hu Ht Hc).
  unfold extract, try_catch, try_finally, bind, perform, lift, ret.
  rewrite Hl, Hn. cbn [raised_of app].
  destruct Hfail as [Hg|[Hg Hx]]; rewrite Hg; cbn [raised_of app];
    rewrite ?Hx; cbn [raised_of app].
  - split; [|split; [|split; [|split; reflexivity]]].
    + destruct (close (BROWSER_RENDERING env)) as [[]|e']; reflexivity.
    + now intros ->.
    + now intros e' ->.
  - split; [|split; [|split; [|split; reflexivity]]].
    + destruct (close (BROWSER_RENDERING env)) as [[]|e']; reflexivity.
    + now intros ->.
    + now intros e' ->.
Qed.

(** X15: when the browser and the model answer, the link-analysis branch
    makes its calls in this order: the body is read, the browser launched, a
    page opened, the address loaded with a 30 s limit, the text of the body
    read, the browser closed, the model consulted, the clock read.  The
    response is 200 with the [response] of the model as [analysis], the
    address as it was given as [originalUrl], and the time stamp. *)
Theorem link_analysis_succeeds body_json env body u pageContent ai analysis :
  body_json = Normal body ->
  member (Some body) (js "url") = Normal (Some u) ->
  truthy (Some u) = true -> URL_constructs u = true ->
  browser_succeeds (BROWSER_RENDERING env) ->
  body_textContent (BROWSER_RENDERING env) = Normal pageContent ->
  AI env link_model (ai_inputs (limit_content pageContent)) = Normal ai ->
  member ai (js "response") = Normal analysis ->
  run (analyze_link body_json env)
  = (Normal
       {| status := 200;
          headers := (js "Content-Type", js "application/json") :: corsHeaders;
          payload :=
            BodyJSON
              (JObj (fields_of
                       [(js "analysis", analysis);
                        (js "originalUrl", Some u);
                        (js "timestamp", Some (JStr (toISOString env)))])) |},
     [entry_ok Request_json; entry_ok Puppeteer_launch;
      entry_ok Browser_newPage;
      entry_ok (Page_goto u (Some (js "domcontentloaded")) (Some 30000%Z));
      entry_ok Page_eval_body_textContent; entry_ok Browser_close;
      entry_ok (AI_run link_model (ai_inputs (limit_content pageContent)));
      entry_ok Date_toISOString]).
Proof.
  intros Hb Hu Ht Hc (Hl & Hn & _ & Hg & _ & Hcl) Hpc Hai Hr. unfold run.
  rewrite (analyze_link_valid body_json env body u Hb Hu Ht Hc).
  unfold extract, try_catch, try_finally, bind, perform, lift, ret.
  rewrite Hl, Hn, Hg, Hpc, Hcl. cbn [raised_of app].
  rewrite Hai. cbn [raised_of app]. rewrite Hr. reflexivity.
Qed.

End LinkBranchFacts.

(* ================================================================= *)
(** * The structured-extraction worker, call by call *)

Section ScrapeWorkerFacts.
Import ScrapeWorker.
Variable JSON_parse : jsstring -> JSON + jsstring.
Variable outputSchema_text : jsstring.
Variable Response_json_undefined : outcome Response.

Let fetch := ScrapeWorker.fetch JSON_parse outputSchema_text Response_json_undefined.
Let prompt := ScrapeWorker.prompt outputSchema_text.
Let respond := ScrapeWorker.respond Response_json_undefined.

Lemma getLLMResult_trace env p t :
  exists o rest,
    Scraper.getLLMResult JSON_parse env p t
    = (o, t ++ {| what := HTTP_fetch (Scraper.aiUrl env) (Scraper.init env p);
                  raised := raised_of (Scraper.fetch env (Scraper.aiUrl env)
                                                     (Scraper.init env p)) |}
                :: rest) /\
    count_calls is_fetch rest = 0 /\
    count_calls is_launch rest = 0 /\ count_calls is_close rest = 0.
Proof.
  unfold Scraper.getLLMResult, bind, perform, lift, throw, ret.
  destruct (Scraper.fetch env (Scraper.aiUrl env) (Scraper.init env p))
    as [resp|e]; cbn [raised_of].
  2: { eexists _, []. split; [reflexivity|]. repeat split. }
  destruct (Scraper.ok resp); cbn [negb].
  - destruct (Scraper.json resp) as [data|e]; cbn [raised_of].
    2: { eexists _, _. rewrite <- app_assoc. split; [reflexivity|]. repeat split. }
    destruct (member (Some data) (js "result")) as [result|e].
    2: { eexists _, _. rewrite <- app_assoc. split; [reflexivity|]. repeat split. }
    destruct (member result (js "response")) as [field|e].
    2: { eexists _, _. rewrite <- app_assoc. split; [reflexivity|]. repeat split. }
    destruct (js_or field (Some (JStr []))) as [[| | |reply| |]|];
      try (eexists _, _; rewrite <- app_assoc; split; [reflexivity|];
           repeat split).
    rewrite resolve_spec.
    destruct (JSON_parse (Scraper.spec_candidate reply)).
    + eexists _, _. rewrite <- app_assoc. split; [reflexivity|]. repeat split.
    + eexists _, _. rewrite <- !app_assoc. split; [reflexivity|]. repeat split.
  - destruct (Scraper.text resp) as [txt|e]; cbn [raised_of];
      eexists _, _; rewrite <- !app_assoc; (split; [reflexivity|]);
      repeat split.
Qed.

Lemma respond_silent result t :
  snd (respond result t) = t.
Proof.
  unfold respond, ScrapeWorker.respond, ret, lift. now destruct result.
Qed.

(** X16: the extraction worker launches a browser for the root path only.
    Any other path gets the text [Not found], with the default status 200
    rather than 404, and no call is made; on the root path the browser is
    launched exactly once, whatever the services answer. *)
Theorem only_the_root_path_launches_a_browser pathname env :
  (pathname <> js "/" -> run (fetch pathname env) = (Normal not_found, [])) /\
  (pathname = js "/" ->
   count_calls is_launch (snd (run (fetch pathname env))) = 1) /\
  status not_found = 200%Z /\ payload not_found = BodyText (js "Not found").
Proof.
  split; [|split; [|split; reflexivity]].
  - intros Hp. unfold fetch, ScrapeWorker.fetch. now rewrite (jseqb_neq _ _ Hp).
  - intros ->. unfold fetch, ScrapeWorker.fetch, run.
    change (negb (jseqb (js "/") (js "/"))) with false. cbv iota.
    unfold bind at 1. unfold perform at 1.
    destruct (launch (MY_BROWSER env)) as [[]|e]; cbn [raised_of app];
      [|reflexivity].
    unfold bind at 1. unfold perform at 1.
    destruct (newPage (MY_BROWSER env)) as [[]|e]; cbn [raised_of app];
      [|reflexivity].
    unfold bind at 1. unfold perform at 1.
    destruct (goto (MY_BROWSER env) (JStr targetUrl)) as [[]|e];
      cbn [raised_of app]; [|reflexivity].
    unfold bind at 1. unfold perform at 1.
    destruct (innerText (MY_BROWSER env)) as [text|e]; cbn [raised_of app];
      [|reflexivity].
    unfold bind at 1. unfold perform at 1.
    destruct (close (MY_BROWSER env)) as [[]|e]; cbn [raised_of app];
      [|reflexivity].
    unfold bind.
    match goal with
    | |- context [Scraper.getLLMResult JSON_parse ?env ?p ?t] =>
        destruct (getLLMResult_trace env p t) as (o & rest & E & _ & L & _)
    end.
    rewrite E.
    destruct o as [result|e]; cbn [snd];
      [fold respond; rewrite respond_silent|];
      rewrite count_calls_app;
      change (?x :: rest) with ([x] ++ rest);
      rewrite (count_calls_app _ _ rest), L; reflexivity.
Qed.

Lemma fetch_root_browser_ok env text :
  launch (MY_BROWSER env) = Normal tt ->
  newPage (MY_BROWSER env) = Normal tt ->
  goto (MY_BROWSER env) (JStr targetUrl) = Normal tt ->
  innerText (MY_BROWSER env) = Normal text ->
  close (MY_BROWSER env) = Normal tt ->
  run (fetch (js "/") env)
  = bind (Scraper.getLLMResult JSON_parse (llm env) (prompt text)) respond
         [entry_ok Puppeteer_launch; entry_ok Browser_newPage;
          entry_ok (Page_goto (JStr targetUrl) None None);
          entry_ok Page_evaluate_innerText; entry_ok Browser_close].
Proof.
  intros Hl Hn Hg Ht Hc. unfold fetch, ScrapeWorker.fetch, run.
  change (negb (jseqb (js "/") (js "/"))) with false. cbv iota.
  unfold bind at 1. unfold perform at 1. rewrite Hl. cbn [raised_of app].
  unfold bind at 1. unfold perform at 1. rewrite Hn. cbn [raised_of app].
  unfold bind at 1. unfold perform at 1. rewrite Hg. cbn [raised_of app].
  unfold bind at 1. unfold perform at 1. rewrite Ht. cbn [raised_of app].
  unfold bind at 1. unfold perform at 1. rewrite Hc. cbn [raised_of app].
  reflexivity.
Qed.

(** X17: the extraction worker sends the text of the page whole, and only
    after it closed the browser.  When the browser answers every call, the
    calls of the handler are the launch, the page, the navigation to the
    target, the reading of the text and the close, in this order, followed by
    one HTTP request to the model service; the user message of that request
    is the fixed head of the prompt followed by the text of the page, however
    long the text is. *)
Theorem page_text_is_sent_whole_after_the_close env text :
  launch (MY_BROWSER env) = Normal tt ->
  newPage (MY_BROWSER env) = Normal tt ->
  goto (MY_BROWSER env) (JStr targetUrl) = Normal tt ->
  innerText (MY_BROWSER env) = Normal text ->
  close (MY_BROWSER env) = Normal tt ->
  exists answer rest,
    snd (run (fetch (js "/") env))
    = [entry_ok Puppeteer_launch; entry_ok Browser_newPage;
       entry_ok (Page_goto (JStr targetUrl) None None);
       entry_ok Page_evaluate_innerText; entry_ok Browser_close;
       {| what :=
            HTTP_fetch
              (Scraper.aiUrl (llm env))
              (JObj [(js "method", JStr (js "POST"));
                     (js "headers",
                      JObj [(js "Content-Type", JStr (js "application/json"));
                            (js "Authorization",
                             JStr (js "Bearer " ++ Scraper.API_TOKEN (llm env)))]);
                     (js "body",
                      JObj [(js "messages",
                             JArr [JObj [(js "role", JStr (js "user"));
                                         (js "content",
                                          JStr (prompt_head outputSchema_text
                                                ++ text))]])])]);
          raised := answer |}]
      ++ rest /\
    count_calls is_fetch rest = 0 /\
    count_calls is_launch rest = 0 /\ count_calls is_close rest = 0.
Proof.
  intros Hl Hn Hg Ht Hc.
  rewrite (fetch_root_browser_ok env text Hl Hn Hg Ht Hc).
  unfold bind.
  match goal with
  | |- context [Scraper.getLLMResult JSON_parse ?env ?p ?t] =>
      destruct (getLLMResult_trace env p t) as (o & rest & E & F & L & C)
  end.
  rewrite E. exists (raised_of (Scraper.fetch (llm env) (Scraper.aiUrl (llm env))
                                  (Scraper.init (llm env) (prompt text)))), rest.
  split; [|auto].
  destruct o as [result|e]; cbn [snd]; [rewrite respond_silent|]; reflexivity.
Qed.

(** X18: the extraction worker has no handler for errors: what a call
    raises, the worker raises.  When a browser call raises, the handler ends
    with that throw and makes no HTTP request; when the call that raised
    followed a successful launch and was not the close, the browser stays
    open.  When the close itself raises, after the text of the page was
    read, the handler ends with that throw and the model service is not
    called.  When the model service answers with a status that is not ok
    and a readable body, the handler ends with the throw of [getLLMResult]:
    an Error whose message is [LLM call failed], the address of the model
    and the three digits of the status; when the body cannot be read, or
    the request itself fails, the handler ends with what that raised. *)
Theorem extraction_worker_rethrows env :
  (forall e,
      launch (MY_BROWSER env) = Normal tt ->
      newPage (MY_BROWSER env) = Raise e \/
      (newPage (MY_BROWSER env) = Normal tt /\
       (goto (MY_BROWSER env) (JStr targetUrl) = Raise e \/
        (goto (MY_BROWSER env) (JStr targetUrl) = Normal tt /\
         innerText (MY_BROWSER env) = Raise e))) ->
      fst (run (fetch (js "/") env)) = Raise e /\
      count_calls is_fetch (snd (run (fetch (js "/") env))) = 0 /\
      count_calls is_close (snd (run (fetch (js "/") env))) = 0) /\
  (forall e,
      launch (MY_BROWSER env) = Raise e ->
      run (fetch (js "/") env)
      = (Raise e, [{| what := Puppeteer_launch; raised := Some e |}])) /\
  (forall text e,
      launch (MY_BROWSER env) = Normal tt ->
      newPage (MY_BROWSER env) = Normal tt ->
      goto (MY_BROWSER env) (JStr targetUrl) = Normal tt ->
      innerText (MY_BROWSER env) = Normal text ->
      close (MY_BROWSER env) = Raise e ->
      run (fetch (js "/") env)
      = (Raise e,
         [entry_ok Puppeteer_launch; entry_ok Browser_newPage;
          entry_ok (Page_goto (JStr (js "https://labs.apnic.net/")) None None);
          entry_ok Page_evaluate_innerText;
          {| what := Browser_close; raised := Some e |}])) /\
  (forall text resp,
      launch (MY_BROWSER env) = Normal tt ->
      newPage (MY_BROWSER env) = Normal tt ->
      goto (MY_BROWSER env) (JStr targetUrl) = Normal tt ->
      innerText (MY_BROWSER env) = Normal text ->
      close (MY_BROWSER env) = Normal tt ->
      Scraper.fetch (llm env) (Scraper.aiUrl (llm env))
                    (Scraper.init (llm env) (prompt text)) = Normal resp ->
      Scraper.ok resp = false ->
      (forall upstream,
          Scraper.text resp = Normal upstream ->
          (100 <= Scraper.http_status resp <= 999)%Z ->
          fst (run (fetch (js "/") env))
          = Raise (JSError (js "Error")
                     (js "LLM call failed https://api.cloudflare.com/client/v4/accounts/"
                      ++ Scraper.ACCOUNT_ID (llm env)
                      ++ js "/ai/run/@hf/thebloke/deepseek-coder-6.7b-instruct-awq "
                      ++ three_digits (Scraper.http_status resp)))) /\
      (forall e,
          Scraper.text resp = Raise e ->
          fst (run (fetch (js "/") env)) = Raise e)) /\
  (forall text e,
      launch (MY_BROWSER env) = Normal tt ->
      newPage (MY_BROWSER env) = Normal tt ->
      goto (MY_BROWSER env) (JStr targetUrl) = Normal tt ->
      innerText (MY_BROWSER env) = Normal text ->
      close (MY_BROWSER env) = Normal tt ->
      Scraper.fetch (llm env) (Scraper.aiUrl (llm env))
                    (Scraper.init (llm env) (prompt text)) = Raise e ->
      fst (run (fetch (js "/") env)) = Raise e).
Proof.
  split; [|split; [|split; [|split]]].
  - intros e Hl Hfail. unfold fetch, ScrapeWorker.fetch, run.
    change (negb (jseqb (js "/") (js "/"))) with false. cbv iota.
    unfold bind, perform. rewrite Hl. cbn [raised_of app].
    destruct Hfail as [Hn|[Hn [Hg|[Hg Ht]]]]; rewrite Hn; cbn [raised_of app];
      [repeat split| |]; rewrite Hg; cbn [raised_of app]; [repeat split|].
    rewrite Ht. repeat split.
  - intros e Hl. unfold fetch, ScrapeWorker.fetch, run.
    change (negb (jseqb (js "/") (js "/"))) with false. cbv iota.
    unfold bind, perform. now rewrite Hl.
  - intros text e Hl Hn Hg Ht Hc. unfold fetch, ScrapeWorker.fetch, run.
    change (negb (jseqb (js "/") (js "/"))) with false. cbv iota.
    unfold bind, perform. rewrite Hl. cbn [raised_of app].
    rewrite Hn. cbn [raised_of app]. rewrite Hg. cbn [raised_of app].
    rewrite Ht. cbn [raised_of app]. rewrite Hc. reflexivity.
  - intros text resp Hl Hn Hg Ht Hc Hf Hok. split.
    + intros upstream Hup Hst.
      rewrite (fetch_root_browser_ok env text Hl Hn Hg Ht Hc).
      unfold Scraper.getLLMResult, bind, perform, lift, throw, ret.
      rewrite Hf, Hok. cbn [negb raised_of]. rewrite Hup. cbn [fst].
      now rewrite (llm_failure_status (llm env) _ Hst).
    + intros e He.
      rewrite (fetch_root_browser_ok env text Hl Hn Hg Ht Hc).
      unfold Scraper.getLLMResult, bind, perform, lift, throw, ret.
      rewrite Hf, Hok. cbn [negb raised_of]. now rewrite He.
  - intros text e Hl Hn Hg Ht Hc Hf.
    rewrite (fetch_root_browser_ok env text Hl Hn Hg Ht Hc).
    unfold Scraper.getLLMResult, bind, perform, lift, throw, ret.
    now rewrite Hf.
Qed.

(** X19: the result of the extraction is returned as it was parsed, without
    a check against the schema the prompt names.  When the browser answers
    and the model service answers ok with a body whose [result.response] is
    a string, whatever else the body holds, the response is [Response.json]
    of whatever value [JSON.parse] makes of the candidate text of that
    string, at status 200; when the candidate does not parse, the handler
    applies [Response.json] to [undefined]. *)
Theorem extraction_result_is_returned_unchecked
        env text resp data result reply :
  launch (MY_BROWSER env) = Normal tt ->
  newPage (MY_BROWSER env) = Normal tt ->
  goto (MY_BROWSER env) (JStr targetUrl) = Normal tt ->
  innerText (MY_BROWSER env) = Normal text ->
  close (MY_BROWSER env) = Normal tt ->
  Scraper.fetch (llm env) (Scraper.aiUrl (llm env))
                (Scraper.init (llm env) (prompt text)) = Normal resp ->
  Scraper.ok resp = true ->
  Scraper.json resp = Normal data ->
  member (Some data) (js "result") = Normal result ->
  member result (js "response") = Normal (Some (JStr reply)) ->
  fst (run (fetch (js "/") env))
  = match JSON_parse (Scraper.spec_candidate reply) with
    | inl v => Normal {| status := 200; headers := []; payload := BodyJSON v |}
    | inr _ => Response_json_undefined
    end.
Proof.
  intros Hl Hn Hg Ht Hc Hf Hok Hj Hres Hrep.
  rewrite (fetch_root_browser_ok env text Hl Hn Hg Ht Hc).
  unfold bind.
  pose proof (getLLMResult_answer JSON_parse (llm env) (prompt text) resp
                                  data result reply Hf Hok Hj Hres Hrep) as E.
  unfold run in E.
  assert (Hshift : forall t,
             Scraper.getLLMResult JSON_parse (llm env) (prompt text) t
             = (fst (Scraper.getLLMResult JSON_parse (llm env) (prompt text) []),
                t ++ snd (Scraper.getLLMResult JSON_parse (llm env)
                                               (prompt text) []))).
  { intros t. unfold Scraper.getLLMResult, bind, perform, lift, throw, ret.
    rewrite Hf, Hok, Hj. cbn [negb raised_of app]. rewrite Hres, Hrep.
    assert (Hor : js_or (Some (JStr reply)) (Some (JStr [])) = Some (JStr reply)
                  \/ (reply = [] /\ js_or (Some (JStr reply)) (Some (JStr []))
                                    = Some (JStr []))).
    { destruct reply; [right; split; reflexivity | left; reflexivity]. }
    destruct Hor as [-> | [-> ->]]; rewrite !resolve_spec;
      destruct (JSON_parse _); cbn [fst snd]; rewrite <- ?app_assoc;
      reflexivity. }
  rewrite Hshift. rewrite E. rewrite resolve_spec.
  destruct (JSON_parse (Scraper.spec_candidate reply)) as [v|msg];
    cbn [fst snd]; reflexivity.
Qed.

End ScrapeWorkerFacts.

(* ================================================================= *)
(** * [getLLMResult] on answers of another shape *)

Section EnvelopeFacts.
Import Scraper.
Variable JSON_parse : jsstring -> JSON + jsstring.

(** X20: an answer without text is parsed as the empty string.  When the
    model service answers ok and [result.response] of the body is missing or
    falsy, [getLLMResult] takes the empty string as the text, hence as the
    candidate, and returns what [JSON.parse] makes of it: the value, or
    [undefined] after logging the failure. *)
Theorem answer_without_text_is_the_empty_candidate env prompt resp data result field :
  fetch env (aiUrl env) (init env prompt) = Normal resp ->
  ok resp = true ->
  json resp = Normal data ->
  member (Some data) (js "result") = Normal result ->
  member result (js "response") = Normal field ->
  truthy field = false ->
  run (getLLMResult JSON_parse env prompt)
  = match JSON_parse [] with
    | inl v =>
        (Normal (Some v),
         [entry_ok (HTTP_fetch (aiUrl env) (init env prompt));
          entry_ok Response_json])
    | inr msg =>
        (Normal undefined,
         [entry_ok (HTTP_fetch (aiUrl env) (init env prompt));
          entry_ok Response_json;
          parse_failure_log msg []])
    end.
Proof.
  intros Hf Hok Hj Hr Hfield Hfalsy.
  unfold getLLMResult, run, bind, perform, lift.
  rewrite Hf, Hok, Hj. cbn [negb raised_of app]. rewrite Hr, Hfield.
  unfold js_or. rewrite Hfalsy. rewrite resolve_spec.
  change (spec_candidate []) with (@nil N).
  now destruct (JSON_parse []).
Qed.

(** X21: an answer of another shape makes [getLLMResult] raise a TypeError,
    outside its try block, so nothing is logged and nothing is returned:
    when the body of an ok answer has no [result], when its [result] is
    [null], and when [result.response] is a truthy value that is no
    string. *)
Theorem answer_of_another_shape_raises env prompt resp data :
  fetch env (aiUrl env) (init env prompt) = Normal resp ->
  ok resp = true ->
  json resp = Normal data ->
  (member (Some data) (js "result") = Normal None \/
   member (Some data) (js "result") = Normal (Some JNull) \/
   exists result v,
     member (Some data) (js "result") = Normal result /\
     member result (js "response") = Normal (Some v) /\
     truthy (Some v) = true /\ forall s, v <> JStr s) ->
  exists m,
    run (getLLMResult JSON_parse env prompt)
    = (Raise (JSError (js "TypeError") m),
       [entry_ok (HTTP_fetch (aiUrl env) (init env prompt));
        entry_ok Response_json]).
Proof.
  intros Hf Hok Hj Hshape.
  unfold getLLMResult, run, bind, perform, lift.
  rewrite Hf, Hok, Hj. cbn [negb raised_of app].
  destruct Hshape as [Hr|[Hr|(result & v & Hr & Hv & Ht & Hns)]]; rewrite Hr.
  - eexists. reflexivity.
  - eexists. reflexivity.
  - rewrite Hv. unfold js_or. rewrite Ht.
    destruct v as [| | |s| |]; try (eexists; reflexivity). now destruct (Hns s).
Qed.

End EnvelopeFacts.

(* ================================================================= *)
(** * [src/index.ts], further *)

Section IndexFurther.
Import Index.
Variable default_message : Zod.issue_code -> jsstring.
Variable URL_valid : jsstring -> bool.

Let fetch := Index.fetch default_message URL_valid.
Let RequestSchema := Index.RequestSchema default_message URL_valid.
Let RequestObject := Index.RequestObject default_message URL_valid.
Local Abbreviation parsed_url := (Index.parsed_url default_message URL_valid).
Local Abbreviation parsed_action := (Index.parsed_action default_message).
Local Abbreviation parsed_prompt := (Index.parsed_prompt default_message).
Local Abbreviation parsed_model := (Index.parsed_model default_message).
Local Abbreviation parsed_renderOptions :=
  (Index.parsed_renderOptions default_message).

(** ** What validation accepts *)

Lemma merge_ok {A B} (f : Zod.parsed (A -> B)) (x : Zod.parsed A) b :
  fst (Zod.merge f x) = Zod.ok b ->
  exists g a, fst f = Zod.ok g /\ fst x = Zod.ok a /\ b = g a.
Proof.
  unfold Zod.merge. cbn [fst].
  destruct (fst f) as [g|g|], (fst x) as [a|a|]; try discriminate.
  intros [= <-]. eauto.
Qed.

Lemma merge_issues {A B} (f : Zod.parsed (A -> B)) (x : Zod.parsed A) :
  snd (Zod.merge f x) = snd f ++ snd x.
Proof. reflexivity. Qed.

(** A valid parse of the object: every key is valid. *)
Lemma RequestObject_ok fields d :
  fst (RequestObject [] (Some (JObj fields))) = Zod.ok d ->
  fst (parsed_url fields) = Zod.ok (url d) /\
  fst (parsed_action fields) = Zod.ok (action d) /\
  fst (parsed_prompt fields) = Zod.ok (prompt d) /\
  fst (parsed_model fields) = Zod.ok (model d) /\
  fst (parsed_renderOptions fields) = Zod.ok (renderOptions d).
Proof.
  unfold RequestObject. rewrite RequestObject_keys. intros H.
  apply merge_ok in H. destruct H as (g5 & r & H & Hr & ->).
  apply merge_ok in H. destruct H as (g4 & m & H & Hm & ->).
  apply merge_ok in H. destruct H as (g3 & p & H & Hp & ->).
  apply merge_ok in H. destruct H as (g2 & a & H & Ha & ->).
  apply merge_ok in H. destruct H as (g1 & u & H & Hu & ->).
  cbn in H. injection H as <-. cbn. auto.
Qed.

(** The issues of the schema hold the issues of every key. *)
Lemma RequestSchema_issues fields i :
  In i (snd (parsed_url fields)) \/ In i (snd (parsed_action fields)) \/
  In i (snd (parsed_prompt fields)) \/ In i (snd (parsed_model fields)) \/
  In i (snd (parsed_renderOptions fields)) ->
  In i (snd (RequestSchema [] (Some (JObj fields)))).
Proof.
  intros Hi.
  assert (Ho : In i (snd (RequestObject [] (Some (JObj fields))))).
  { unfold RequestObject. rewrite RequestObject_keys. rewrite !merge_issues.
    cbn [snd app]. rewrite !in_app_iff. tauto. }
  unfold RequestSchema, Index.RequestSchema, Zod.z_refine, Zod.add_check.
  fold RequestObject.
  destruct (RequestObject [] (Some (JObj fields))) as [[d|d|] iss];
    cbn [fst snd] in *; try destruct (prompt_rule d); cbn [snd];
    rewrite ?in_app_iff; auto.
Qed.

Lemma safeParse_issues body issues :
  Zod.safeParse RequestSchema (Some body) = inr issues ->
  issues = snd (RequestSchema [] (Some body)).
Proof.
  unfold Zod.safeParse.
  destruct (RequestSchema [] (Some body)) as [[d|d|] iss]; cbn [snd];
    congruence.
Qed.

(** A key that is not valid makes the body invalid. *)
Lemma safeParse_rejects fields :
  (forall u, fst (parsed_url fields) <> Zod.ok u) \/
  (forall a, fst (parsed_action fields) <> Zod.ok a) \/
  (forall p, fst (parsed_prompt fields) <> Zod.ok p) \/
  (forall m, fst (parsed_model fields) <> Zod.ok m) \/
  (forall r, fst (parsed_renderOptions fields) <> Zod.ok r) ->
  exists issues,
    Zod.safeParse RequestSchema (Some (JObj fields)) = inr issues.
Proof.
  intros Hbad.
  destruct (Zod.safeParse RequestSchema (Some (JObj fields))) as [d|issues] eqn:E;
    [exfalso | eauto].
  apply safeParse_valid in E. destruct E as (f & [= <-] & Hd & _).
  apply RequestObject_ok in Hd. destruct Hd as (Hu & Ha & Hp & Hm & Hr).
  destruct Hbad as [H|[H|[H|[H|H]]]]; eapply H; eassumption.
Qed.

Lemma rejected_request request env body issues :
  method request = js "POST" -> body_json request = Normal body ->
  Zod.safeParse RequestSchema (Some body) = inr issues ->
  run (fetch request env)
  = (Normal (validation_failure issues),
     [entry_ok Date_now; entry_ok Request_json]).
Proof. apply fetch_invalid. Qed.


(** X22: a url that is a string but no URL is reported under [url] with
    the message of the schema: the handler answers 400 with the validation
    envelope, whose field errors list [A valid URL is required.] under
    [url], whatever the other keys are, and makes no remote call. *)
Theorem url_that_is_no_url_is_a_field_error request env fields u :
  method request = js "POST" ->
  body_json request = Normal (JObj fields) ->
  obj_get (js "url") fields = Some (JStr u) ->
  URL_valid u = false ->
  exists issues,
    run (fetch request env)
    = (Normal (validation_failure issues),
       [entry_ok Date_now; entry_ok Request_json]) /\
    status (validation_failure issues) = 400%Z /\
    In url_issue issues /\
    field_has (Zod.field_errors issues) (js "url")
              (js "A valid URL is required.").
Proof.
  intros Hm Hb Hu Hv.
  assert (Hp : parsed_url fields = (Zod.dirty u, [url_issue])).
  { unfold Index.parsed_url, Zod.key, Zod.z_string_url, Zod.add_check.
    rewrite Hu. cbn. now rewrite Hv. }
  destruct (safeParse_rejects fields) as (issues & Hs).
  { left. intros u'. rewrite Hp. discriminate. }
  exists issues.
  split; [now apply rejected_request with (body := JObj fields)|].
  split; [reflexivity|].
  assert (Hi : In url_issue issues).
  { rewrite (safeParse_issues _ _ Hs). apply RequestSchema_issues.
    left. rewrite Hp. left. reflexivity. }
  split; [exact Hi|].
  unfold Zod.field_errors.
  exact (flatten_from_has url_issue (js "url") [] issues [] [] Hi eq_refl).
Qed.

(** X23: an action outside the three names is refused: when [action] is a
    string that is none of [analyze_image], [summarize_text] and
    [extract_html], compared as they are written, the handler answers 400
    with the validation envelope and makes no remote call. *)
Theorem unknown_action_is_refused request env fields a :
  method request = js "POST" ->
  body_json request = Normal (JObj fields) ->
  obj_get (js "action") fields = Some (JStr a) ->
  ~ In a action_names ->
  exists issues,
    run (fetch request env)
    = (Normal (validation_failure issues),
       [entry_ok Date_now; entry_ok Request_json]) /\
    status (validation_failure issues) = 400%Z /\
    exists i, In i issues /\ Zod.path i = [js "action"].
Proof.
  intros Hm Hb Ha Hn.
  assert (Hp : parsed_action fields
               = (Zod.aborted,
                  [Zod.mk_issue default_message
                     (Zod.invalid_enum_value action_names a) [js "action"]])).
  { unfold Index.parsed_action, Zod.key, Zod.z_enum. rewrite Ha. cbn [find fst].
    destruct (jseqb a (js "analyze_image")) eqn:E1;
      [apply jseqb_eq in E1; destruct Hn; left; auto|].
    destruct (jseqb a (js "summarize_text")) eqn:E2;
      [apply jseqb_eq in E2; destruct Hn; right; left; auto|].
    destruct (jseqb a (js "extract_html")) eqn:E3;
      [apply jseqb_eq in E3; destruct Hn; right; right; left; auto|].
    reflexivity. }
  destruct (safeParse_rejects fields) as (issues & Hs).
  { right; left. intros a'. rewrite Hp. discriminate. }
  exists issues.
  split; [now apply rejected_request with (body := JObj fields)|].
  split; [reflexivity|].
  eexists. split.
  - rewrite (safeParse_issues _ _ Hs). apply RequestSchema_issues.
    right; left. rewrite Hp. left. reflexivity.
  - reflexivity.
Qed.

(** X24: a body that parses as JSON but is no object is a client error:
    for [null], a boolean, a number, a string or an array the handler answers
    400 with the validation envelope, whose one issue is at the top of the
    body, so it is listed among the form errors and no field has an error;
    no remote call is made. *)
Theorem body_that_is_no_object_is_refused request env body :
  method request = js "POST" ->
  body_json request = Normal body ->
  (forall fields, body <> JObj fields) ->
  exists i,
    run (fetch request env)
    = (Normal (validation_failure [i]),
       [entry_ok Date_now; entry_ok Request_json]) /\
    status (validation_failure [i]) = 400%Z /\
    Zod.path i = [] /\
    Zod.form_errors [i] = [Zod.message i] /\
    Zod.field_errors [i] = [].
Proof.
  intros Hm Hb Hn.
  exists (Zod.mk_issue default_message
            (Zod.invalid_type (js "object") (Some body)) []).
  split; [|repeat split].
  apply rejected_request with (body := body); [assumption | assumption |].
  destruct body as [| | | | |fields]; try reflexivity. now destruct (Hn fields).
Qed.

Lemma valid_prompt body d :
  Zod.safeParse RequestSchema (Some body) = inl d ->
  action d = analyze_image ->
  exists c p, prompt d = Some (c :: p).
Proof.
  intros Hs Ha. apply safeParse_valid in Hs.
  destruct Hs as (f & _ & _ & Hr). unfold prompt_rule in Hr. rewrite Ha in Hr.
  destruct (prompt d) as [[|c p]|]; try discriminate Hr. eauto.
Qed.

Lemma analyze_run request env body d p bytes ai :
  method request = js "POST" -> body_json request = Normal body ->
  Zod.safeParse RequestSchema (Some body) = inl d ->
  action d = analyze_image ->
  prompt d = Some p ->
  browser_succeeds (BROWSER env) ->
  screenshot (BROWSER env) (fullPage (renderOptions d)) = Normal bytes ->
  AI env (model d) (image_inputs p bytes) = Normal ai ->
  run (fetch request env) =
  match member ai (js "response") with
  | Normal response =>
      (Normal (success d [(js "aiResponse", response)] (now env 0) (now env 1)),
       [entry_ok Date_now; entry_ok Request_json]
       ++ nav_trace (url d) (renderOptions d)
       ++ [entry_ok (Page_screenshot (fullPage (renderOptions d)));
           entry_ok (AI_run (model d) (image_inputs p bytes));
           entry_ok Browser_close; entry_ok Date_now])
  | Raise e =>
      (Normal (internal_error e),
       [entry_ok Date_now; entry_ok Request_json]
       ++ nav_trace (url d) (renderOptions d)
       ++ [entry_ok (Page_screenshot (fullPage (renderOptions d)));
           entry_ok (AI_run (model d) (image_inputs p bytes));
           console_entry e])
  end.
Proof.
  intros Hm Hb Hs Ha Hp Hok Hshot Hai. unfold fetch, Index.fetch.
  rewrite Hm, jseqb_refl. cbn [negb].
  unfold run, bind, try_catch, perform, ret. rewrite Hb.
  fold RequestSchema. rewrite Hs. unfold run_action. rewrite Ha.
  unfold bind, perform, ret, lift. rewrite launchAndNavigate_ok by assumption.
  rewrite Hshot, Hp. cbn [option_map fields_of]. fold (image_inputs p bytes).
  rewrite Hai. cbn [raised_of].
  destruct Hok as (_ & _ & _ & _ & _ & Hc).
  destruct (member ai (js "response")) as [response|e].
  - rewrite Hc. cbn [raised_of]. rewrite <- !app_assoc. reflexivity.
  - unfold console_entry, entry_ok. rewrite <- !app_assoc. reflexivity.
Qed.


(** X25: the image analysis sends the prompt and the screenshot to the model
    the request names.  A valid analyze_image request has a prompt that is
    not empty, so the handler may assert it; when the browser and the model
    answer, the calls are those of the navigation, the screenshot, one model
    call on the model of the request, with the prompt and the bytes of the
    screenshot as inputs, and the close.  The response is 200 with the
    [response] of the model as [data.aiResponse] and the model of the request
    as [metadata.modelUsed]. *)
Theorem image_analysis_sends_prompt_and_screenshot request env body d :
  method request = js "POST" -> body_json request = Normal body ->
  Zod.safeParse RequestSchema (Some body) = inl d ->
  action d = analyze_image ->
  exists p,
    prompt d = Some p /\ p <> [] /\
    forall bytes ai response,
      browser_succeeds (BROWSER env) ->
      screenshot (BROWSER env) (fullPage (renderOptions d)) = Normal bytes ->
      AI env (model d) (image_inputs p bytes) = Normal ai ->
      member ai (js "response") = Normal (Some response) ->
      exists r,
        run (fetch request env)
        = (Normal r,
           [entry_ok Date_now; entry_ok Request_json]
           ++ nav_trace (url d) (renderOptions d)
           ++ [entry_ok (Page_screenshot (fullPage (renderOptions d)));
               entry_ok (AI_run (model d) (image_inputs p bytes));
               entry_ok Browser_close; entry_ok Date_now]) /\
        status r = 200%Z /\
        body_member r "data" "aiResponse" = Some response /\
        body_member r "metadata" "modelUsed" = Some (JStr (model d)).
Proof.
  intros Hm Hb Hs Ha.
  destruct (valid_prompt body d Hs Ha) as (c & p & Hp).
  exists (c :: p). split; [exact Hp|]. split; [discriminate|].
  intros bytes ai response Hok Hshot Hai Hr.
  rewrite (analyze_run request env body d (c :: p) bytes ai)
    by assumption.
  rewrite Hr. eexists. split; [reflexivity|]. repeat split.
Qed.

(** X26: a model answer without a [response] is still reported as a
    success.  When the model of a summarize_text or analyze_image request
    answers with a value that has no [response], the handler answers 200 and
    [data] has no [aiResponse]; when the model answers [null] or [undefined],
    reading the [response] raises, the handler answers 500, and the browser
    is not closed. *)
Theorem model_answer_without_response request env body d ai :
  method request = js "POST" -> body_json request = Normal body ->
  Zod.safeParse RequestSchema (Some body) = inl d ->
  browser_succeeds (BROWSER env) ->
  (action d = summarize_text /\
   exists pageText,
     innerText (BROWSER env) = Normal pageText /\
     AI env textModel (JObj [(js "prompt", JStr (summarizationPrompt pageText))])
     = Normal ai) \/
  (action d = analyze_image /\
   exists p bytes,
     prompt d = Some p /\
     screenshot (BROWSER env) (fullPage (renderOptions d)) = Normal bytes /\
     AI env (model d) (image_inputs p bytes) = Normal ai) ->
  (member ai (js "response") = Normal None ->
   exists r,
     fst (run (fetch request env)) = Normal r /\ status r = 200%Z /\
     body_member r "data" "aiResponse" = None /\
     count_calls is_close (snd (run (fetch request env))) = 1) /\
  (forall e,
      member ai (js "response") = Raise e ->
      fst (run (fetch request env)) = Normal (internal_error e) /\
      count_calls is_close (snd (run (fetch request env))) = 0).
Proof.
  intros Hm Hb Hs Hok [(Ha & pageText & Ht & Hai)|(Ha & p & bytes & Hp & Hshot & Hai)].
  - split.
    + intros Hr. unfold fetch.
      rewrite (summarize_run default_message URL_valid request env body d
                             pageText ai None) by assumption.
      eexists. split; [reflexivity|]. split; [reflexivity|].
      split; [reflexivity|]. cbn [snd].
      rewrite !count_calls_app.
      assert (Hn : count_calls is_close (nav_trace (url d) (renderOptions d)) = 0).
      { unfold nav_trace.
        destruct (viewport (renderOptions d)) as [[w h]|];
          destruct (waitForSelector (renderOptions d)) as [[|c sel]|];
          reflexivity. }
      rewrite Hn. reflexivity.
    + intros e Hr. unfold fetch, Index.fetch.
      rewrite Hm, jseqb_refl. cbn [negb].
      unfold run, bind, try_catch, perform, ret. rewrite Hb.
      fold RequestSchema. rewrite Hs. unfold run_action. rewrite Ha.
      unfold bind, perform, ret, lift.
      rewrite launchAndNavigate_ok by assumption.
      rewrite Ht, Hai, Hr. cbn [raised_of fst snd]. split; [reflexivity|].
      rewrite !count_calls_app.
      assert (Hn : count_calls is_close (nav_trace (url d) (renderOptions d)) = 0).
      { unfold nav_trace.
        destruct (viewport (renderOptions d)) as [[w h]|];
          destruct (waitForSelector (renderOptions d)) as [[|c sel]|];
          reflexivity. }
      rewrite Hn. reflexivity.
  - rewrite (analyze_run request env body d p bytes ai) by assumption.
    assert (Hn : count_calls is_close (nav_trace (url d) (renderOptions d)) = 0).
    { unfold nav_trace.
      destruct (viewport (renderOptions d)) as [[w h]|];
        destruct (waitForSelector (renderOptions d)) as [[|c sel]|];
        reflexivity. }
    split.
    + intros Hr. rewrite Hr. eexists. split; [reflexivity|].
      split; [reflexivity|]. split; [reflexivity|]. cbn [snd].
      rewrite !count_calls_app, Hn. reflexivity.
    + intros e Hr. rewrite Hr. split; [reflexivity|]. cbn [snd].
      rewrite !count_calls_app, Hn. reflexivity.
Qed.

(** X27: an empty prompt is refused like a missing one.  A POST whose
    body is an object with action analyze_image and the empty string as
    prompt never validates: the handler answers 400 and makes no remote call;
    when the parse of the object does not abort, the details list the message
    of the refinement under the field [prompt]. *)
Theorem empty_prompt_is_refused request env fields :
  method request = js "POST" ->
  body_json request = Normal (JObj fields) ->
  obj_get (js "action") fields = Some (JStr (js "analyze_image")) ->
  obj_get (js "prompt") fields = Some (JStr []) ->
  exists issues,
    run (fetch request env)
    = (Normal (validation_failure issues),
       [entry_ok Date_now; entry_ok Request_json]) /\
    status (validation_failure issues) = 400%Z /\
    (Zod.is_aborted (fst (RequestObject [] (Some (JObj fields)))) = false ->
     In prompt_issue issues /\
     field_has (Zod.field_errors issues) (js "prompt")
               (js "A `prompt` is required when `action` is `analyze_image`.")).
Proof.
  intros Hm Hb Ha Hp.
  assert (Hpp : parsed_prompt fields = (Zod.ok (Some []), [])).
  { unfold Index.parsed_prompt, Zod.key. now rewrite Hp. }
  assert (prompt_rule_fails : forall d,
            fst (RequestObject [] (Some (JObj fields))) = Zod.ok d \/
            fst (RequestObject [] (Some (JObj fields))) = Zod.dirty d ->
            prompt_rule d = false).
  { intros d V. apply RequestObject_value in V.
    destruct V as (u & a & p & m & r & Hd & _ & Hact & Hpr & _). subst d.
    rewrite (parsed_action_analyze _ _ Ha) in Hact.
    rewrite Hpp in Hpr. cbn in Hact, Hpr.
    destruct Hact as [[= <-]|[=]]. destruct Hpr as [[= <-]|[=]]. reflexivity. }
  assert (Hs : exists issues,
             Zod.safeParse RequestSchema (Some (JObj fields)) = inr issues /\
             (Zod.is_aborted (fst (RequestObject [] (Some (JObj fields)))) = false ->
              In prompt_issue issues)).
  { unfold Zod.safeParse, RequestSchema, Index.RequestSchema, Zod.z_refine.
    fold RequestObject. unfold Zod.add_check.
    destruct (RequestObject [] (Some (JObj fields))) as [[d|d|] iss] eqn:E;
      cbn [fst snd] in *.
    - rewrite (prompt_rule_fails d); [|auto].
      eexists; split; [reflexivity|].
      intros _; apply in_or_app; right; left; reflexivity.
    - rewrite (prompt_rule_fails d); [|auto].
      eexists; split; [reflexivity|].
      intros _; apply in_or_app; right; left; reflexivity.
    - eexists; split; [reflexivity | discriminate]. }
  destruct Hs as (issues & Hs & Hi). exists issues.
  split; [now apply rejected_request with (body := JObj fields)|].
  split; [reflexivity|].
  intros Hna. split; [now apply Hi|].
  unfold Zod.field_errors.
  exact (flatten_from_has prompt_issue (js "prompt") [] issues [] []
                          (Hi Hna) eq_refl).
Qed.

Lemma valid_url fields d u :
  Zod.safeParse RequestSchema (Some (JObj fields)) = inl d ->
  obj_get (js "url") fields = Some (JStr u) -> url d = u.
Proof.
  intros Hs Hu. apply safeParse_valid in Hs.
  destruct Hs as (f & [= <-] & Hd & _).
  apply RequestObject_ok in Hd. destruct Hd as (Hurl & _).
  unfold Index.parsed_url, Zod.key, Zod.z_string_url, Zod.add_check in Hurl.
  rewrite Hu in Hurl. cbn in Hurl.
  destruct (URL_valid u); cbn in Hurl; congruence.
Qed.

Lemma valid_action fields d a :
  Zod.safeParse RequestSchema (Some (JObj fields)) = inl d ->
  obj_get (js "action") fields = Some (JStr a) -> action_name (action d) = a.
Proof.
  intros Hs Ha. apply safeParse_valid in Hs.
  destruct Hs as (f & [= <-] & Hd & _).
  apply RequestObject_ok in Hd. destruct Hd as (_ & Hact & _).
  unfold Index.parsed_action, Zod.key, Zod.z_enum in Hact.
  rewrite Ha in Hact. cbn [find fst snd] in Hact.
  destruct (jseqb a (js "analyze_image")) eqn:E1.
  { apply jseqb_eq in E1. cbn in Hact. injection Hact as <-. now subst a. }
  destruct (jseqb a (js "summarize_text")) eqn:E2.
  { apply jseqb_eq in E2. cbn in Hact. injection Hact as <-. now subst a. }
  destruct (jseqb a (js "extract_html")) eqn:E3.
  { apply jseqb_eq in E3. cbn in Hact. injection Hact as <-. now subst a. }
  discriminate Hact.
Qed.

(** X28: a success reports what was asked and how long it took.  The
    metadata of a response with status 200 hold the url and the action as the
    body gave them, the url not normalised, and as execution time the
    difference of the two readings of the clock, the one before the body is
    read and the one after the browser is closed. *)
Theorem success_metadata_echo_the_request request env fields d r u a :
  method request = js "POST" ->
  body_json request = Normal (JObj fields) ->
  Zod.safeParse RequestSchema (Some (JObj fields)) = inl d ->
  obj_get (js "url") fields = Some (JStr u) ->
  obj_get (js "action") fields = Some (JStr a) ->
  fst (run (fetch request env)) = Normal r -> status r = 200%Z ->
  body_member r "metadata" "url" = Some (JStr u) /\
  body_member r "metadata" "action" = Some (JStr a) /\
  body_member r "metadata" "executionTimeMs"
  = Some (JNum (inject_Z (now env 1 - now env 0))).
Proof.
  intros Hm Hb Hs Hu Ha Hr Hst.
  pose proof (valid_url fields d u Hs Hu) as Eu.
  pose proof (valid_action fields d a Hs Ha) as Ea.
  destruct (fetch_valid default_message URL_valid request env _ d Hm Hb Hs)
    as (r' & t' & tail & E & Hf & Hcases).
  unfold fetch in *. rewrite E in *. cbn [fst snd] in *. injection Hr as ->.
  destruct Hcases as [(cl & -> & data & Hd & ->)|(e & -> & _)];
    [|discriminate Hst].
  assert (Hmeta : forall k v,
             obj_get (js k)
               (fields_of
                  [(js "url", Some (JStr (url d)));
                   (js "action", Some (JStr (action_name (action d))));
                   (js "modelUsed",
                    js_or (obj_get (js "modelUsed") (fields_of data))
                          (Some (JStr (model d))));
                   (js "executionTimeMs",
                    Some (JNum (inject_Z (now env 1 - now env 0))))]) = v ->
             body_member (success d data (now env 0) (now env 1)) "metadata" k
             = v).
  { intros k v <-. reflexivity. }
  assert (Hused : exists v,
             js_or (obj_get (js "modelUsed") (fields_of data))
                   (Some (JStr (model d))) = Some v).
  { unfold js_or.
    destruct (obj_get (js "modelUsed") (fields_of data)) as [v0|];
      [destruct (truthy (Some v0))|]; cbn; eauto. }
  destruct Hused as (v & Hv).
  split; [|split].
  - apply Hmeta. rewrite Hv, Eu. reflexivity.
  - apply Hmeta. rewrite Hv, Ea. reflexivity.
  - apply Hmeta. rewrite Hv. reflexivity.
Qed.

(** ** Navigation comes first *)

Lemma nav_trace_reads_nothing url o :
  Forall (fun y => reads_page (what y) = false) (nav_trace url o).
Proof.
  unfold nav_trace.
  destruct (viewport o) as [[w h]|]; destruct (waitForSelector o) as [[|c sel]|];
    repeat constructor.
Qed.

Lemma launchAndNavigate_cases env url o t :
  launchAndNavigate env url o t = (Normal tt, t ++ nav_trace url o) \/
  exists e t',
    launchAndNavigate env url o t = (Raise e, t ++ t') /\
    Forall (fun y => reads_page (what y) = false) t'.
Proof.
  unfold launchAndNavigate, nav_trace, bind, perform, ret.
  destruct (launch (BROWSER env)) as [[]|e]; cbn [raised_of].
  2: { right. eexists _, _. split; [reflexivity|]. repeat constructor. }
  destruct (newPage (BROWSER env)) as [[]|e]; cbn [raised_of].
  2: { right. eexists _, _. rewrite <- app_assoc. split; [reflexivity|].
       repeat constructor. }
  destruct (viewport o) as [[w h]|].
  - destruct (setViewport (BROWSER env) w h) as [[]|e]; cbn [raised_of].
    2: { right. eexists _, _. rewrite <- !app_assoc. split; [reflexivity|].
         repeat constructor. }
    destruct (goto (BROWSER env) (JStr url)) as [[]|e]; cbn [raised_of].
    2: { right. eexists _, _. rewrite <- !app_assoc. split; [reflexivity|].
         repeat constructor. }
    destruct (waitForSelector o) as [[|c sel]|].
    + left. rewrite <- !app_assoc. reflexivity.
    + destruct (waitFor (BROWSER env) (c :: sel)) as [[]|e]; cbn [raised_of].
      * left. rewrite <- !app_assoc. reflexivity.
      * right. eexists _, _. rewrite <- !app_assoc. split; [reflexivity|].
        repeat constructor.
    + left. rewrite <- !app_assoc. reflexivity.
  - destruct (goto (BROWSER env) (JStr url)) as [[]|e]; cbn [raised_of].
    2: { right. eexists _, _. rewrite <- !app_assoc. split; [reflexivity|].
         repeat constructor. }
    destruct (waitForSelector o) as [[|c sel]|].
    + left. rewrite <- !app_assoc. reflexivity.
    + destruct (waitFor (BROWSER env) (c :: sel)) as [[]|e]; cbn [raised_of].
      * left. rewrite <- !app_assoc. reflexivity.
      * right. eexists _, _. rewrite <- !app_assoc. split; [reflexivity|].
        repeat constructor.
    + left. rewrite <- !app_assoc. reflexivity.
Qed.

Lemma run_action_cases env d t :
  (exists o tail,
      run_action env d t
      = (o, t ++ nav_trace (url d) (renderOptions d) ++ tail)) \/
  (exists e t',
      run_action env d t = (Raise e, t ++ t') /\
      Forall (fun y => reads_page (what y) = false) t').
Proof.
  unfold run_action.
  destruct (launchAndNavigate_cases env (url d) (renderOptions d) t)
    as [E|(e & t' & E & F)].
  2: { right. exists e, t'. split; [|exact F].
       destruct (action d); unfold bind at 1; rewrite E; reflexivity. }
  left. destruct (action d); unfold bind at 1; rewrite E.
  - unfold bind, perform, lift, ret.
    destruct (screenshot (BROWSER env) (fullPage (renderOptions d)))
      as [buf|e0]; cbn [raised_of].
    2: { eexists _, _. rewrite <- app_assoc. reflexivity. }
    match goal with
    | |- context [AI env ?m ?i] => destruct (AI env m i) as [ai|e1]
    end; cbn [raised_of].
    2: { eexists _, _. rewrite <- !app_assoc. reflexivity. }
    destruct (member ai (js "response"));
      eexists _, _; rewrite <- !app_assoc; reflexivity.
  - unfold bind, perform, lift, ret.
    destruct (innerText (BROWSER env)) as [pageText|e0]; cbn [raised_of].
    2: { eexists _, _. rewrite <- app_assoc. reflexivity. }
    match goal with
    | |- context [AI env ?m ?i] => destruct (AI env m i) as [ai|e1]
    end; cbn [raised_of].
    2: { eexists _, _. rewrite <- !app_assoc. reflexivity. }
    destruct (member ai (js "response"));
      eexists _, _; rewrite <- !app_assoc; reflexivity.
  - unfold bind, perform, lift, ret.
    destruct (content (BROWSER env)) as [html|e0]; cbn [raised_of];
      eexists _, _; rewrite <- !app_assoc; reflexivity.
Qed.

Lemma fetch_trace_cases request env body d :
  method request = js "POST" -> body_json request = Normal body ->
  Zod.safeParse RequestSchema (Some body) = inl d ->
  exists o t,
    run (fetch request env) = (o, t) /\
    ((exists tail,
         t = [entry_ok Date_now; entry_ok Request_json]
             ++ nav_trace (url d) (renderOptions d) ++ tail) \/
     Forall (fun y => reads_page (what y) = false) t).
Proof.
  intros Hm Hb Hs. unfold fetch, Index.fetch.
  rewrite Hm, jseqb_refl. cbn [negb].
  unfold run. unfold bind at 1. unfold perform at 1. unfold try_catch.
  unfold bind at 1. unfold perform at 1. rewrite Hb.
  fold RequestSchema. rewrite Hs. cbn [raised_of app].
  unfold bind at 1.
  change [{| what := Date_now; raised := None |};
          {| what := Request_json; raised := None |}]
    with [entry_ok Date_now; entry_ok Request_json].
  destruct (run_action_cases env d [entry_ok Date_now; entry_ok Request_json])
    as [(o & tail & E)|(e & t' & E & F)]; rewrite E.
  - destruct o as [data|e].
    + unfold bind, perform, ret. cbn [raised_of].
      destruct (close (BROWSER env)) as [[]|e]; cbn [snd];
        rewrite <- !app_assoc; eexists _, _; (split; [reflexivity|]);
        left; eexists; reflexivity.
    + unfold bind, perform, ret. cbn [raised_of snd].
      rewrite <- !app_assoc. eexists _, _. split; [reflexivity|].
      left. eexists. reflexivity.
  - unfold bind, perform, ret. cbn [raised_of snd].
    eexists _, _. split; [reflexivity|]. right.
    rewrite <- app_assoc. cbn [app]. repeat constructor.
    apply Forall_app. split; [exact F | repeat constructor].
Qed.

(** X29: the page is read, and the model consulted, only after the
    navigation went through.  If the trace of a valid request holds a
    screenshot, a reading of the text or of the markup, or a model call, then
    it starts with the reading of the clock and of the body followed by the
    whole navigation, each call of it answered: the launch, the page, the
    viewport when one is given, the load of the url until the network is
    idle, and the wait for the selector when one is given; the call comes
    after them. *)
Theorem page_is_read_only_after_navigation request env body d x :
  method request = js "POST" -> body_json request = Normal body ->
  Zod.safeParse RequestSchema (Some body) = inl d ->
  In x (snd (run (fetch request env))) -> reads_page (what x) = true ->
  exists tail,
    snd (run (fetch request env))
    = [entry_ok Date_now; entry_ok Request_json]
      ++ nav_trace (url d) (renderOptions d) ++ tail /\
    In x tail.
Proof.
  intros Hm Hb Hs.
  destruct (fetch_trace_cases request env body d Hm Hb Hs)
    as (o & t & -> & [(tail & ->)|F]); cbn [snd]; intros Hx Hr.
  - exists tail. split; [reflexivity|]. cbn [app In] in Hx.
    destruct Hx as [<-|[<-|Hx]]; try discriminate Hr.
    apply in_app_or in Hx. destruct Hx as [Hx|Hx]; [|exact Hx].
    pose proof (nav_trace_reads_nothing (url d) (renderOptions d)) as Fn.
    rewrite Forall_forall in Fn. rewrite (Fn x Hx) in Hr. discriminate.
  - rewrite Forall_forall in F. rewrite (F x Hx) in Hr. discriminate.
Qed.

(** ** The viewport *)

Lemma number_ok p q v :
  fst (Zod.z_number_int_positive default_message p (Some (JNum q))) = Zod.ok v ->
  positive_integer q = true.
Proof.
  unfold Zod.z_number_int_positive, Zod.add_check, positive_integer.
  cbn [fst snd].
  destruct (Zod.is_integer q); cbn [fst snd andb];
    destruct (Zod.is_positive q); cbn [fst snd]; intros H;
    try reflexivity; discriminate H.
Qed.

(** X30: a viewport must hold positive integers.  When the render options
    of the body give a viewport whose width or height is a number that is not
    a positive integer, the handler answers 400 with the validation envelope,
    and no browser is launched. *)
Theorem viewport_must_hold_positive_integers request env fields ro vp q :
  method request = js "POST" ->
  body_json request = Normal (JObj fields) ->
  obj_get (js "renderOptions") fields = Some (JObj ro) ->
  obj_get (js "viewport") ro = Some (JObj vp) ->
  obj_get (js "width") vp = Some (JNum q) \/
  obj_get (js "height") vp = Some (JNum q) ->
  positive_integer q = false ->
  exists issues,
    run (fetch request env)
    = (Normal (validation_failure issues),
       [entry_ok Date_now; entry_ok Request_json]) /\
    status (validation_failure issues) = 400%Z /\
    count_calls is_launch (snd (run (fetch request env))) = 0.
Proof.
  intros Hm Hb Hro Hvp Hq Hbad.
  destruct (safeParse_rejects fields) as (issues & Hs).
  { right; right; right; right. intros r Hr.
    unfold Index.parsed_renderOptions, Zod.key, Zod.z_optional_default in Hr.
    rewrite Hro in Hr.
    unfold Index.RenderOptionsSchema, Zod.z_object in Hr. cbn [Zod.is_object] in Hr.
    apply merge_ok in Hr. destruct Hr as (g3 & s & Hr & _ & _).
    apply merge_ok in Hr. destruct Hr as (g2 & f & Hr & _ & _).
    apply merge_ok in Hr. destruct Hr as (g1 & v & _ & Hv & _).
    unfold Zod.key, Zod.z_optional in Hv. rewrite Hvp in Hv.
    unfold Zod.map_parsed in Hv. cbn [fst] in Hv.
    destruct (fst (Index.ViewportSchema default_message _ (Some (JObj vp))))
      as [wh|wh|] eqn:Ev; try discriminate Hv.
    unfold Index.ViewportSchema, Zod.z_object in Ev. cbn [Zod.is_object] in Ev.
    apply merge_ok in Ev. destruct Ev as (h2 & hh & Ev & Hh & _).
    apply merge_ok in Ev. destruct Ev as (h1 & ww & _ & Hw & _).
    unfold Zod.key in Hw, Hh.
    destruct Hq as [Hq|Hq].
    - rewrite Hq in Hw. apply number_ok in Hw. congruence.
    - rewrite Hq in Hh. apply number_ok in Hh. congruence. }
  exists issues.
  rewrite (rejected_request request env (JObj fields) issues Hm Hb Hs).
  repeat split.
Qed.

End IndexFurther.



(* ================================================================= *)
(** * The further properties on concrete requests *)

(** X5 at a preflight for a path the worker does not serve. *)
Lemma requests_are_routed_by_method_then_path_witness :
  run (Scenarios.assistant_fetch (Scenarios.request_to "OPTIONS" "/nowhere" JNull)
                                 Scenarios.assistant_env [])
  = (Normal (Assistant.preflight, []), []).
Proof.
  exact (proj1 (requests_are_routed_by_method_then_path
                  Examples.http_url_value Scenarios.to_string
                  (Scenarios.request_to "OPTIONS" "/nowhere" JNull)
                  Scenarios.assistant_env [])
               eq_refl).
Defined.

(** X6 at a prompt of three spaces. *)
Lemma blank_prompt_is_refused_witness :
  run (Scenarios.assistant_fetch
         (Scenarios.request_to "POST" "/generate"
                               (Scenarios.body_prompt (js "   ")))
         Scenarios.assistant_env [])
  = (Normal (Assistant.prompt_required, []), [entry_ok Request_json]).
Proof.
  exact (proj1 (blank_prompt_is_refused
                  Examples.http_url_value Scenarios.to_string
                  (Scenarios.request_to "POST" "/generate"
                                        (Scenarios.body_prompt (js "   ")))
                  Scenarios.assistant_env []
                  (Scenarios.body_prompt (js "   "))
                  (Some (JStr (js "   ")))
                  eq_refl eq_refl eq_refl eq_refl
                  ltac:(right; exists (js "   ");
                        split; [reflexivity | repeat constructor]))).
Defined.


(** X8 at a prompt that is the number 5. *)
Lemma prompt_that_is_no_string_is_a_server_error_witness :
  exists m,
    fst (run (Scenarios.assistant_fetch
                (Scenarios.request_to "POST" "/generate"
                                      Scenarios.body_prompt_number)
                Scenarios.assistant_env []))
    = Normal (Assistant.generation_failure (JSError (js "TypeError") m), []).
Proof.
  destruct (prompt_that_is_no_string_is_a_server_error
              Examples.http_url_value Scenarios.to_string
              (Scenarios.request_to "POST" "/generate"
                                    Scenarios.body_prompt_number)
              Scenarios.assistant_env []
              Scenarios.body_prompt_number (JNum (inject_Z 5))
              eq_refl eq_refl eq_refl eq_refl eq_refl ltac:(discriminate))
    as (m & E & _).
  exists m. exact (f_equal fst E).
Defined.

(** X9 at a feedback without a type. *)
Lemma feedback_needs_message_and_type_witness :
  run (Scenarios.assistant_fetch
         (Scenarios.request_to "POST" "/feedback"
                               Scenarios.body_feedback_no_type)
         Scenarios.assistant_env [])
  = (Normal (Assistant.feedback_required, []), [entry_ok Request_json]).
Proof.
  exact (proj1 (feedback_needs_message_and_type
                  Examples.http_url_value Scenarios.to_string
                  (Scenarios.request_to "POST" "/feedback"
                                        Scenarios.body_feedback_no_type)
                  Scenarios.assistant_env []
                  Scenarios.body_feedback_no_type
                  (Some (JStr (js "m-42"))) None
                  eq_refl eq_refl eq_refl eq_refl eq_refl
                  (or_intror eq_refl))).
Defined.

(** X10 at a good feedback for the message m-42, which has an earlier
    feedback in the namespace, and at a message id that is an object without
    a conversion. *)
Lemma feedback_is_stored_under_the_message_key_witness :
  (exists kv',
      fst (run (Scenarios.assistant_fetch
                  (Scenarios.request_to "POST" "/feedback"
                                        Scenarios.body_feedback)
                  Scenarios.assistant_env Scenarios.kv_earlier))
      = Normal (Assistant.feedback_stored, kv') /\
      Assistant.KV_get (js "feedback:m-42") kv'
      = Some (JObj [(js "feedbackType", JStr (js "good"));
                    (js "comment", JNull);
                    (js "timestamp", JStr (js "2025-03-07T00:00:00.000Z"))]) /\
      Assistant.KV_get (js "feedback:m-41") kv'
      = Some (JObj [(js "feedbackType", JStr (js "bad"))])) /\
  run (Scenarios.assistant_fetch
         (Scenarios.request_to "POST" "/feedback"
                               Scenarios.body_feedback_object_id)
         Scenarios.assistant_env Scenarios.kv_earlier)
  = (Normal (Assistant.feedback_failure
               (JSError (js "TypeError")
                        (js "Cannot convert object to primitive value")),
             Scenarios.kv_earlier),
     [entry_ok Request_json; entry_ok Date_toISOString;
      entry_ok (Console_error
                  [LogStr (js "Error submitting feedback:");
                   LogExn (JSError (js "TypeError")
                             (js "Cannot convert object to primitive value"))])]).
Proof.
  split.
  - destruct (proj1 (proj2 (proj2
                (feedback_is_stored_under_the_message_key
                   Examples.http_url_value Scenarios.to_string
                   (Scenarios.request_to "POST" "/feedback"
                                         Scenarios.body_feedback)
                   Scenarios.assistant_env Scenarios.kv_earlier
                   Scenarios.body_feedback
                   (JStr (js "m-42")) (JStr (js "good")) None
                   eq_refl eq_refl eq_refl eq_refl eq_refl eq_refl
                   eq_refl eq_refl)))
                (js "feedback:m-42") eq_refl eq_refl)
      as (kv' & E & _ & G & F).
    exists kv'. split; [exact (f_equal fst E)|]. split; [exact G|].
    rewrite (F (js "feedback:m-41") ltac:(discriminate)). reflexivity.
  - exact (proj1 (proj2 (proj2 (proj2 (proj2
             (feedback_is_stored_under_the_message_key
                Examples.http_url_value Scenarios.to_string
                (Scenarios.request_to "POST" "/feedback"
                                      Scenarios.body_feedback_object_id)
                Scenarios.assistant_env Scenarios.kv_earlier
                Scenarios.body_feedback_object_id
                (JObj [(js "toString", JNum (inject_Z 1))])
                (JStr (js "good")) None
                eq_refl eq_refl eq_refl eq_refl eq_refl eq_refl
                eq_refl eq_refl)))))
             (JSError (js "TypeError")
                      (js "Cannot convert object to primitive value"))
             ltac:(discriminate) eq_refl).
Defined.

(** X12 at a body without a url. *)
Lemma link_address_is_checked_before_launch_witness :
  run (Scenarios.analyze_link (Normal (JObj []))
                              (Examples.link_env (js "Some page text")))
  = (Normal LinkAnalysis.url_required, [entry_ok Request_json]).
Proof.
  exact (proj1 (link_address_is_checked_before_launch
                  Examples.http_url_value (Normal (JObj []))
                  (Examples.link_env (js "Some page text"))
                  (JObj []) None eq_refl eq_refl)
               eq_refl).
Defined.

(** X13 at the example address. *)
Lemma link_browser_is_closed_once_a_page_is_open_witness :
  count_calls is_launch
    (snd (run (Scenarios.analyze_link Examples.link_body
                 (Examples.link_env (js "Some page text"))))) = 1.
Proof.
  exact (proj1 (link_browser_is_closed_once_a_page_is_open
                  Examples.http_url_value Examples.link_body
                  (Examples.link_env (js "Some page text"))
                  (JObj [(js "url", JStr Examples.example_url)])
                  (JStr Examples.example_url)
                  eq_refl eq_refl eq_refl eq_refl)).
Defined.

(** X14 at an address the browser cannot reach. *)
Lemma link_page_failure_is_reported_witness :
  fst (run (Scenarios.analyze_link Examples.link_body
                                   Scenarios.link_env_unreachable))
  = Normal (LinkAnalysis.extraction_failure
              (JSError (js "Error") (js "net::ERR_NAME_NOT_RESOLVED"))).
Proof.
  exact (proj1 (proj2 (link_page_failure_is_reported
                         Examples.http_url_value Examples.link_body
                         Scenarios.link_env_unreachable
                         (JObj [(js "url", JStr Examples.example_url)])
                         (JStr Examples.example_url)
                         (JSError (js "Error") (js "net::ERR_NAME_NOT_RESOLVED"))
                         eq_refl eq_refl eq_refl eq_refl eq_refl eq_refl
                         (or_introl eq_refl)))
               eq_refl).
Defined.

(** X15 at the example address. *)
Lemma link_analysis_succeeds_witness :
  fst (run (Scenarios.analyze_link Examples.link_body
                                   (Examples.link_env (js "Some page text"))))
  = Normal
      (LinkAnalysis.json_response
         (JObj [(js "analysis", JStr (js "An analysis."));
                (js "originalUrl", JStr Examples.example_url);
                (js "timestamp", JStr (js "2025-03-07T00:00:00.000Z"))])
         200).
Proof.
  exact (f_equal fst
           (link_analysis_succeeds
              Examples.http_url_value Examples.link_body
              (Examples.link_env (js "Some page text"))
              (JObj [(js "url", JStr Examples.example_url)])
              (JStr Examples.example_url)
              (js "Some page text")
              (Some (JObj [(js "response", JStr (js "An analysis."))]))
              (Some (JStr (js "An analysis.")))
              eq_refl eq_refl eq_refl eq_refl
              (conj eq_refl (conj eq_refl (conj (fun _ _ => eq_refl)
                 (conj (fun _ => eq_refl) (conj (fun _ => eq_refl) eq_refl)))))
              eq_refl eq_refl eq_refl)).
Defined.

(** X16 at a path that is not the root. *)
Lemma only_the_root_path_launches_a_browser_witness :
  run (Scenarios.scrape (js "/favicon.ico")
                        (Scenarios.scrape_env (js "A post") Examples.reply_fenced))
  = (Normal ScrapeWorker.not_found, []).
Proof.
  exact (proj1 (only_the_root_path_launches_a_browser
                  JsonText.parse (js "{}")
                  (Raise (JSError (js "TypeError")
                                  (js "Value is not JSON serializable")))
                  (js "/favicon.ico")
                  (Scenarios.scrape_env (js "A post") Examples.reply_fenced))
               ltac:(discriminate)).
Defined.

(** X17 at a page of 20000 characters. *)
Lemma page_text_is_sent_whole_after_the_close_witness :
  exists answer rest,
    skipn 5 (snd (run (Scenarios.scrape (js "/")
                         (Scenarios.scrape_env (Examples.text_of_length 20000)
                                               Examples.reply_fenced))))
    = {| what :=
           HTTP_fetch
             (Scraper.aiUrl (Examples.env_answering Examples.reply_fenced))
             (Scraper.init (Examples.env_answering Examples.reply_fenced)
                (ScrapeWorker.prompt_head (js "{}")
                 ++ Examples.text_of_length 20000));
         raised := answer |} :: rest.
Proof.
  destruct (page_text_is_sent_whole_after_the_close
              JsonText.parse (js "{}")
              (Raise (JSError (js "TypeError")
                              (js "Value is not JSON serializable")))
              (Scenarios.scrape_env (Examples.text_of_length 20000)
                                    Examples.reply_fenced)
              (Examples.text_of_length 20000)
              eq_refl eq_refl eq_refl eq_refl eq_refl)
    as (answer & rest & E & _).
  exists answer, rest. unfold Scenarios.scrape. rewrite E. reflexivity.
Defined.

(** X18 at a site that cannot be reached, at a browser whose close
    raises, and at a model service that answers 503. *)
Lemma extraction_worker_rethrows_witness :
  (fst (run (Scenarios.scrape (js "/") Scenarios.scrape_env_unreachable))
   = Raise (JSError (js "Error") (js "net::ERR_NAME_NOT_RESOLVED")) /\
   count_calls is_close
     (snd (run (Scenarios.scrape (js "/") Scenarios.scrape_env_unreachable)))
   = 0) /\
  run (Scenarios.scrape (js "/") Scenarios.scrape_env_close_fails)
  = (Raise (JSError (js "Error") (js "Session closed.")),
     [entry_ok Puppeteer_launch; entry_ok Browser_newPage;
      entry_ok (Page_goto (JStr (js "https://labs.apnic.net/")) None None);
      entry_ok Page_evaluate_innerText;
      {| what := Browser_close;
         raised := Some (JSError (js "Error") (js "Session closed.")) |}]) /\
  fst (run (Scenarios.scrape (js "/") Scenarios.scrape_env_unavailable))
  = Raise (JSError (js "Error")
             (js "LLM call failed https://api.cloudflare.com/client/v4/accounts/acct/ai/run/@hf/thebloke/deepseek-coder-6.7b-instruct-awq 503")).
Proof.
  split; [|split].
  - destruct (proj1 (extraction_worker_rethrows
                       JsonText.parse (js "{}")
                       (Raise (JSError (js "TypeError")
                                       (js "Value is not JSON serializable")))
                       Scenarios.scrape_env_unreachable)
                    (JSError (js "Error") (js "net::ERR_NAME_NOT_RESOLVED"))
                    eq_refl
                    (or_intror (conj eq_refl (or_introl eq_refl))))
      as (E & _ & C).
    split; [exact E | exact C].
  - exact (proj1 (proj2 (proj2
             (extraction_worker_rethrows
                JsonText.parse (js "{}")
                (Raise (JSError (js "TypeError")
                                (js "Value is not JSON serializable")))
                Scenarios.scrape_env_close_fails)))
             (js "A post") (JSError (js "Error") (js "Session closed."))
             eq_refl eq_refl eq_refl eq_refl eq_refl).
  - exact (proj1 (proj1 (proj2 (proj2 (proj2
             (extraction_worker_rethrows
                JsonText.parse (js "{}")
                (Raise (JSError (js "TypeError")
                                (js "Value is not JSON serializable")))
                Scenarios.scrape_env_unavailable))))
             (js "A post")
             {| Scraper.ok := false; Scraper.http_status := 503;
                Scraper.text := Normal (js "Service Unavailable");
                Scraper.json :=
                  Raise (JSError (js "SyntaxError") (js "Unexpected token")) |}
             eq_refl eq_refl eq_refl eq_refl eq_refl eq_refl eq_refl)
             (js "Service Unavailable") eq_refl ltac:(cbn; lia)).
Defined.

(** X19 at an answer of the model service that holds more than the
    result. *)
Lemma extraction_result_is_returned_unchecked_witness :
  fst (run (Scenarios.scrape (js "/")
              (Scenarios.scrape_env_envelope Examples.reply_fenced)))
  = Normal (Response_json_of (JObj [(js "a", JNum (inject_Z 1))]) 200).
Proof.
  exact (extraction_result_is_returned_unchecked
           JsonText.parse (js "{}")
           (Raise (JSError (js "TypeError")
                           (js "Value is not JSON serializable")))
           (Scenarios.scrape_env_envelope Examples.reply_fenced)
           (js "A post")
           {| Scraper.ok := true; Scraper.http_status := 200;
              Scraper.text := Normal [];
              Scraper.json := Normal (Scenarios.envelope Examples.reply_fenced) |}
           (Scenarios.envelope Examples.reply_fenced)
           (Some (JObj [(js "response", JStr Examples.reply_fenced);
                        (js "usage", JObj [(js "total_tokens",
                                            JNum (inject_Z 42))])]))
           Examples.reply_fenced
           eq_refl eq_refl eq_refl eq_refl eq_refl eq_refl eq_refl eq_refl
           eq_refl eq_refl).
Defined.

(** X20 at an answer whose result has no response. *)
Lemma answer_without_text_is_the_empty_candidate_witness :
  fst (run (Scraper.getLLMResult JsonText.parse
              (Scenarios.env_with_body (JObj [(js "result", JObj [])]))
              (js "Extract the first post only.")))
  = Normal undefined.
Proof.
  exact (f_equal fst
           (answer_without_text_is_the_empty_candidate
              JsonText.parse
              (Scenarios.env_with_body (JObj [(js "result", JObj [])]))
              (js "Extract the first post only.")
              _ (JObj [(js "result", JObj [])]) (Some (JObj [])) None
              eq_refl eq_refl eq_refl eq_refl eq_refl eq_refl)).
Defined.

(** X21 at an answer without a result. *)
Lemma answer_of_another_shape_raises_witness :
  exists m,
    fst (run (Scraper.getLLMResult JsonText.parse
                (Scenarios.env_with_body (JObj [(js "success", JBool true)]))
                (js "Extract the first post only.")))
    = Raise (JSError (js "TypeError") m).
Proof.
  destruct (answer_of_another_shape_raises
              JsonText.parse
              (Scenarios.env_with_body (JObj [(js "success", JBool true)]))
              (js "Extract the first post only.")
              _ (JObj [(js "success", JBool true)])
              eq_refl eq_refl eq_refl (or_introl eq_refl))
    as (m & E).
  exists m. exact (f_equal fst E).
Defined.

(** X22 at a url without a scheme. *)
Lemma url_that_is_no_url_is_a_field_error_witness :
  exists issues,
    fst (run (Examples.fetch (Examples.post Scenarios.body_bad_url)
                             (Examples.env_ok [] Examples.page_html)))
    = Normal (Index.validation_failure issues) /\
    field_has (Zod.field_errors issues) (js "url")
              (js "A valid URL is required.").
Proof.
  destruct (url_that_is_no_url_is_a_field_error
              Examples.messages Examples.http_url
              (Examples.post Scenarios.body_bad_url)
              (Examples.env_ok [] Examples.page_html)
              [(js "url", JStr (js "example.com"));
               (js "action", JStr (js "extract_html"))]
              (js "example.com")
              eq_refl eq_refl eq_refl eq_refl)
    as (issues & E & _ & _ & F).
  exists issues. split; [exact (f_equal fst E) | exact F].
Defined.

(** X23 at the action screenshot. *)
Lemma unknown_action_is_refused_witness :
  exists issues,
    fst (run (Examples.fetch (Examples.post Scenarios.body_bad_action)
                             (Examples.env_ok [] Examples.page_html)))
    = Normal (Index.validation_failure issues).
Proof.
  destruct (unknown_action_is_refused
              Examples.messages Examples.http_url
              (Examples.post Scenarios.body_bad_action)
              (Examples.env_ok [] Examples.page_html)
              [(js "url", JStr Examples.example_url);
               (js "action", JStr (js "screenshot"))]
              (js "screenshot")
              eq_refl eq_refl eq_refl
              ltac:(vm_compute; intuition discriminate))
    as (issues & E & _).
  exists issues. exact (f_equal fst E).
Defined.

(** X24 at the body [null]. *)
Lemma body_that_is_no_object_is_refused_witness :
  exists i,
    fst (run (Examples.fetch (Examples.post JNull)
                             (Examples.env_ok [] Examples.page_html)))
    = Normal (Index.validation_failure [i]) /\
    Zod.path i = [].
Proof.
  destruct (body_that_is_no_object_is_refused
              Examples.messages Examples.http_url
              (Examples.post JNull)
              (Examples.env_ok [] Examples.page_html)
              JNull eq_refl eq_refl ltac:(discriminate))
    as (i & E & _ & P & _).
  exists i. split; [exact (f_equal fst E) | exact P].
Defined.

(** X25 at a request to describe the page. *)
Lemma image_analysis_sends_prompt_and_screenshot_witness :
  exists p,
    Index.prompt Scenarios.data_analyze = Some p /\ p <> [].
Proof.
  destruct (image_analysis_sends_prompt_and_screenshot
              Examples.messages Examples.http_url
              (Examples.post (Examples.body_analyze "Describe the page"))
              (Examples.env_ok [] Examples.page_html)
              (Examples.body_analyze "Describe the page")
              Scenarios.data_analyze
              eq_refl eq_refl eq_refl eq_refl)
    as (p & Hp & Hne & _).
  exists p. split; [exact Hp | exact Hne].
Defined.

(** X26 at a model that answers with a description. *)
Lemma model_answer_without_response_witness :
  exists r,
    fst (run (Examples.fetch (Examples.post Examples.body_summarize)
                             Scenarios.env_describing))
    = Normal r /\
    status r = 200%Z /\ body_member r "data" "aiResponse" = None.
Proof.
  destruct (proj1 (model_answer_without_response
                     Examples.messages Examples.http_url
                     (Examples.post Examples.body_summarize)
                     Scenarios.env_describing
                     Examples.body_summarize Examples.data_summarize
                     (Some (JObj [(js "description", JStr (js "A page."))]))
                     eq_refl eq_refl eq_refl
                     (conj eq_refl (conj eq_refl (conj (fun _ _ => eq_refl)
                        (conj (fun _ => eq_refl) (conj (fun _ => eq_refl) eq_refl)))))
                     (or_introl
                        (conj eq_refl
                           (ex_intro _ (js "Some page text")
                              (conj eq_refl eq_refl)))))
                  eq_refl)
    as (r & E & S & A & _).
  exists r. split; [exact E|]. split; [exact S | exact A].
Defined.

(** X27 at an analyze_image request with the empty prompt. *)
Lemma empty_prompt_is_refused_witness :
  exists issues,
    fst (run (Examples.fetch (Examples.post Scenarios.body_empty_prompt)
                             (Examples.env_ok [] Examples.page_html)))
    = Normal (Index.validation_failure issues) /\
    In Index.prompt_issue issues.
Proof.
  destruct (empty_prompt_is_refused
              Examples.messages Examples.http_url
              (Examples.post Scenarios.body_empty_prompt)
              (Examples.env_ok [] Examples.page_html)
              [(js "url", JStr Examples.example_url);
               (js "action", JStr (js "analyze_image"));
               (js "prompt", JStr [])]
              eq_refl eq_refl eq_refl eq_refl)
    as (issues & E & _ & Hi).
  exists issues. split; [exact (f_equal fst E) | exact (proj1 (Hi eq_refl))].
Defined.

(** X28 at the extract_html request of the first scenario. *)
Lemma success_metadata_echo_the_request_witness :
  body_member
    (Index.success Examples.data_extract_html
                   [(js "html", Some (JStr Examples.page_html))] 1000 1250)
    "metadata" "executionTimeMs"
  = Some (JNum (inject_Z 250)).
Proof.
  exact (proj2 (proj2 (success_metadata_echo_the_request
                         Examples.messages Examples.http_url
                         (Examples.post Examples.body_extract_html)
                         (Examples.env_ok [] Examples.page_html)
                         [(js "url", JStr Examples.example_url);
                          (js "action", JStr (js "extract_html"))]
                         Examples.data_extract_html
                         (Index.success Examples.data_extract_html
                            [(js "html", Some (JStr Examples.page_html))]
                            1000 1250)
                         Examples.example_url (js "extract_html")
                         eq_refl eq_refl eq_refl eq_refl eq_refl
                         eq_refl eq_refl))).
Defined.

(** X29 at the reading of the markup in the first scenario. *)
Lemma page_is_read_only_after_navigation_witness :
  exists tail,
    snd (run (Examples.fetch (Examples.post Examples.body_extract_html)
                             (Examples.env_ok [] Examples.page_html)))
    = [entry_ok Date_now; entry_ok Request_json]
      ++ nav_trace Examples.example_url Index.default_renderOptions ++ tail /\
    In (entry_ok Page_content) tail.
Proof.
  exact (page_is_read_only_after_navigation
           Examples.messages Examples.http_url
           (Examples.post Examples.body_extract_html)
           (Examples.env_ok [] Examples.page_html)
           Examples.body_extract_html Examples.data_extract_html
           (entry_ok Page_content)
           eq_refl eq_refl eq_refl
           ltac:(vm_compute; tauto) eq_refl).
Defined.

(** X30 at a viewport of width 0. *)
Lemma viewport_must_hold_positive_integers_witness :
  exists issues,
    fst (run (Examples.fetch (Examples.post Scenarios.body_bad_viewport)
                             (Examples.env_ok [] Examples.page_html)))
    = Normal (Index.validation_failure issues).
Proof.
  destruct (viewport_must_hold_positive_integers
              Examples.messages Examples.http_url
              (Examples.post Scenarios.body_bad_viewport)
              (Examples.env_ok [] Examples.page_html)
              [(js "url", JStr Examples.example_url);
               (js "action", JStr (js "extract_html"));
               (js "renderOptions",
                JObj [(js "viewport",
                       JObj [(js "width", JNum (inject_Z 0));
                             (js "height", JNum (inject_Z 600))])])]
              [(js "viewport",
                JObj [(js "width", JNum (inject_Z 0));
                      (js "height", JNum (inject_Z 600))])]
              [(js "width", JNum (inject_Z 0));
               (js "height", JNum (inject_Z 600))]
              (inject_Z 0)
              eq_refl eq_refl eq_refl eq_refl (or_introl eq_refl) eq_refl)
    as (issues & E & _).
  exists issues. exact (f_equal fst E).
Defined.
